(** * Weather model viewer: forecast hours, run times, fetcher and playback

    A shallow embedding of [main.py]: the forecast-hour generator, the
    run-time catalog, the threaded sequence fetcher with its event queue and
    the playback part of [WeatherApp].  Part I holds the embedding, Part II
    the lemmas and theorems about it. *)

From Stdlib Require Import ZArith List String Ascii Bool Lia Sorted.
From Corelib Require Import PrimFloat.
Import ListNotations.

Local Open Scope string_scope.
Local Open Scope Z_scope.

(** * Part I: the embedding *)

(** ** Exceptions

    Only the classes that the modelled code can raise.  [display_frame]
    catches all of them with [except Exception]. *)

Inductive exn : Type :=
  | IndexError
  | TypeError
  | ValueError
  | OverflowError
  | ImageError.

Inductive result (A : Type) : Type :=
  | Ok (a : A)
  | Raise (e : exn).

Arguments Ok {A} a.
Arguments Raise {A} e.

Definition bind {A B : Type} (r : result A) (k : A -> result B) : result B :=
  match r with
  | Ok a => k a
  | Raise e => Raise e
  end.

Notation "x <- r ;; k" := (bind r (fun x => k))
  (at level 61, r at next level, right associativity).

(** ** Python built-ins used by the program *)

Module Py.

(** [range(start, stop, step)] for a positive step, as the list it yields. *)
Definition range_len (start stop step : Z) : nat :=
  Z.to_nat ((stop - start + step - 1) / step).

Definition range (start stop step : Z) : list Z :=
  map (fun i => start + Z.of_nat i * step) (seq 0 (range_len start stop step)).

(** [x in xs] for a list of strings. *)
Fixpoint str_in (x : string) (xs : list string) : bool :=
  match xs with
  | [] => false
  | y :: ys => if String.eqb x y then true else str_in x ys
  end.

(** [s.split(sep)] for a one-character separator: one more piece than
    there are separators, empty pieces kept. *)
Fixpoint split (sep : ascii) (s : string) : list string :=
  match s with
  | EmptyString => [EmptyString]
  | String c s' =>
      if Ascii.eqb c sep then EmptyString :: split sep s'
      else match split sep s' with
           | [] => [String c EmptyString]
           | p :: ps => String c p :: ps
           end
  end.

(** [c in s] for a character. *)
Fixpoint has_char (c : ascii) (s : string) : bool :=
  match s with
  | EmptyString => false
  | String c' s' => Ascii.eqb c' c || has_char c s'
  end.

(** [xs[i]] on a list: negative indices count from the end, anything out
    of range raises [IndexError]. *)
Definition index {A : Type} (xs : list A) (i : Z) : result A :=
  let n := Z.of_nat (List.length xs) in
  let j := if i <? 0 then i + n else i in
  if (0 <=? j) && (j <? n) then
    match nth_error xs (Z.to_nat j) with
    | Some x => Ok x
    | None => Raise IndexError
    end
  else Raise IndexError.

(** [os.path.basename(p)] on POSIX: what follows the last slash. *)
Definition basename (p : string) : string :=
  last (split "/" p) EmptyString.

Definition ends_with_slash (p : string) : bool :=
  match rev (list_ascii_of_string p) with
  | c :: _ => Ascii.eqb c "/"
  | [] => false
  end.

(** [os.path.join(a, b)] on POSIX. *)
Definition path_join (a b : string) : string :=
  match b with
  | String "/" _ => b
  | _ =>
      if (String.length a =? 0)%nat || ends_with_slash a then a ++ b
      else a ++ "/" ++ b
  end.

Definition digit_char (d : Z) : ascii :=
  ascii_of_N (48 + Z.to_N d).

Fixpoint digits_fuel (fuel : nat) (n : Z) (acc : string) : string :=
  match fuel with
  | O => acc
  | S f =>
      let acc' := String (digit_char (n mod 10)) acc in
      if n <? 10 then acc' else digits_fuel f (n / 10) acc'
  end.

(** [str(n)] for [n >= 0]. *)
Definition str_of_nonneg (n : Z) : string :=
  digits_fuel (S (Z.to_nat (Z.log2 n))) n EmptyString.

Fixpoint zeros (k : nat) : string :=
  match k with
  | O => EmptyString
  | S k' => String "0" (zeros k')
  end.

Definition zfill (w : nat) (s : string) : string :=
  zeros (w - String.length s) ++ s.

(** [f"{n:0wd}"]: decimal, padded with zeros to width [w], the sign
    counted in the width. *)
Definition fmt_d (w : nat) (n : Z) : string :=
  if n <? 0 then "-" ++ zfill (w - 1) (str_of_nonneg (- n))
  else zfill w (str_of_nonneg n).

Definition is_digit (c : ascii) : bool :=
  let n := Z.of_N (N_of_ascii c) in (48 <=? n) && (n <=? 57).

Definition digit_val (c : ascii) : Z := Z.of_N (N_of_ascii c) - 48.

Definition is_space (c : ascii) : bool :=
  let n := Z.of_N (N_of_ascii c) in
  (n =? 32) || ((9 <=? n) && (n <=? 13)).

Fixpoint lstrip (cs : list ascii) : list ascii :=
  match cs with
  | c :: cs' => if is_space c then lstrip cs' else cs
  | [] => []
  end.

Definition strip (cs : list ascii) : list ascii :=
  rev (lstrip (rev (lstrip cs))).

Fixpoint digits_value (acc : Z) (cs : list ascii) : result Z :=
  match cs with
  | [] => Ok acc
  | c :: cs' =>
      if is_digit c then digits_value (10 * acc + digit_val c) cs'
      else Raise ValueError
  end.

Definition unsigned_value (cs : list ascii) : result Z :=
  match cs with
  | [] => Raise ValueError
  | _ => digits_value 0 cs
  end.

(** [int(s)] on a string of ASCII characters: surrounding white space, an
    optional sign, then decimal digits.  (Underscore separators are left
    out: the program applies [int] to a piece of [split('_')].) *)
Definition int (s : string) : result Z :=
  match strip (list_ascii_of_string s) with
  | "-"%char :: cs => v <- unsigned_value cs ;; Ok (- v)
  | "+"%char :: cs => unsigned_value cs
  | cs => unsigned_value cs
  end.

(** [f"{n:0wd}"] has width [w] and reads back as [n] with [int], for every
    [n] from 0 below [bound]. *)
Definition fmt_table (w : nat) (bound : Z) : bool :=
  forallb
    (fun n =>
       (String.length (fmt_d w n) =? w)%nat
       && match int (fmt_d w n) with
          | Ok v => v =? n
          | Raise _ => false
          end)
    (range 0 bound 1).

(** [d[k] = v] on a dict kept in insertion order. *)
Fixpoint dict_set {V : Type} (d : list (string * V)) (k : string) (v : V)
  : list (string * V) :=
  match d with
  | [] => [(k, v)]
  | (k', v') :: d' =>
      if String.eqb k' k then (k', v) :: d'
      else (k', v') :: dict_set d' k v
  end.

Fixpoint dict_get {V : Type} (d : list (string * V)) (k : string) : option V :=
  match d with
  | [] => None
  | (k', v) :: d' => if String.eqb k' k then Some v else dict_get d' k
  end.

(** Python numbers as far as the program uses them: the progress value is
    the float [(i + 1) / total * 100] or the int [100]. *)
Inductive number : Type :=
  | Int (z : Z)
  | Float (f : float).

Fixpoint float_of_pos (p : positive) : float :=
  match p with
  | xH => 1%float
  | xO p' => PrimFloat.mul 2 (float_of_pos p')
  | xI p' => PrimFloat.add (PrimFloat.mul 2 (float_of_pos p')) 1
  end.

(** [float(z)], exact below 2^53. *)
Definition float_of_Z (z : Z) : float :=
  match z with
  | Z0 => 0%float
  | Zpos p => float_of_pos p
  | Zneg p => PrimFloat.opp (float_of_pos p)
  end.


(** [a / b] on two ints (true division) and [x * k] with a float left
    operand. *)
Definition truediv (a b : Z) : float :=
  PrimFloat.div (float_of_Z a) (float_of_Z b).

Definition fmul (x : float) (k : Z) : float :=
  PrimFloat.mul x (float_of_Z k).



End Py.

(** ** The [datetime] module

    A naive [datetime] keeps its calendar fields; arithmetic with a
    [timedelta] goes through the proleptic Gregorian ordinal, as in the
    library. *)

Module Datetime.

Record datetime : Type := mk
  { year : Z; month : Z; day : Z;
    hour : Z; minute : Z; second : Z; microsecond : Z }.

Definition MINYEAR : Z := 1.
Definition MAXYEAR : Z := 9999.
Definition MAXORDINAL : Z := 3652059.
Definition DI400Y : Z := 146097.
Definition DI100Y : Z := 36524.
Definition DI4Y : Z := 1461.

Definition DAYS_IN_MONTH : list Z :=
  [-1; 31; 28; 31; 30; 31; 30; 31; 31; 30; 31; 30; 31].

Definition DAYS_BEFORE_MONTH : list Z :=
  [-1; 0; 31; 59; 90; 120; 151; 181; 212; 243; 273; 304; 334].

Definition tbl (t : list Z) (m : Z) : Z := nth (Z.to_nat m) t 0.

Definition is_leap (y : Z) : bool :=
  (y mod 4 =? 0) && (negb (y mod 100 =? 0) || (y mod 400 =? 0)).

Definition days_before_year (y : Z) : Z :=
  let y' := y - 1 in
  y' * 365 + y' / 4 - y' / 100 + y' / 400.

Definition days_in_month (y m : Z) : Z :=
  if (m =? 2) && is_leap y then 29 else tbl DAYS_IN_MONTH m.

Definition days_before_month (y m : Z) : Z :=
  tbl DAYS_BEFORE_MONTH m + (if (2 <? m) && is_leap y then 1 else 0).

Definition ymd2ord (y m d : Z) : Z :=
  days_before_year y + days_before_month y m + d.

Definition ord2ymd (ordinal : Z) : Z * Z * Z :=
  let n := ordinal - 1 in
  let n400 := n / DI400Y in
  let n := n mod DI400Y in
  let n100 := n / DI100Y in
  let n := n mod DI100Y in
  let n4 := n / DI4Y in
  let n := n mod DI4Y in
  let n1 := n / 365 in
  let n := n mod 365 in
  let y := n400 * 400 + 1 + n100 * 100 + n4 * 4 + n1 in
  if (n1 =? 4) || (n100 =? 4) then (y - 1, 12, 31)
  else
    let leapyear := (n1 =? 3) && (negb (n4 =? 24) || (n100 =? 3)) in
    let m := Z.shiftr (n + 50) 5 in
    let preceding :=
      tbl DAYS_BEFORE_MONTH m + (if (2 <? m) && leapyear then 1 else 0) in
    if n <? preceding then
      let m' := m - 1 in
      let preceding' :=
        preceding
        - (tbl DAYS_IN_MONTH m' + (if (m' =? 2) && leapyear then 1 else 0)) in
      (y, m', n - preceding' + 1)
    else (y, m, n - preceding + 1).

Definition toordinal (dt : datetime) : Z :=
  ymd2ord (year dt) (month dt) (day dt).

(** The constructor's checks; a violation is a [ValueError]. *)
Definition valid (dt : datetime) : bool :=
  (MINYEAR <=? year dt) && (year dt <=? MAXYEAR)
  && (1 <=? month dt) && (month dt <=? 12)
  && (1 <=? day dt) && (day dt <=? days_in_month (year dt) (month dt))
  && (0 <=? hour dt) && (hour dt <=? 23)
  && (0 <=? minute dt) && (minute dt <=? 59)
  && (0 <=? second dt) && (second dt <=? 59)
  && (0 <=? microsecond dt) && (microsecond dt <=? 999999).

Definition make (y m d hh mm ss us : Z) : result datetime :=
  let dt := mk y m d hh mm ss us in
  if valid dt then Ok dt else Raise ValueError.

(** [dt + timedelta(hours=h)]; [dt - timedelta(hours=h)] is
    [add_hours dt (- h)].  A result outside years 1..9999 (which covers a
    [timedelta] that is itself out of range) is an [OverflowError]. *)
Definition add_hours (dt : datetime) (h : Z) : result datetime :=
  let secs := hour dt * 3600 + minute dt * 60 + second dt + h * 3600 in
  let days := toordinal dt + secs / 86400 in
  let s := secs mod 86400 in
  if (0 <? days) && (days <=? MAXORDINAL) then
    let '(y, m, d) := ord2ymd days in
    Ok (mk y m d (s / 3600) (s mod 3600 / 60) (s mod 60) (microsecond dt))
  else Raise OverflowError.

(** [dt.replace(hour=hh, minute=mm, second=ss, microsecond=us)]. *)
Definition replace_time (dt : datetime) (hh mm ss us : Z) : result datetime :=
  make (year dt) (month dt) (day dt) hh mm ss us.

(** [dt.strftime(fmt)] for the directives the program uses, each padded
    with zeros to its width ([%Y] to four digits). *)
Fixpoint strftime_chars (dt : datetime) (fmt : list ascii) : string :=
  match fmt with
  | "%"%char :: "Y"%char :: r => Py.fmt_d 4 (year dt) ++ strftime_chars dt r
  | "%"%char :: "m"%char :: r => Py.fmt_d 2 (month dt) ++ strftime_chars dt r
  | "%"%char :: "d"%char :: r => Py.fmt_d 2 (day dt) ++ strftime_chars dt r
  | "%"%char :: "H"%char :: r => Py.fmt_d 2 (hour dt) ++ strftime_chars dt r
  | "%"%char :: "M"%char :: r => Py.fmt_d 2 (minute dt) ++ strftime_chars dt r
  | c :: r => String c (strftime_chars dt r)
  | [] => EmptyString
  end.

Definition strftime (dt : datetime) (fmt : string) : string :=
  strftime_chars dt (list_ascii_of_string fmt).

(** [datetime.strptime(s, fmt)]: the format is compiled to a regular
    expression whose groups are tried in the order of their alternatives,
    with backtracking; the first match must use up the whole string. *)
Inductive directive : Type :=
  | DY | Dm | Dd | DH | DM
  | DLit (c : ascii).

Fixpoint compile (fmt : list ascii) : list directive :=
  match fmt with
  | "%"%char :: "Y"%char :: r => DY :: compile r
  | "%"%char :: "m"%char :: r => Dm :: compile r
  | "%"%char :: "d"%char :: r => Dd :: compile r
  | "%"%char :: "H"%char :: r => DH :: compile r
  | "%"%char :: "M"%char :: r => DM :: compile r
  | c :: r => DLit c :: compile r
  | [] => []
  end.

Definition between (lo hi c : ascii) : bool :=
  let n := N_of_ascii c in
  (N_of_ascii lo <=? n)%N && (n <=? N_of_ascii hi)%N.

Definition one (p : ascii -> bool) (s : list ascii) : list (Z * list ascii) :=
  match s with
  | a :: r => if p a then [(Py.digit_val a, r)] else []
  | [] => []
  end.

Definition two (p : ascii -> bool) (q : ascii -> bool) (s : list ascii)
  : list (Z * list ascii) :=
  match s with
  | a :: b :: r =>
      if p a && q b then [(10 * Py.digit_val a + Py.digit_val b, r)] else []
  | _ => []
  end.

Definition alternatives (d : directive) (s : list ascii)
  : list (Z * list ascii) :=
  match d with
  | DY =>
      match s with
      | a :: b :: c :: e :: r =>
          if Py.is_digit a && Py.is_digit b && Py.is_digit c && Py.is_digit e
          then [(1000 * Py.digit_val a + 100 * Py.digit_val b
                 + 10 * Py.digit_val c + Py.digit_val e, r)]
          else []
      | _ => []
      end
  | Dm =>
      (two (Ascii.eqb "1") (between "0" "2") s
       ++ two (Ascii.eqb "0") (between "1" "9") s
       ++ one (between "1" "9") s)%list
  | Dd =>
      (two (Ascii.eqb "3") (between "0" "1") s
       ++ two (between "1" "2") Py.is_digit s
       ++ two (Ascii.eqb "0") (between "1" "9") s
       ++ one (between "1" "9") s
       ++ match s with
          | " "%char :: r => one (between "1" "9") r
          | _ => []
          end)%list
  | DH =>
      (two (Ascii.eqb "2") (between "0" "3") s
       ++ two (between "0" "1") Py.is_digit s
       ++ one Py.is_digit s)%list
  | DM =>
      (two (between "0" "5") Py.is_digit s
       ++ one Py.is_digit s)%list
  | DLit c =>
      match s with
      | a :: r => if Ascii.eqb a c then [(0, r)] else []
      | [] => []
      end
  end.

(** Fields found so far; the defaults are those of [strptime]. *)
Definition defaults : datetime := mk 1900 1 1 0 0 0 0.

Definition set_field (d : directive) (v : Z) (f : datetime) : datetime :=
  match d with
  | DY => mk v (month f) (day f) (hour f) (minute f) (second f) (microsecond f)
  | Dm => mk (year f) v (day f) (hour f) (minute f) (second f) (microsecond f)
  | Dd => mk (year f) (month f) v (hour f) (minute f) (second f) (microsecond f)
  | DH => mk (year f) (month f) (day f) v (minute f) (second f) (microsecond f)
  | DM => mk (year f) (month f) (day f) (hour f) v (second f) (microsecond f)
  | DLit _ => f
  end.

Fixpoint matches (ds : list directive) (s : list ascii) (f : datetime)
  : list (datetime * list ascii) :=
  match ds with
  | [] => [(f, s)]
  | d :: ds' =>
      flat_map (fun vr => matches ds' (snd vr) (set_field d (fst vr) f))
               (alternatives d s)
  end.

Definition strptime (s fmt : string) : result datetime :=
  match matches (compile (list_ascii_of_string fmt))
                (list_ascii_of_string s) defaults with
  | [] => Raise ValueError
  | (f, rest) :: _ =>
      match rest with
      | [] => if valid f then Ok f else Raise ValueError
      | _ :: _ => Raise ValueError
      end
  end.

(** The month and day of the [n]-th day (from 0) of a year. *)
Definition month_day (n : Z) (leapyear : bool) : Z * Z :=
  let m := Z.shiftr (n + 50) 5 in
  let preceding :=
    tbl DAYS_BEFORE_MONTH m + (if (2 <? m) && leapyear then 1 else 0) in
  if n <? preceding then
    let m' := m - 1 in
    let preceding' :=
      preceding
      - (tbl DAYS_IN_MONTH m' + (if (m' =? 2) && leapyear then 1 else 0)) in
    (m', n - preceding' + 1)
  else (m, n - preceding + 1).

(** What [month_day] has to satisfy: a month and a day of that month,
    [n] days after the first of January. *)
Definition month_day_ok (n : Z) (leapyear : bool) : bool :=
  let '(m, d) := month_day n leapyear in
  (1 <=? m) && (m <=? 12) && (1 <=? d)
  && (d <=? (if (m =? 2) && leapyear then 29 else tbl DAYS_IN_MONTH m))
  && (tbl DAYS_BEFORE_MONTH m + (if (2 <? m) && leapyear then 1 else 0) + d
      =? n + 1).

(** The check of [month_day_ok] on every day of a year. *)
Definition month_day_table : bool :=
  forallb (fun n => month_day_ok n false && month_day_ok n true)
          (Py.range 0 365 1).

(** Whole hours from 0001-01-01T00:00 to the hour of [dt]. *)
Definition hours_since_min (dt : datetime) : Z :=
  (toordinal dt - 1) * 24 + hour dt.

(** The datetime at the full hour that lies [t] hours after
    0001-01-01T00:00. *)
Definition of_hours (t : Z) : datetime :=
  let '(y, m, d) := ord2ymd (t / 24 + 1) in
  mk y m d (t mod 24) 0 0 0.

End Datetime.

(** ** Forecast Hour Generator *)

Definition generate_forecast_hours (model : string) : list Z :=
  if Py.str_in model ["gfs"; "ecmwf_full"] then
    (Py.range 0 241 3 ++ Py.range 246 385 6)%list
  else if String.eqb model "nam" then
    Py.range 0 85 1
  else if String.eqb model "hrrr" then
    Py.range 0 49 1
  else
    Py.range 0 241 6.

(** ** Run Time Catalog

    [now_utc] is the reading of [datetime.datetime.utcnow()]. *)

(** The [dt_obj] of iteration [i]. *)
Definition run_time_dt (now_utc : Datetime.datetime) (i : Z)
  : result Datetime.datetime :=
  run_time_to_check <- Datetime.add_hours now_utc (- (i * 6)) ;;
  let run_hour := Datetime.hour run_time_to_check / 6 * 6 in
  Datetime.replace_time run_time_to_check run_hour 0 0 0.

Definition run_time_entry (dt_obj : Datetime.datetime) (i : Z)
  : string * string :=
  let display_text := Datetime.strftime dt_obj "%Y-%m-%d %HZ" in
  let display_text :=
    if i =? 0 then display_text ++ " (Latest)" else display_text in
  let run_time_str := Datetime.strftime dt_obj "%Y%m%d%H" in
  (display_text, run_time_str).

Fixpoint run_times_loop (now_utc : Datetime.datetime) (idxs : list Z)
  (run_times : list (string * string)) : result (list (string * string)) :=
  match idxs with
  | [] => Ok run_times
  | i :: idxs' =>
      dt_obj <- run_time_dt now_utc i ;;
      let '(display_text, run_time_str) := run_time_entry dt_obj i in
      run_times_loop now_utc idxs' (Py.dict_set run_times display_text run_time_str)
  end.

Definition generate_run_times (now_utc : Datetime.datetime)
  : result (list (string * string)) :=
  run_times_loop now_utc (Py.range 0 8 1) [].

(** ** Sequence Fetcher *)

(** What the worker thread puts on the queue. *)
Inductive event : Type :=
  | Progress (value : Py.number)
  | Result (run_time : string) (paths : list string).

(** What [requests.get(url, stream=True)] does: a response with its
    status, whose body is read on demand ([None]: reading [.content]
    raises a [RequestException]), or a [RequestException] at once. *)
Inductive response : Type :=
  | Response (status_code : Z) (content : option string)
  | RequestException.

(** The locals of the worker and the world it writes to: the queue, the
    files under [save_dir] and the URLs requested so far.  Writing a file
    always succeeds; the creation of [save_dir] and the lines printed to
    the console are not part of the state. *)
Record fetch_state : Type := mkFetch
  { q : list event;
    files : list (string * string);
    requested : list string;
    downloaded_paths : list string;
    consecutive_failures : Z }.

Definition put (e : event) (st : fetch_state) : fetch_state :=
  mkFetch (q st ++ [e])%list (files st) (requested st)
          (downloaded_paths st) (consecutive_failures st).

Definition write_file (path content : string) (st : fetch_state) : fetch_state :=
  mkFetch (q st) (Py.dict_set (files st) path content) (requested st)
          (downloaded_paths st) (consecutive_failures st).

Definition request (url : string) (st : fetch_state) : fetch_state :=
  mkFetch (q st) (files st) (requested st ++ [url])%list
          (downloaded_paths st) (consecutive_failures st).

Definition append_path (path : string) (st : fetch_state) : fetch_state :=
  mkFetch (q st) (files st) (requested st)
          (downloaded_paths st ++ [path])%list (consecutive_failures st).

Definition set_failures (n : Z) (st : fetch_state) : fetch_state :=
  mkFetch (q st) (files st) (requested st) (downloaded_paths st) n.

Section Fetcher.

(** The network, as seen from the worker. *)
Variable net : string -> response.

Variables base_url model run_time parameter region save_dir : string.

Definition frame_url (hour : Z) : string :=
  base_url ++ "/maps/models/" ++ model ++ "/" ++ run_time ++ "/"
  ++ Py.fmt_d 3 hour ++ "/" ++ parameter ++ "." ++ region ++ ".png".

Definition frame_file (hour : Z) : string :=
  Py.path_join save_dir
    (model ++ "_" ++ run_time ++ "_" ++ Py.fmt_d 3 hour ++ "_"
     ++ parameter ++ "_" ++ region ++ ".png").

(** The body of the [try] statement for one forecast hour. *)
Definition attempt (hour : Z) (st : fetch_state) : fetch_state :=
  let url := frame_url hour in
  let file_path := frame_file hour in
  let st := request url st in
  match net url with
  | Response status_code content =>
      if status_code =? 200 then
        let st := set_failures 0 st in
        match content with
        | Some bytes => append_path file_path (write_file file_path bytes st)
        | None =>
            let st := write_file file_path EmptyString st in
            set_failures (consecutive_failures st + 1) st
        end
      else set_failures (consecutive_failures st + 1) st
  | RequestException => set_failures (consecutive_failures st + 1) st
  end.

(** The progress value put on the queue for index [i]. *)
Definition progress_value (total_images i : Z) : Py.number :=
  Py.Float (Py.fmul (Py.truediv (i + 1) total_images) 100).

(** One pass through the loop body, up to the test of the counter. *)
Definition iteration (total_images i hour : Z) (st : fetch_state)
  : fetch_state :=
  attempt hour (put (Progress (progress_value total_images i)) st).

(** The [for i, hour in enumerate(forecast_hours)] loop from index [i]
    on, [break] included. *)
Fixpoint fetch_loop (total_images : Z) (i : Z) (hours : list Z)
  (st : fetch_state) : fetch_state :=
  match hours with
  | [] => st
  | hour :: rest =>
      let st := iteration total_images i hour st in
      if 3 <=? consecutive_failures st then put (Progress (Py.Int 100)) st
      else fetch_loop total_images (i + 1) rest st
  end.

(** The passes over [hours] alone, one after the other: the states the
    worker goes through as long as it does not leave the loop. *)
Fixpoint iterate (total_images : Z) (i : Z) (hours : list Z)
  (st : fetch_state) : fetch_state :=
  match hours with
  | [] => st
  | hour :: rest =>
      iterate total_images (i + 1) rest (iteration total_images i hour st)
  end.

(** The request of [hour] brought back a complete 200 response. *)
Definition delivered (hour : Z) : bool :=
  match net (frame_url hour) with
  | Response status_code (Some _) => status_code =? 200
  | _ => false
  end.

(** [threaded_fetch_image_sequence]: [q0] and [files0] are the queue and
    the directory as the worker finds them. *)
Definition threaded_fetch_image_sequence (q0 : list event)
  (files0 : list (string * string)) : fetch_state :=
  let forecast_hours := generate_forecast_hours model in
  let total_images := Z.of_nat (List.length forecast_hours) in
  let st := mkFetch q0 files0 [] [] 0 in
  let st := fetch_loop total_images 0 forecast_hours st in
  put (Result run_time (downloaded_paths st)) st.


End Fetcher.





(** ** The application: state, playback and the event loop *)

Inductive widget_state : Type := Normal | Disabled.

Inductive button_text : Type := PlayText | PauseText.

(** A decoded image, as [ImageTk.PhotoImage] holds it. *)
Inductive photo : Type := PhotoImage (data : string).

(** What the image label shows. *)
Inductive label : Type :=
  | Text (s : string)
  | Image (p : photo)
  | ErrorDisplaying (filepath : string) (e : exn).

Record fetch_args : Type := mkArgs
  { arg_base_url : string; arg_model : string; arg_run_time : string;
    arg_parameter : string; arg_region : string }.

Record App : Type := mkApp
  { run_times : list (string * string);
    image_paths : list string;
    current_frame_index : Z;
    model_run_time : option string;
    is_playing : bool;
    animation_job : option nat;
    fetch_queue : list event;
    model_var : string;
    region_var : string;
    param_var : string;
    run_time_var : string;
    fetch_button : widget_state;
    controls : widget_state;
    progress_bar : Py.number;
    slider_to : Z;
    slider_value : Z;
    image_label : label;
    tk_image : option photo;
    run_time_label : string;
    forecast_hour_label : string;
    valid_time_label : string;
    play_button_text : button_text;
    animation_frame_packed : bool;
    timers : list nat;
    next_timer : nat;
    dialogs : list (string * string);
    threads : list fetch_args }.

Definition set_image_paths (v : list string) (s : App) : App :=
  mkApp (run_times s) v (current_frame_index s) (model_run_time s)
    (is_playing s) (animation_job s) (fetch_queue s) (model_var s)
    (region_var s) (param_var s) (run_time_var s) (fetch_button s) (controls
    s) (progress_bar s) (slider_to s) (slider_value s) (image_label s)
    (tk_image s) (run_time_label s) (forecast_hour_label s)
    (valid_time_label s) (play_button_text s) (animation_frame_packed s)
    (timers s) (next_timer s) (dialogs s) (threads s).

Definition set_current_frame_index (v : Z) (s : App) : App :=
  mkApp (run_times s) (image_paths s) v (model_run_time s) (is_playing s)
    (animation_job s) (fetch_queue s) (model_var s) (region_var s)
    (param_var s) (run_time_var s) (fetch_button s) (controls s)
    (progress_bar s) (slider_to s) (slider_value s) (image_label s)
    (tk_image s) (run_time_label s) (forecast_hour_label s)
    (valid_time_label s) (play_button_text s) (animation_frame_packed s)
    (timers s) (next_timer s) (dialogs s) (threads s).

Definition set_model_run_time (v : option string) (s : App) : App :=
  mkApp (run_times s) (image_paths s) (current_frame_index s) v (is_playing
    s) (animation_job s) (fetch_queue s) (model_var s) (region_var s)
    (param_var s) (run_time_var s) (fetch_button s) (controls s)
    (progress_bar s) (slider_to s) (slider_value s) (image_label s)
    (tk_image s) (run_time_label s) (forecast_hour_label s)
    (valid_time_label s) (play_button_text s) (animation_frame_packed s)
    (timers s) (next_timer s) (dialogs s) (threads s).

Definition set_is_playing (v : bool) (s : App) : App :=
  mkApp (run_times s) (image_paths s) (current_frame_index s)
    (model_run_time s) v (animation_job s) (fetch_queue s) (model_var s)
    (region_var s) (param_var s) (run_time_var s) (fetch_button s) (controls
    s) (progress_bar s) (slider_to s) (slider_value s) (image_label s)
    (tk_image s) (run_time_label s) (forecast_hour_label s)
    (valid_time_label s) (play_button_text s) (animation_frame_packed s)
    (timers s) (next_timer s) (dialogs s) (threads s).

Definition set_animation_job (v : option nat) (s : App) : App :=
  mkApp (run_times s) (image_paths s) (current_frame_index s)
    (model_run_time s) (is_playing s) v (fetch_queue s) (model_var s)
    (region_var s) (param_var s) (run_time_var s) (fetch_button s) (controls
    s) (progress_bar s) (slider_to s) (slider_value s) (image_label s)
    (tk_image s) (run_time_label s) (forecast_hour_label s)
    (valid_time_label s) (play_button_text s) (animation_frame_packed s)
    (timers s) (next_timer s) (dialogs s) (threads s).

Definition set_fetch_queue (v : list event) (s : App) : App :=
  mkApp (run_times s) (image_paths s) (current_frame_index s)
    (model_run_time s) (is_playing s) (animation_job s) v (model_var s)
    (region_var s) (param_var s) (run_time_var s) (fetch_button s) (controls
    s) (progress_bar s) (slider_to s) (slider_value s) (image_label s)
    (tk_image s) (run_time_label s) (forecast_hour_label s)
    (valid_time_label s) (play_button_text s) (animation_frame_packed s)
    (timers s) (next_timer s) (dialogs s) (threads s).

Definition set_model_var (v : string) (s : App) : App :=
  mkApp (run_times s) (image_paths s) (current_frame_index s)
    (model_run_time s) (is_playing s) (animation_job s) (fetch_queue s) v
    (region_var s) (param_var s) (run_time_var s) (fetch_button s) (controls
    s) (progress_bar s) (slider_to s) (slider_value s) (image_label s)
    (tk_image s) (run_time_label s) (forecast_hour_label s)
    (valid_time_label s) (play_button_text s) (animation_frame_packed s)
    (timers s) (next_timer s) (dialogs s) (threads s).

Definition set_region_var (v : string) (s : App) : App :=
  mkApp (run_times s) (image_paths s) (current_frame_index s)
    (model_run_time s) (is_playing s) (animation_job s) (fetch_queue s)
    (model_var s) v (param_var s) (run_time_var s) (fetch_button s)
    (controls s) (progress_bar s) (slider_to s) (slider_value s)
    (image_label s) (tk_image s) (run_time_label s) (forecast_hour_label s)
    (valid_time_label s) (play_button_text s) (animation_frame_packed s)
    (timers s) (next_timer s) (dialogs s) (threads s).

Definition set_param_var (v : string) (s : App) : App :=
  mkApp (run_times s) (image_paths s) (current_frame_index s)
    (model_run_time s) (is_playing s) (animation_job s) (fetch_queue s)
    (model_var s) (region_var s) v (run_time_var s) (fetch_button s)
    (controls s) (progress_bar s) (slider_to s) (slider_value s)
    (image_label s) (tk_image s) (run_time_label s) (forecast_hour_label s)
    (valid_time_label s) (play_button_text s) (animation_frame_packed s)
    (timers s) (next_timer s) (dialogs s) (threads s).

Definition set_run_time_var (v : string) (s : App) : App :=
  mkApp (run_times s) (image_paths s) (current_frame_index s)
    (model_run_time s) (is_playing s) (animation_job s) (fetch_queue s)
    (model_var s) (region_var s) (param_var s) v (fetch_button s) (controls
    s) (progress_bar s) (slider_to s) (slider_value s) (image_label s)
    (tk_image s) (run_time_label s) (forecast_hour_label s)
    (valid_time_label s) (play_button_text s) (animation_frame_packed s)
    (timers s) (next_timer s) (dialogs s) (threads s).

Definition set_fetch_button (v : widget_state) (s : App) : App :=
  mkApp (run_times s) (image_paths s) (current_frame_index s)
    (model_run_time s) (is_playing s) (animation_job s) (fetch_queue s)
    (model_var s) (region_var s) (param_var s) (run_time_var s) v (controls
    s) (progress_bar s) (slider_to s) (slider_value s) (image_label s)
    (tk_image s) (run_time_label s) (forecast_hour_label s)
    (valid_time_label s) (play_button_text s) (animation_frame_packed s)
    (timers s) (next_timer s) (dialogs s) (threads s).

Definition set_controls (v : widget_state) (s : App) : App :=
  mkApp (run_times s) (image_paths s) (current_frame_index s)
    (model_run_time s) (is_playing s) (animation_job s) (fetch_queue s)
    (model_var s) (region_var s) (param_var s) (run_time_var s)
    (fetch_button s) v (progress_bar s) (slider_to s) (slider_value s)
    (image_label s) (tk_image s) (run_time_label s) (forecast_hour_label s)
    (valid_time_label s) (play_button_text s) (animation_frame_packed s)
    (timers s) (next_timer s) (dialogs s) (threads s).

Definition set_progress_bar (v : Py.number) (s : App) : App :=
  mkApp (run_times s) (image_paths s) (current_frame_index s)
    (model_run_time s) (is_playing s) (animation_job s) (fetch_queue s)
    (model_var s) (region_var s) (param_var s) (run_time_var s)
    (fetch_button s) (controls s) v (slider_to s) (slider_value s)
    (image_label s) (tk_image s) (run_time_label s) (forecast_hour_label s)
    (valid_time_label s) (play_button_text s) (animation_frame_packed s)
    (timers s) (next_timer s) (dialogs s) (threads s).

Definition set_slider_to (v : Z) (s : App) : App :=
  mkApp (run_times s) (image_paths s) (current_frame_index s)
    (model_run_time s) (is_playing s) (animation_job s) (fetch_queue s)
    (model_var s) (region_var s) (param_var s) (run_time_var s)
    (fetch_button s) (controls s) (progress_bar s) v (slider_value s)
    (image_label s) (tk_image s) (run_time_label s) (forecast_hour_label s)
    (valid_time_label s) (play_button_text s) (animation_frame_packed s)
    (timers s) (next_timer s) (dialogs s) (threads s).

Definition set_slider_value (v : Z) (s : App) : App :=
  mkApp (run_times s) (image_paths s) (current_frame_index s)
    (model_run_time s) (is_playing s) (animation_job s) (fetch_queue s)
    (model_var s) (region_var s) (param_var s) (run_time_var s)
    (fetch_button s) (controls s) (progress_bar s) (slider_to s) v
    (image_label s) (tk_image s) (run_time_label s) (forecast_hour_label s)
    (valid_time_label s) (play_button_text s) (animation_frame_packed s)
    (timers s) (next_timer s) (dialogs s) (threads s).

Definition set_image_label (v : label) (s : App) : App :=
  mkApp (run_times s) (image_paths s) (current_frame_index s)
    (model_run_time s) (is_playing s) (animation_job s) (fetch_queue s)
    (model_var s) (region_var s) (param_var s) (run_time_var s)
    (fetch_button s) (controls s) (progress_bar s) (slider_to s)
    (slider_value s) v (tk_image s) (run_time_label s) (forecast_hour_label
    s) (valid_time_label s) (play_button_text s) (animation_frame_packed s)
    (timers s) (next_timer s) (dialogs s) (threads s).

Definition set_tk_image (v : option photo) (s : App) : App :=
  mkApp (run_times s) (image_paths s) (current_frame_index s)
    (model_run_time s) (is_playing s) (animation_job s) (fetch_queue s)
    (model_var s) (region_var s) (param_var s) (run_time_var s)
    (fetch_button s) (controls s) (progress_bar s) (slider_to s)
    (slider_value s) (image_label s) v (run_time_label s)
    (forecast_hour_label s) (valid_time_label s) (play_button_text s)
    (animation_frame_packed s) (timers s) (next_timer s) (dialogs s)
    (threads s).

Definition set_run_time_label (v : string) (s : App) : App :=
  mkApp (run_times s) (image_paths s) (current_frame_index s)
    (model_run_time s) (is_playing s) (animation_job s) (fetch_queue s)
    (model_var s) (region_var s) (param_var s) (run_time_var s)
    (fetch_button s) (controls s) (progress_bar s) (slider_to s)
    (slider_value s) (image_label s) (tk_image s) v (forecast_hour_label s)
    (valid_time_label s) (play_button_text s) (animation_frame_packed s)
    (timers s) (next_timer s) (dialogs s) (threads s).

Definition set_forecast_hour_label (v : string) (s : App) : App :=
  mkApp (run_times s) (image_paths s) (current_frame_index s)
    (model_run_time s) (is_playing s) (animation_job s) (fetch_queue s)
    (model_var s) (region_var s) (param_var s) (run_time_var s)
    (fetch_button s) (controls s) (progress_bar s) (slider_to s)
    (slider_value s) (image_label s) (tk_image s) (run_time_label s) v
    (valid_time_label s) (play_button_text s) (animation_frame_packed s)
    (timers s) (next_timer s) (dialogs s) (threads s).

Definition set_valid_time_label (v : string) (s : App) : App :=
  mkApp (run_times s) (image_paths s) (current_frame_index s)
    (model_run_time s) (is_playing s) (animation_job s) (fetch_queue s)
    (model_var s) (region_var s) (param_var s) (run_time_var s)
    (fetch_button s) (controls s) (progress_bar s) (slider_to s)
    (slider_value s) (image_label s) (tk_image s) (run_time_label s)
    (forecast_hour_label s) v (play_button_text s) (animation_frame_packed
    s) (timers s) (next_timer s) (dialogs s) (threads s).

Definition set_play_button_text (v : button_text) (s : App) : App :=
  mkApp (run_times s) (image_paths s) (current_frame_index s)
    (model_run_time s) (is_playing s) (animation_job s) (fetch_queue s)
    (model_var s) (region_var s) (param_var s) (run_time_var s)
    (fetch_button s) (controls s) (progress_bar s) (slider_to s)
    (slider_value s) (image_label s) (tk_image s) (run_time_label s)
    (forecast_hour_label s) (valid_time_label s) v (animation_frame_packed
    s) (timers s) (next_timer s) (dialogs s) (threads s).

Definition set_animation_frame_packed (v : bool) (s : App) : App :=
  mkApp (run_times s) (image_paths s) (current_frame_index s)
    (model_run_time s) (is_playing s) (animation_job s) (fetch_queue s)
    (model_var s) (region_var s) (param_var s) (run_time_var s)
    (fetch_button s) (controls s) (progress_bar s) (slider_to s)
    (slider_value s) (image_label s) (tk_image s) (run_time_label s)
    (forecast_hour_label s) (valid_time_label s) (play_button_text s) v
    (timers s) (next_timer s) (dialogs s) (threads s).

Definition set_timers (v : list nat) (s : App) : App :=
  mkApp (run_times s) (image_paths s) (current_frame_index s)
    (model_run_time s) (is_playing s) (animation_job s) (fetch_queue s)
    (model_var s) (region_var s) (param_var s) (run_time_var s)
    (fetch_button s) (controls s) (progress_bar s) (slider_to s)
    (slider_value s) (image_label s) (tk_image s) (run_time_label s)
    (forecast_hour_label s) (valid_time_label s) (play_button_text s)
    (animation_frame_packed s) v (next_timer s) (dialogs s) (threads s).

Definition set_next_timer (v : nat) (s : App) : App :=
  mkApp (run_times s) (image_paths s) (current_frame_index s)
    (model_run_time s) (is_playing s) (animation_job s) (fetch_queue s)
    (model_var s) (region_var s) (param_var s) (run_time_var s)
    (fetch_button s) (controls s) (progress_bar s) (slider_to s)
    (slider_value s) (image_label s) (tk_image s) (run_time_label s)
    (forecast_hour_label s) (valid_time_label s) (play_button_text s)
    (animation_frame_packed s) (timers s) v (dialogs s) (threads s).

Definition set_dialogs (v : list (string * string)) (s : App) : App :=
  mkApp (run_times s) (image_paths s) (current_frame_index s)
    (model_run_time s) (is_playing s) (animation_job s) (fetch_queue s)
    (model_var s) (region_var s) (param_var s) (run_time_var s)
    (fetch_button s) (controls s) (progress_bar s) (slider_to s)
    (slider_value s) (image_label s) (tk_image s) (run_time_label s)
    (forecast_hour_label s) (valid_time_label s) (play_button_text s)
    (animation_frame_packed s) (timers s) (next_timer s) v (threads s).

Definition set_threads (v : list fetch_args) (s : App) : App :=
  mkApp (run_times s) (image_paths s) (current_frame_index s)
    (model_run_time s) (is_playing s) (animation_job s) (fetch_queue s)
    (model_var s) (region_var s) (param_var s) (run_time_var s)
    (fetch_button s) (controls s) (progress_bar s) (slider_to s)
    (slider_value s) (image_label s) (tk_image s) (run_time_label s)
    (forecast_hour_label s) (valid_time_label s) (play_button_text s)
    (animation_frame_packed s) (timers s) (next_timer s) (dialogs s) v.

(** The tables of [WeatherApp.__init__]. *)
Definition models : list (string * string) :=
  [("GFS", "gfs"); ("NAM", "nam"); ("HRRR", "hrrr"); ("ECMWF", "ecmwf_full")].

Definition base_urls : list (string * string) :=
  [("gfs", "https://m1o.pivotalweather.com");
   ("nam", "https://m1o.pivotalweather.com");
   ("hrrr", "https://m2o.pivotalweather.com");
   ("ecmwf_full", "https://m1o.pivotalweather.com")].

Definition parameters : list (string * string) :=
  [("Composite Reflectivity", "refcmp");
   ("Supercell Composite", "scp");
   ("Significant Tornado", "stp");
   ("Surface-Based CAPE", "sbcape");
   ("Most Unstable CAPE", "mucape");
   ("Updraft Helicity (0-3km)", "uh03_max");
   ("Storm Relative Helicity (0-3km)", "srh03");
   ("Surface-500mb Bulk Shear", "bs0500");
   ("Precipitation Type", "prateptype_cat-imp");
   ("24hr Kuchera Snow Accum", "snku_024h-imp");
   ("Snow Depth", "snod-imp");
   ("Surface Temp", "sfct-imp");
   ("2m Dewpoint", "sfctd-imp");
   ("Surface Relative Humidity", "sfcrh");
   ("Mean Sea Level Pressure", "pmsl_mslp");
   ("10m Wind", "10mwind");
   ("24hr Total Precipitation", "qpf_024h-imp");
   ("500mb Height & Vorticity", "500hv")].

Definition regions : list (string * string) :=
  [("Continental US", "conus"); ("Northeast US", "us_ne");
   ("Southeast US", "us_se"); ("Midwest US", "us_mw");
   ("South Central US", "us_sc"); ("North Central US", "us_nc");
   ("Southwest US", "us_sw"); ("West Coast US", "us_wn");
   ("Pacific Northwest", "us_pnw"); ("North America", "n_america");
   ("Canada", "canada"); ("Alaska", "alaska"); ("Europe", "europe")].

Definition first_key (d : list (string * string)) : string :=
  match d with
  | (k, _) :: _ => k
  | [] => EmptyString
  end.

(** The state after [__init__] and [setup_ui]: nothing loaded, the
    animation controls created disabled and their frame not packed. *)
Definition init (run_times0 : list (string * string)) : App :=
  {| run_times := run_times0;
     image_paths := [];
     current_frame_index := 0;
     model_run_time := None;
     is_playing := false;
     animation_job := None;
     fetch_queue := [];
     model_var := "GFS";
     region_var := "Continental US";
     param_var := first_key parameters;
     run_time_var := first_key run_times0;
     fetch_button := Normal;
     controls := Disabled;
     progress_bar := Py.Int 0;
     slider_to := 100;
     slider_value := 0;
     image_label := Text "Select parameters and click 'Fetch' to begin.";
     tk_image := None;
     run_time_label := "Model Run: --";
     forecast_hour_label := "Forecast Hour: --";
     valid_time_label := "Valid Time: --";
     play_button_text := PlayText;
     animation_frame_packed := false;
     timers := [];
     next_timer := O;
     dialogs := [];
     threads := [] |}.

(** [self.after(ms, callback)] for the animation callback: a fresh
    identifier, pending until it fires or is cancelled. *)
Definition after (s : App) : App * nat :=
  let id := next_timer s in
  (set_next_timer (S id) (set_timers (timers s ++ [id])%list s), id).

Definition after_cancel (id : nat) (s : App) : App :=
  set_timers (filter (fun j => negb (Nat.eqb j id)) (timers s)) s.

Definition set_animation_controls_state (w : widget_state) (s : App) : App :=
  set_controls w s.

(** The three info labels of a frame, computed inside the [try] of
    [display_frame] once the image is on screen. *)
Definition frame_metadata (run : option string) (filepath : string)
  : result (string * string * string) :=
  let filename := Py.basename filepath in
  let parts := Py.split "_" filename in
  hour_str <- Py.index parts 2 ;;
  run_str <- match run with
             | Some r => Ok r
             | None => Raise TypeError
             end ;;
  run_dt_obj <- Datetime.strptime run_str "%Y%m%d%H" ;;
  hours <- Py.int hour_str ;;
  valid_dt_obj <- Datetime.add_hours run_dt_obj hours ;;
  Ok ("Model Run: " ++ Datetime.strftime run_dt_obj "%Y-%m-%d %H:%M" ++ "Z",
      "Forecast Hour: F" ++ hour_str,
      "Valid Time: " ++ Datetime.strftime valid_dt_obj "%Y-%m-%d %H:%M" ++ "Z").

(** A sequence is loaded and [index] is one of its positions. *)
Definition in_range (index : Z) (s : App) : bool :=
  let n := Z.of_nat (List.length (image_paths s)) in
  negb (n =? 0) && (0 <=? index) && (index <? n).

Section Playback.

(** [Image.open] followed by [ImageTk.PhotoImage] on a path: [None] when
    either raises. *)
Variable load : string -> option photo.

(** [slider_value] is [int(self.frame_slider.get())]. *)
Definition display_frame (index : Z) (s : App) : App :=
  let n := Z.of_nat (List.length (image_paths s)) in
  if (n =? 0) || negb ((0 <=? index) && (index <? n)) then s
  else
    let s := set_current_frame_index index s in
    let s := if slider_value s =? index then s else set_slider_value index s in
    let filepath := nth (Z.to_nat index) (image_paths s) EmptyString in
    match load filepath with
    | None => set_image_label (ErrorDisplaying filepath ImageError) s
    | Some img =>
        let s := set_tk_image (Some img) s in
        let s := set_image_label (Image img) s in
        match frame_metadata (model_run_time s) filepath with
        | Ok (run_text, hour_text, valid_text) =>
            let s := set_run_time_label run_text s in
            let s := set_forecast_hour_label hour_text s in
            set_valid_time_label valid_text s
        | Raise e => set_image_label (ErrorDisplaying filepath e) s
        end
    end.

Definition on_slider_move (value : Z) (s : App) : App :=
  display_frame value s.

Definition next_frame (s : App) : App :=
  match image_paths s with
  | [] => s
  | _ :: _ =>
      let n := Z.of_nat (List.length (image_paths s)) in
      let new_index := (current_frame_index s + 1) mod n in
      display_frame new_index s
  end.

Definition prev_frame (s : App) : App :=
  match image_paths s with
  | [] => s
  | _ :: _ =>
      let n := Z.of_nat (List.length (image_paths s)) in
      let new_index := (current_frame_index s - 1 + n) mod n in
      display_frame new_index s
  end.

Definition animate (s : App) : App :=
  if is_playing s then
    let s := next_frame s in
    let '(s, id) := after s in
    set_animation_job (Some id) s
  else s.

Definition toggle_play_pause (s : App) : App :=
  if is_playing s then
    let s := set_is_playing false s in
    let s := set_play_button_text PlayText s in
    match animation_job s with
    | Some id => after_cancel id s
    | None => s
    end
  else
    let s := set_is_playing true s in
    let s := set_play_button_text PauseText s in
    animate s.

Definition handle_fetch_results (run_time : string) (paths : list string)
  (s : App) : App :=
  let s := set_progress_bar (Py.Int 0) s in
  let s :=
    match paths with
    | _ :: _ =>
        let s := set_model_run_time (Some run_time) s in
        let s := set_image_paths paths s in
        let s := set_current_frame_index (-1) s in
        let s := set_slider_to (Z.of_nat (List.length paths) - 1) s in
        let s := display_frame 0 s in
        let s := set_animation_controls_state Normal s in
        set_animation_frame_packed true s
    | [] =>
        let run_time_key := run_time_var s in
        let message :=
          "Could not download any images for the " ++ run_time_key
          ++ " run. The selected parameter may not be available for this model." in
        let s := set_dialogs (dialogs s ++ [("Download Failed", message)])%list s in
        set_image_label (Text "Select parameters and click 'Fetch' to begin.") s
    end in
  set_fetch_button Normal s.

(** One poll of the queue. *)
Definition process_queue (s : App) : App :=
  match fetch_queue s with
  | [] => s
  | message :: rest =>
      let s := set_fetch_queue rest s in
      match message with
      | Progress value => set_progress_bar value s
      | Result run_time paths => handle_fetch_results run_time paths s
      end
  end.

(** The look-ups of [start_fetch_thread]; a missing key would be a
    [KeyError] raised after the widgets were updated. *)
Definition selected_args (s : App) : option fetch_args :=
  match Py.dict_get models (model_var s) with
  | None => None
  | Some model_code =>
      match Py.dict_get base_urls model_code,
            Py.dict_get (run_times s) (run_time_var s),
            Py.dict_get parameters (param_var s),
            Py.dict_get regions (region_var s) with
      | Some base_url, Some run_time_code, Some parameter, Some region =>
          Some (mkArgs base_url model_code run_time_code parameter region)
      | _, _, _, _ => None
      end
  end.

Definition start_fetch_thread (s : App) : App :=
  let s := set_fetch_button Disabled s in
  let s := set_progress_bar (Py.Int 0) s in
  let s := set_animation_controls_state Disabled s in
  let s :=
    set_image_label
      (Text "Please wait, fetching data...
This may take a moment.") s in
  match selected_args s with
  | Some a => set_threads (threads s ++ [a])%list s
  | None => s
  end.

(** What can happen to the running application: the user acts on a widget
    (a disabled widget ignores it), a pending animation timer fires, the
    worker puts a message on the queue, or the queue is polled.  The timers
    of the polling itself are not kept: a poll may happen at any time, and
    the worker may put any message, which only adds runs to those of the
    program. *)
Inductive action : Type :=
  | SelectModel (name : string)
  | SelectRunTime (key : string)
  | SelectRegion (name : string)
  | SelectParameter (name : string)
  | ClickFetch
  | ClickPlay
  | ClickPrev
  | ClickNext
  | MoveSlider (value : Z)
  | TimerFires (id : nat)
  | WorkerPuts (e : event)
  | Poll.

Definition enabled (w : widget_state) : bool :=
  match w with
  | Normal => true
  | Disabled => false
  end.

Definition step (a : action) (s : App) : App :=
  match a with
  | SelectModel name => set_model_var name s
  | SelectRunTime key => set_run_time_var key s
  | SelectRegion name => set_region_var name s
  | SelectParameter name => set_param_var name s
  | ClickFetch => if enabled (fetch_button s) then start_fetch_thread s else s
  | ClickPlay => if enabled (controls s) then toggle_play_pause s else s
  | ClickPrev => if enabled (controls s) then prev_frame s else s
  | ClickNext => if enabled (controls s) then next_frame s else s
  | MoveSlider value =>
      if enabled (controls s) then
        on_slider_move value (set_slider_value value s)
      else s
  | TimerFires id =>
      if existsb (Nat.eqb id) (timers s) then animate (after_cancel id s)
      else s
  | WorkerPuts e => set_fetch_queue (fetch_queue s ++ [e])%list s
  | Poll => process_queue s
  end.

(** The state after a run of actions, oldest first. *)
Fixpoint run (acts : list action) (s : App) : App :=
  match acts with
  | [] => s
  | a :: acts' => run acts' (step a s)
  end.

End Playback.

(** The states the running application can be in. *)
Inductive reachable : App -> Prop :=
  | reach_init (run_times0 : list (string * string)) :
      reachable (init run_times0)
  | reach_step (load : string -> option photo) (a : action) (s : App) :
      reachable s -> reachable (step load a s).

(** ** Data for the examples *)

(** A directory in which every file opens and decodes. *)
Definition always_loads (p : string) : option photo := Some (PhotoImage p).

(** The file the worker writes for an hour of the surface temperature over
    the continental US, run 2024-01-01 00Z. *)
Definition sample_frame (model : string) (hour : Z) : string :=
  frame_file model "2024010100" "sfct-imp" "conus" "weather_images" hour.

(** A directory in which no file opens. *)
Definition never_loads (p : string) : option photo := None.

(** A server on which nothing is found. *)
Definition not_found (u : string) : response := Response 404 None.

(** A server that has every frame up to forecast hour 30 and nothing after
    that; the hour is the last but one piece of the URL's path. *)
Definition found_until_30 (u : string) : response :=
  match Py.index (Py.split "/" u) (-2) with
  | Ok hour_str =>
      match Py.int hour_str with
      | Ok hour =>
          if hour <=? 30 then Response 200 (Some "png")
          else Response 404 None
      | Raise _ => Response 404 None
      end
  | Raise _ => Response 404 None
  end.

(** Three gfs frames, and the application right after they were handed
    over. *)
Definition sample_sequence : list string :=
  [sample_frame "gfs" 0; sample_frame "gfs" 3; sample_frame "gfs" 6].

Definition sample_loaded : App :=
  handle_fetch_results always_loads "2024010100" sample_sequence (init []).

(** A clock reading, the day after a leap day. *)
Definition sample_now : Datetime.datetime :=
  Datetime.mk 2024 3 1 5 23 11 7.

(** The catalog of an application started at 05:23 on 2024-01-01. *)
Definition sample_run_times : list (string * string) :=
  match generate_run_times (Datetime.mk 2024 1 1 5 23 11 7) with
  | Ok d => d
  | Raise _ => []
  end.

(** The events of the worker that the last click on Fetch started, when it
    runs against the network [net] with an empty directory. *)
Definition worker_events (net : string -> response) (s : App) : list event :=
  match rev (threads s) with
  | a :: _ =>
      q (threaded_fetch_image_sequence net (arg_base_url a) (arg_model a)
           (arg_run_time a) (arg_parameter a) (arg_region a) "weather_images"
           [] [])
  | [] => []
  end.

(** The worker puts an event, the event loop polls it, and so on. *)
Definition deliver (events : list event) : list action :=
  flat_map (fun e => [WorkerPuts e; Poll]) events.

(** One round: the user clicks Fetch, the worker runs and each of its
    events is polled. *)
Definition fetch_round (load : string -> option photo)
  (net : string -> response) (s : App) : App :=
  let s := step load ClickFetch s in
  run load (deliver (worker_events net s)) s.

(** While nothing is loaded the animation controls are disabled, nothing
    plays and no animation timer is pending. *)
Definition empty_is_idle (s : App) : Prop :=
  image_paths s = [] ->
  controls s = Disabled /\ is_playing s = false /\ timers s = [].

(** The valid-time label that belongs to a frame of [hour] in the run
    [run]: the run time plus [hour] hours. *)
Definition expected_valid_time (run : string) (hour : Z) : result string :=
  run_dt_obj <- Datetime.strptime run "%Y%m%d%H" ;;
  valid_dt_obj <- Datetime.add_hours run_dt_obj hour ;;
  Ok ("Valid Time: " ++ Datetime.strftime valid_dt_obj "%Y-%m-%d %H:%M" ++ "Z").

(** The application started, the frame of [hour] fetched for [model] and
    handed over as the only frame of run [run]: the valid-time label shows
    the run time plus [hour] hours. *)
Definition shows_valid_time (model run : string) (hour : Z) : bool :=
  let path := frame_file model run "sfct-imp" "conus" "weather_images" hour in
  let s := handle_fetch_results always_loads run [path] (init []) in
  match expected_valid_time run hour with
  | Ok text => String.eqb (valid_time_label s) text
  | Raise _ => false
  end.

(** ** Notions for the properties of the event loop, the worker and the
    run keys *)

(** At most one animation timer is pending, and none while paused. *)
Definition ticks_ok (s : App) : Prop :=
  (is_playing s = false -> timers s = [])
  /\ (is_playing s = true ->
      exists id, timers s = [id] /\ animation_job s = Some id).

(** The current index is a position of the loaded sequence, and the slider
    ends at its last position. *)
Definition index_ok (s : App) : Prop :=
  image_paths s <> [] ->
  0 <= current_frame_index s < Z.of_nat (List.length (image_paths s))
  /\ slider_to s = Z.of_nat (List.length (image_paths s)) - 1.

(** A playing animation: a sequence is loaded, one timer is pending and
    the index is a position of the sequence. *)
Definition playing_ok (s : App) : Prop :=
  image_paths s <> [] /\ is_playing s = true
  /\ (exists id, timers s = [id])
  /\ 0 <= current_frame_index s < Z.of_nat (List.length (image_paths s)).

(** The pending animation timer fires. *)
Definition fire_pending (load : string -> option photo) (s : App) : App :=
  match timers s with
  | id :: _ => step load (TimerFires id) s
  | [] => s
  end.



(** The first alternative of the directive [d] on the [w]-digit text of
    [n] takes all of it and gives [n] back; the text has neither an
    underscore nor a slash. *)
Definition reads_back (d : Datetime.directive) (w : nat) (n : Z) : bool :=
  let text := Py.fmt_d w n in
  (String.length text =? w)%nat
  && negb (Py.has_char "_" text) && negb (Py.has_char "/" text)
  && match Datetime.alternatives d (list_ascii_of_string text) with
     | (v, []) :: _ => v =? n
     | _ => false
     end.

Definition reads_back_table (d : Datetime.directive) (w : nat) (lo hi : Z)
  : bool :=
  forallb (reads_back d w) (Py.range lo hi 1).

(** The [w]-digit texts of the numbers from [lo] below [hi] have neither an
    underscore nor a slash. *)
Definition plain_table (w : nat) (lo hi : Z) : bool :=
  forallb
    (fun n => negb (Py.has_char "_" (Py.fmt_d w n))
              && negb (Py.has_char "/" (Py.fmt_d w n)))
    (Py.range lo hi 1).

(** The loaded sample sequence, playing. *)
Definition sample_playing : App := step always_loads ClickPlay sample_loaded.

(** The application right after a click on Fetch. *)
Definition sample_fetching : App :=
  step always_loads ClickFetch (init sample_run_times).


(** The sample sequence on the queue behind one progress event. *)
Definition sample_queued : App :=
  set_fetch_queue
    [Progress (Py.Int 50); Result "2024010100" sample_sequence] (init []).

(** What is on screen fits the state: the Play button shows Pause exactly
    while playing, and a run time is kept and the animation controls are
    packed exactly when a sequence is loaded. *)
Definition view_ok (s : App) : Prop :=
  play_button_text s = (if is_playing s then PauseText else PlayText)
  /\ match image_paths s with
     | [] => model_run_time s = None /\ animation_frame_packed s = false
     | _ :: _ =>
         (exists r, model_run_time s = Some r)
         /\ animation_frame_packed s = true
     end.

(** [s'] has the sequence, the run time, the playing flag, the button text
    and the packing of [s]. *)
Definition same_view (s s' : App) : Prop :=
  image_paths s' = image_paths s
  /\ model_run_time s' = model_run_time s
  /\ is_playing s' = is_playing s
  /\ play_button_text s' = play_button_text s
  /\ animation_frame_packed s' = animation_frame_packed s.

(** * Part II: lemmas and theorems *)

(** ** Facts about [range] *)

Section RangeFacts.

Variables start stop step : Z.
Hypothesis step_pos : 0 < step.

Lemma range_len_bound (i : nat) :
  (i < Py.range_len start stop step)%nat <-> start + Z.of_nat i * step < stop.
Proof.
  unfold Py.range_len.
  set (q := (stop - start + step - 1) / step).
  assert (Hlo : step * q <= stop - start + step - 1)
    by (apply Z.mul_div_le; lia).
  assert (Hhi : stop - start + step - 1 < step * (q + 1)).
  { pose proof (Z.mul_succ_div_gt (stop - start + step - 1) step step_pos).
    unfold Z.succ in *. exact H. }
  split; intro H.
  - assert (Z.of_nat i + 1 <= q) by lia. nia.
  - assert (Z.of_nat i < q) by nia. lia.
Qed.

Lemma range_In (h : Z) :
  In h (Py.range start stop step) <->
  start <= h < stop /\ (h - start) mod step = 0.
Proof.
  unfold Py.range. rewrite in_map_iff. split.
  - intros (i & <- & Hi). apply in_seq in Hi.
    assert (Hlt : (i < Py.range_len start stop step)%nat) by lia.
    apply range_len_bound in Hlt.
    split; [nia|].
    replace (start + Z.of_nat i * step - start) with (Z.of_nat i * step) by ring.
    apply Z_mod_mult.
  - intros ([Hlo Hhi] & Hmod).
    exists (Z.to_nat ((h - start) / step)).
    assert (Hq : 0 <= (h - start) / step) by (apply Z.div_pos; lia).
    assert (Heq : start + Z.of_nat (Z.to_nat ((h - start) / step)) * step = h).
    { rewrite Z2Nat.id by exact Hq.
      pose proof (Z_div_mod_eq_full (h - start) step). lia. }
    split; [exact Heq|].
    apply in_seq. split; [lia|]. simpl.
    apply range_len_bound. lia.
Qed.

Lemma range_sorted_from (n k : nat) :
  StronglySorted Z.lt
    (map (fun i => start + Z.of_nat i * step) (seq k n)).
Proof.
  revert k. induction n as [|n IH]; intro k; simpl; constructor.
  - apply IH.
  - apply Forall_forall. intros x Hx.
    apply in_map_iff in Hx. destruct Hx as (j & <- & Hj).
    apply in_seq in Hj. nia.
Qed.

Lemma range_sorted : StronglySorted Z.lt (Py.range start stop step).
Proof. apply range_sorted_from. Qed.

End RangeFacts.

(** ** Sorted lists of integers *)

Lemma sorted_app (l1 l2 : list Z) :
  StronglySorted Z.lt l1 -> StronglySorted Z.lt l2 ->
  (forall x y, In x l1 -> In y l2 -> x < y) ->
  StronglySorted Z.lt (l1 ++ l2)%list.
Proof.
  intros H1 H2 Hlt. induction H1 as [|a l1 Hs IH Ha]; simpl; [exact H2|].
  constructor.
  - apply IH. intros x y Hx Hy. apply Hlt; [right; exact Hx | exact Hy].
  - apply Forall_app. split; [exact Ha|].
    apply Forall_forall. intros y Hy. apply Hlt; [left; reflexivity | exact Hy].
Qed.

Lemma sorted_NoDup (l : list Z) : StronglySorted Z.lt l -> NoDup l.
Proof.
  induction 1 as [|a l Hs IH Ha]; constructor; [|exact IH].
  intro Hin. rewrite Forall_forall in Ha. specialize (Ha a Hin). lia.
Qed.

Lemma sorted_filter (p : Z -> bool) (l : list Z) :
  StronglySorted Z.lt l -> StronglySorted Z.lt (filter p l).
Proof.
  induction 1 as [|a l Hs IH Ha]; simpl; [constructor|].
  destruct (p a); [|exact IH].
  constructor; [exact IH|].
  rewrite Forall_forall in *. intros x Hx.
  apply filter_In in Hx. apply Ha, Hx.
Qed.

Lemma sorted_app_l (l1 l2 : list Z) :
  StronglySorted Z.lt (l1 ++ l2)%list -> StronglySorted Z.lt l1.
Proof.
  induction l1 as [|a l1 IH]; simpl; intro H; [constructor|].
  inversion H as [|? ? Hs Ha]; subst. constructor; [apply IH, Hs|].
  apply Forall_app in Ha. apply Ha.
Qed.

(** ** Forecast hours *)

Lemma forecast_hours_cases (model : string) :
  (model = "gfs" \/ model = "ecmwf_full") /\
    generate_forecast_hours model
    = (Py.range 0 241 3 ++ Py.range 246 385 6)%list
  \/ model = "nam" /\ generate_forecast_hours model = Py.range 0 85 1
  \/ model = "hrrr" /\ generate_forecast_hours model = Py.range 0 49 1
  \/ (model <> "gfs" /\ model <> "ecmwf_full" /\ model <> "nam"
      /\ model <> "hrrr")
     /\ generate_forecast_hours model = Py.range 0 241 6.
Proof.
  unfold generate_forecast_hours, Py.str_in.
  destruct (String.eqb_spec model "gfs") as [E1|N1];
    [left; split; [left; exact E1 | reflexivity]|].
  destruct (String.eqb_spec model "ecmwf_full") as [E2|N2];
    [left; split; [right; exact E2 | reflexivity]|].
  destruct (String.eqb_spec model "nam") as [E3|N3];
    [right; left; split; [exact E3 | reflexivity]|].
  destruct (String.eqb_spec model "hrrr") as [E4|N4];
    [right; right; left; split; [exact E4 | reflexivity]|].
  right; right; right. repeat split; assumption.
Qed.

Lemma dense_sparse_In (h : Z) :
  In h (Py.range 0 241 3 ++ Py.range 246 385 6)%list <->
  (0 <= h <= 240 /\ h mod 3 = 0) \/ (246 <= h <= 384 /\ h mod 6 = 0).
Proof.
  rewrite in_app_iff, !range_In by lia.
  replace (h - 0) with h by ring.
  assert (Hm : (h - 246) mod 6 = h mod 6).
  { replace (h - 246) with (h + (-41) * 6) by ring. apply Z_mod_plus_full. }
  rewrite Hm. lia.
Qed.

Lemma dense_sparse_sorted :
  StronglySorted Z.lt (Py.range 0 241 3 ++ Py.range 246 385 6)%list.
Proof.
  apply sorted_app; try (apply range_sorted; lia).
  intros x y Hx Hy. apply range_In in Hx; [|lia]. apply range_In in Hy; lia.
Qed.

Lemma forecast_hours_sorted (model : string) :
  StronglySorted Z.lt (generate_forecast_hours model).
Proof.
  destruct (forecast_hours_cases model)
    as [[_ ->] | [[_ ->] | [[_ ->] | [_ ->]]]];
    [apply dense_sparse_sorted | apply range_sorted; lia ..].
Qed.

(** C5: for every model string the generator returns a strictly
    increasing, duplicate-free, non-empty list, whose members are exactly
    the hours 0,3,..,240 and 246,252,..,384 for gfs and ecmwf_full, 0..84
    for nam, 0..48 for hrrr, and 0,6,..,240 for any other string. *)
Theorem generate_forecast_hours_spec (model : string) :
  let hs := generate_forecast_hours model in
  StronglySorted Z.lt hs /\ NoDup hs /\ hs <> [] /\
  (model = "gfs" \/ model = "ecmwf_full" ->
   forall h, In h hs <->
     (0 <= h <= 240 /\ h mod 3 = 0) \/ (246 <= h <= 384 /\ h mod 6 = 0)) /\
  (model = "nam" -> forall h, In h hs <-> 0 <= h <= 84) /\
  (model = "hrrr" -> forall h, In h hs <-> 0 <= h <= 48) /\
  (model <> "gfs" -> model <> "ecmwf_full" -> model <> "nam" ->
   model <> "hrrr" ->
   forall h, In h hs <-> 0 <= h <= 240 /\ h mod 6 = 0).
Proof.
  intro hs.
  assert (Hsorted : StronglySorted Z.lt hs)
    by (subst hs; apply forecast_hours_sorted).
  assert (Hzero : In 0 hs).
  { subst hs.
    destruct (forecast_hours_cases model)
      as [[_ ->] | [[_ ->] | [[_ ->] | [_ ->]]]];
      [apply dense_sparse_In; left | apply range_In; [lia|] ..];
      repeat split; try lia; reflexivity. }
  split; [exact Hsorted|].
  split; [apply sorted_NoDup, Hsorted|].
  split; [intro E; rewrite E in Hzero; exact Hzero|].
  subst hs.
  destruct (forecast_hours_cases model)
    as [[Hm ->] | [[Hm ->] | [[Hm ->] | [(N1 & N2 & N3 & N4) ->]]]].
  - split; [intros _ h; apply dense_sparse_In|].
    repeat split; intros; subst; destruct Hm; discriminate || contradiction.
  - subst model. split; [intros [E|E]; discriminate|].
    split; [|split; [discriminate | intros; contradiction]].
    intros _ h. rewrite range_In by lia.
    rewrite Z.mod_1_r. lia.
  - subst model. split; [intros [E|E]; discriminate|].
    split; [discriminate|]. split; [|intros; contradiction].
    intros _ h. rewrite range_In by lia.
    rewrite Z.mod_1_r. lia.
  - split; [intros [E|E]; contradiction|].
    split; [intro; contradiction|]. split; [intro; contradiction|].
    intros _ _ _ _ h. rewrite range_In by lia.
    replace (h - 0) with h by ring. lia.
Qed.

(** The membership of C5 at ecmwf_full, nam, hrrr and a model that is not
    in the list. *)
Lemma generate_forecast_hours_spec_witness :
  (In 246 (generate_forecast_hours "ecmwf_full") <->
   (0 <= 246 <= 240 /\ 246 mod 3 = 0) \/ (246 <= 246 <= 384 /\ 246 mod 6 = 0))
  /\ (In 84 (generate_forecast_hours "nam") <-> 0 <= 84 <= 84)
  /\ (In 49 (generate_forecast_hours "hrrr") <-> 0 <= 49 <= 48)
  /\ (In 12 (generate_forecast_hours "icon") <-> 0 <= 12 <= 240 /\ 12 mod 6 = 0).
Proof.
  split; [|split; [|split]].
  - apply (proj1 (proj2 (proj2 (proj2 (generate_forecast_hours_spec "ecmwf_full"))))).
    right. reflexivity.
  - apply (proj1 (proj2 (proj2 (proj2 (proj2 (generate_forecast_hours_spec "nam")))))).
    reflexivity.
  - apply (proj1 (proj2 (proj2 (proj2 (proj2 (proj2
             (generate_forecast_hours_spec "hrrr"))))))).
    reflexivity.
  - apply (proj2 (proj2 (proj2 (proj2 (proj2 (proj2
             (generate_forecast_hours_spec "icon")))))));
      discriminate.
Defined.

(** ** The fetch loop *)

Section FetcherFacts.

Variable net : string -> response.
Variables base_url model run_time parameter region save_dir : string.

Local Abbreviation url := (frame_url base_url model run_time parameter region).
Local Abbreviation file := (frame_file model run_time parameter region save_dir).
Local Abbreviation attempt' :=
  (attempt net base_url model run_time parameter region save_dir).
Local Abbreviation iteration' :=
  (iteration net base_url model run_time parameter region save_dir).
Local Abbreviation iterate' :=
  (iterate net base_url model run_time parameter region save_dir).
Local Abbreviation fetch_loop' :=
  (fetch_loop net base_url model run_time parameter region save_dir).
Local Abbreviation delivered' :=
  (delivered net base_url model run_time parameter region).

Lemma iteration_effects (total i hour : Z) (st : fetch_state) :
  let st' := iteration' total i hour st in
  q st' = (q st ++ [Progress (progress_value total i)])%list
  /\ requested st' = (requested st ++ [url hour])%list
  /\ downloaded_paths st'
     = (downloaded_paths st
        ++ if delivered' hour then [file hour] else [])%list.
Proof.
  unfold iteration, attempt, delivered.
  destruct (net (url hour)) as [code [bytes|]|]; simpl;
    try destruct (code =? 200); simpl;
    rewrite ?app_nil_r; repeat split; reflexivity.
Qed.

(** The progress values of [k] passes from index [i] on. *)
Lemma iterate_effects (total : Z) (hours : list Z) :
  forall (i : nat) (st : fetch_state),
  let st' := iterate' total (Z.of_nat i) hours st in
  q st'
  = (q st
     ++ map (fun j => Progress (progress_value total (Z.of_nat j)))
            (seq i (List.length hours)))%list
  /\ requested st' = (requested st ++ map url hours)%list
  /\ downloaded_paths st'
     = (downloaded_paths st ++ map file (filter delivered' hours))%list.
Proof.
  induction hours as [|h hours IH]; intros i st; simpl.
  - rewrite !app_nil_r. repeat split; reflexivity.
  - replace (Z.of_nat i + 1) with (Z.of_nat (S i)) by lia.
    destruct (IH (S i) (iteration' total (Z.of_nat i) h st)) as (Hq & Hr & Hd).
    destruct (iteration_effects total (Z.of_nat i) h st) as (Hq1 & Hr1 & Hd1).
    rewrite Hq, Hr, Hd, Hq1, Hr1, Hd1, <- !app_assoc. simpl.
    repeat split; try reflexivity.
    destruct (delivered' h); reflexivity.
Qed.

(** The loop runs some first hours and either goes through all of them or
    leaves after one that brought the counter to 3. *)
Lemma fetch_loop_iterate (total : Z) (hours : list Z) :
  forall (i : Z) (st : fetch_state),
  exists attempted skipped : list Z,
    hours = (attempted ++ skipped)%list
    /\ ((skipped = [] /\
         fetch_loop' total i hours st = iterate' total i attempted st)
        \/ (attempted <> [] /\
            3 <= consecutive_failures (iterate' total i attempted st) /\
            fetch_loop' total i hours st
            = put (Progress (Py.Int 100)) (iterate' total i attempted st))).
Proof.
  induction hours as [|h hours IH]; intros i st.
  - exists [], []. split; [reflexivity|]. left. split; reflexivity.
  - simpl.
    destruct (Z.leb_spec 3 (consecutive_failures (iteration' total i h st)))
      as [Hstop|Hgo].
    + exists [h], hours. split; [reflexivity|]. right.
      split; [discriminate|]. split; [exact Hstop | reflexivity].
    + destruct (IH (i + 1) (iteration' total i h st))
        as (att & skip & Heq & Hcase).
      exists (h :: att), skip. split; [simpl; f_equal; exact Heq|].
      destruct Hcase as [[Hs Hl] | (Hne & Hc & Hl)].
      * left. split; [exact Hs | exact Hl].
      * right. split; [discriminate|]. split; [exact Hc | exact Hl].
Qed.


End FetcherFacts.

(** ** The fetcher as a whole *)







Section FetcherTheorems.

Variable net : string -> response.
Variables base_url model run_time parameter region save_dir : string.
Variable q0 : list event.
Variable files0 : list (string * string).

Local Abbreviation url := (frame_url base_url model run_time parameter region).
Local Abbreviation file := (frame_file model run_time parameter region save_dir).
Local Abbreviation iterate' :=
  (iterate net base_url model run_time parameter region save_dir).
Local Abbreviation delivered' :=
  (delivered net base_url model run_time parameter region).
Local Abbreviation fetch :=
  (threaded_fetch_image_sequence net base_url model run_time parameter region
     save_dir q0 files0).
Local Abbreviation hours := (generate_forecast_hours model).
Local Abbreviation total := (Z.of_nat (List.length (generate_forecast_hours model))).
Local Abbreviation st0 := (mkFetch q0 files0 [] [] 0).






End FetcherTheorems.


(** The server that has the frames up to hour 30: the frames of hours
    0..30 are fetched, hours 33, 36 and 39 fail, and nothing after hour 39
    is requested. *)
Example fetch_found_until_30 :
  let fetch :=
    threaded_fetch_image_sequence found_until_30
      "https://m1o.pivotalweather.com" "gfs" "2024010100" "sfct-imp" "conus"
      "weather_images" [] [] in
  requested fetch
  = map (frame_url "https://m1o.pivotalweather.com" "gfs" "2024010100"
           "sfct-imp" "conus")
        (Py.range 0 40 3)
  /\ downloaded_paths fetch = map (sample_frame "gfs") (Py.range 0 31 3)
  /\ last (q fetch) (Progress (Py.Int 0))
     = Result "2024010100" (map (sample_frame "gfs") (Py.range 0 31 3)).
Proof. vm_compute. repeat split; reflexivity. Qed.

(** ** Playback *)

(** The outcomes of the [try] statement of [display_frame]: the image
    does not open, the labels cannot be computed, or all goes well. *)
Ltac try_outcomes load :=
  match goal with
  | |- context [load ?p] => destruct (load p)
  end; simpl;
  try match goal with
      | |- context [frame_metadata ?r ?p] =>
          destruct (frame_metadata r p) as [[[? ?] ?]|?]
      end; simpl.

Section PlaybackFacts.

Variable load : string -> option photo.

Lemma display_frame_out (index : Z) (s : App) :
  in_range index s = false -> display_frame load index s = s.
Proof.
  unfold in_range, display_frame. cbv zeta.
  destruct (Z.of_nat (List.length (image_paths s)) =? 0); simpl; [reflexivity|].
  intros ->. reflexivity.
Qed.

(** What [display_frame] leaves alone, and what it commits before the
    image is opened. *)
Lemma display_frame_frame (index : Z) (s : App) :
  let s' := display_frame load index s in
  image_paths s' = image_paths s
  /\ model_run_time s' = model_run_time s
  /\ is_playing s' = is_playing s
  /\ animation_job s' = animation_job s
  /\ timers s' = timers s
  /\ next_timer s' = next_timer s
  /\ controls s' = controls s
  /\ fetch_button s' = fetch_button s
  /\ fetch_queue s' = fetch_queue s.
Proof.
  unfold display_frame. cbv zeta.
  destruct ((Z.of_nat (List.length (image_paths s)) =? 0)
            || negb ((0 <=? index)
                     && (index <? Z.of_nat (List.length (image_paths s)))));
    [repeat split; reflexivity|].
  destruct (slider_value (set_current_frame_index index s) =? index); simpl;
    try_outcomes load; repeat split; reflexivity.
Qed.

Lemma display_frame_in (index : Z) (s : App) :
  in_range index s = true ->
  let s' := display_frame load index s in
  current_frame_index s' = index /\ slider_value s' = index.
Proof.
  unfold in_range, display_frame. cbv zeta. intro H.
  apply andb_prop in H. destruct H as [H H3].
  apply andb_prop in H. destruct H as [H1 H2].
  apply negb_true_iff in H1. rewrite H1, H2, H3. simpl.
  change (slider_value (set_current_frame_index index s))
    with (slider_value s).
  destruct (Z.eqb_spec (slider_value s) index) as [E|E]; simpl;
    try_outcomes load; split; try reflexivity; exact E.
Qed.

Lemma in_range_iff (index : Z) (s : App) :
  in_range index s = true <->
  image_paths s <> [] /\ 0 <= index < Z.of_nat (List.length (image_paths s)).
Proof.
  unfold in_range. cbv zeta.
  rewrite !andb_true_iff, negb_true_iff, Z.eqb_neq, Z.leb_le, Z.ltb_lt.
  destruct (image_paths s); simpl; split; intros H.
  - lia.
  - destruct H as [H _]. contradiction.
  - split; [discriminate | lia].
  - lia.
Qed.

Lemma length_pos (s : App) :
  image_paths s <> [] -> 0 < Z.of_nat (List.length (image_paths s)).
Proof. destruct (image_paths s); [contradiction | simpl; lia]. Qed.

Lemma next_frame_loaded (s : App) :
  image_paths s <> [] ->
  next_frame load s
  = display_frame load
      ((current_frame_index s + 1)
       mod Z.of_nat (List.length (image_paths s))) s.
Proof.
  unfold next_frame. destruct (image_paths s); [contradiction | reflexivity].
Qed.

Lemma prev_frame_loaded (s : App) :
  image_paths s <> [] ->
  prev_frame load s
  = display_frame load
      ((current_frame_index s - 1 + Z.of_nat (List.length (image_paths s)))
       mod Z.of_nat (List.length (image_paths s))) s.
Proof.
  unfold prev_frame. destruct (image_paths s); [contradiction | reflexivity].
Qed.

Lemma next_frame_index (s : App) :
  image_paths s <> [] ->
  let n := Z.of_nat (List.length (image_paths s)) in
  current_frame_index (next_frame load s) = (current_frame_index s + 1) mod n
  /\ image_paths (next_frame load s) = image_paths s.
Proof.
  intros Hne n. rewrite (next_frame_loaded s Hne). fold n.
  split; [|apply display_frame_frame].
  apply display_frame_in. apply in_range_iff. split; [exact Hne|].
  apply Z.mod_pos_bound, length_pos, Hne.
Qed.

Lemma prev_frame_index (s : App) :
  image_paths s <> [] ->
  let n := Z.of_nat (List.length (image_paths s)) in
  current_frame_index (prev_frame load s)
  = (current_frame_index s - 1 + n) mod n.
Proof.
  intros Hne n. rewrite (prev_frame_loaded s Hne). fold n.
  apply display_frame_in. apply in_range_iff. split; [exact Hne|].
  apply Z.mod_pos_bound, length_pos, Hne.
Qed.

Lemma next_frame_iter (s : App) (k : nat) :
  image_paths s <> [] ->
  let n := Z.of_nat (List.length (image_paths s)) in
  current_frame_index (Nat.iter k (next_frame load) s)
  = (if (k =? 0)%nat then current_frame_index s
     else (current_frame_index s + Z.of_nat k) mod n)
  /\ image_paths (Nat.iter k (next_frame load) s) = image_paths s.
Proof.
  intros Hne n. induction k as [|k [IHi IHp]]; [split; reflexivity|].
  rewrite !Nat.iter_succ. cbn [Nat.eqb].
  assert (Hne' : image_paths (Nat.iter k (next_frame load) s) <> [])
    by (rewrite IHp; exact Hne).
  destruct (next_frame_index _ Hne') as [Hi Hp].
  rewrite Hp, IHp. split; [|reflexivity].
  rewrite Hi, IHp, IHi. fold n.
  destruct k as [|k]; cbn [Nat.eqb].
  - reflexivity.
  - rewrite Zplus_mod_idemp_l. f_equal. lia.
Qed.

(** C9: on a loaded sequence of length n, next() moves the index i to
    (i+1) mod n and prev() to (i-1+n) mod n; n times next() from an index
    of the sequence comes back to it, and prev() from 0 gives n-1; with no
    sequence loaded both leave the state as it is. *)
Theorem next_prev_wraparound (s : App) :
  let n := Z.of_nat (List.length (image_paths s)) in
  let i := current_frame_index s in
  (image_paths s <> [] ->
   current_frame_index (next_frame load s) = (i + 1) mod n
   /\ current_frame_index (prev_frame load s) = (i - 1 + n) mod n
   /\ (0 <= i < n ->
       current_frame_index
         (Nat.iter (List.length (image_paths s)) (next_frame load) s) = i)
   /\ (i = 0 -> current_frame_index (prev_frame load s) = n - 1))
  /\ (image_paths s = [] -> next_frame load s = s /\ prev_frame load s = s).
Proof.
  intros n i. split.
  - intro Hne.
    assert (Hn : 0 < n).
    { subst n. destruct (image_paths s); [contradiction | simpl; lia]. }
    split; [apply next_frame_index, Hne|].
    split; [apply prev_frame_index, Hne|].
    split.
    + intro Hi.
      destruct (next_frame_iter s (List.length (image_paths s)) Hne) as [H _].
      rewrite H. fold n. fold i.
      assert (Hk : (List.length (image_paths s) =? 0)%nat = false)
        by (apply Nat.eqb_neq; subst n; lia).
      rewrite Hk. fold n.
      replace (i + n) with (i + 1 * n) by ring.
      rewrite Z_mod_plus_full. apply Z.mod_small. exact Hi.
    + intro Hi. rewrite (prev_frame_index s Hne). fold n. fold i.
      rewrite Hi. replace (0 - 1 + n) with (n - 1) by ring.
      apply Z.mod_small. lia.
  - intro He. unfold next_frame, prev_frame. rewrite He. split; reflexivity.
Qed.

(** C10: on a loaded sequence and an index within it, [display_frame]
    sets the current index and the slider to that index whatever happens
    when the image is opened or its labels are computed: a failure there
    only replaces the image by an error text.  With no sequence loaded or
    an index outside it, nothing changes. *)
Theorem display_frame_commits_index (index : Z) (s : App) :
  let n := Z.of_nat (List.length (image_paths s)) in
  let filepath := nth (Z.to_nat index) (image_paths s) EmptyString in
  let s' := display_frame load index s in
  (image_paths s <> [] -> 0 <= index < n ->
   current_frame_index s' = index
   /\ slider_value s' = index
   /\ image_paths s' = image_paths s
   /\ (load filepath = None ->
       image_label s' = ErrorDisplaying filepath ImageError)
   /\ (forall img e,
         load filepath = Some img ->
         frame_metadata (model_run_time s) filepath = Raise e ->
         image_label s' = ErrorDisplaying filepath e))
  /\ (image_paths s = [] \/ index < 0 \/ n <= index -> s' = s).
Proof.
  intros n filepath s'. split.
  - intros Hne Hidx.
    assert (Hin : in_range index s = true) by (apply in_range_iff; split; assumption).
    destruct (display_frame_in index s Hin) as [Hi Hs].
    split; [exact Hi|]. split; [exact Hs|].
    split; [apply display_frame_frame|].
    subst s'. unfold display_frame. cbv zeta.
    unfold in_range in Hin. cbv zeta in Hin.
    apply andb_prop in Hin. destruct Hin as [Hin H3].
    apply andb_prop in Hin. destruct Hin as [H1 H2].
    apply negb_true_iff in H1. rewrite H1, H2, H3. cbn [orb andb negb].
    change (slider_value (set_current_frame_index index s))
      with (slider_value s).
    destruct (slider_value s =? index); cbn [image_paths set_slider_value
      set_current_frame_index model_run_time]; fold filepath;
      (split; [intros ->; reflexivity|]);
      intros img e -> He; cbn [model_run_time set_image_label set_tk_image
        set_current_frame_index set_slider_value]; rewrite He; reflexivity.
  - intro Hout. apply display_frame_out.
    destruct (in_range index s) eqn:E; [|reflexivity].
    apply in_range_iff in E. destruct E as [Hne Hidx].
    destruct Hout as [H | H]; [contradiction | fold n in Hidx; lia].
Qed.

Lemma next_frame_frame (s : App) :
  let s' := next_frame load s in
  image_paths s' = image_paths s
  /\ is_playing s' = is_playing s
  /\ animation_job s' = animation_job s
  /\ timers s' = timers s
  /\ next_timer s' = next_timer s
  /\ controls s' = controls s.
Proof.
  unfold next_frame. destruct (image_paths s) eqn:E; rewrite <- ?E.
  - repeat split; reflexivity.
  - pose proof (display_frame_frame
                  ((current_frame_index s + 1)
                   mod Z.of_nat (List.length (image_paths s))) s) as H.
    cbv zeta in *. repeat split; apply H.
Qed.

Lemma prev_frame_frame (s : App) :
  let s' := prev_frame load s in
  image_paths s' = image_paths s
  /\ is_playing s' = is_playing s
  /\ timers s' = timers s
  /\ controls s' = controls s.
Proof.
  unfold prev_frame. destruct (image_paths s) eqn:E; rewrite <- ?E.
  - repeat split; reflexivity.
  - pose proof (display_frame_frame
                  ((current_frame_index s - 1
                    + Z.of_nat (List.length (image_paths s)))
                   mod Z.of_nat (List.length (image_paths s))) s) as H.
    cbv zeta in *. repeat split; apply H.
Qed.

Lemma animate_frame (s : App) :
  let s' := animate load s in
  image_paths s' = image_paths s
  /\ is_playing s' = is_playing s
  /\ controls s' = controls s
  /\ (is_playing s = true ->
      timers s' = (timers s ++ [next_timer s])%list
      /\ animation_job s' = Some (next_timer s)
      /\ current_frame_index s' = current_frame_index (next_frame load s)).
Proof.
  unfold animate. destruct (is_playing s) eqn:E.
  - destruct (next_frame_frame s) as (H1 & H2 & H3 & H4 & H5 & H6).
    unfold after. simpl. rewrite H1, H2, H4, H5, H6.
    repeat split; try reflexivity. exact E.
  - split; [reflexivity|]. split; [exact E|]. split; [reflexivity|].
    discriminate.
Qed.

Lemma toggle_play_pause_frame (s : App) :
  let s' := toggle_play_pause load s in
  image_paths s' = image_paths s /\ controls s' = controls s.
Proof.
  unfold toggle_play_pause. destruct (is_playing s) eqn:E.
  - simpl. destruct (animation_job s); split; reflexivity.
  - destruct (animate_frame (set_play_button_text PauseText
                               (set_is_playing true s))) as (H1 & _ & H3 & _).
    split; [exact H1 | exact H3].
Qed.

(** What the hand-off of a result does to the playback state. *)
Lemma handle_fetch_results_frame (run_time : string) (paths : list string)
  (s : App) :
  let s' := handle_fetch_results load run_time paths s in
  is_playing s' = is_playing s
  /\ timers s' = timers s
  /\ (paths <> [] ->
      image_paths s' = paths
      /\ model_run_time s' = Some run_time
      /\ current_frame_index s' = 0
      /\ slider_value s' = 0
      /\ controls s' = Normal)
  /\ (paths = [] ->
      image_paths s' = image_paths s
      /\ model_run_time s' = model_run_time s
      /\ current_frame_index s' = current_frame_index s
      /\ controls s' = controls s).
Proof.
  unfold handle_fetch_results. cbv zeta.
  destruct paths as [|p ps].
  - simpl. split; [reflexivity|]. split; [reflexivity|].
    split; [intro H; contradiction | intros _; repeat split; reflexivity].
  - set (s1 := set_slider_to _ _).
    pose proof (display_frame_frame 0 s1) as F. cbv zeta in F.
    destruct F as (Fp & Fr & Fi & _ & Ft & _).
    assert (Hin : in_range 0 s1 = true).
    { apply in_range_iff. subst s1. simpl. split; [discriminate | lia]. }
    destruct (display_frame_in 0 s1 Hin) as [Hi Hs].
    unfold set_animation_controls_state. simpl.
    rewrite Fp, Fr, Fi, Ft, Hi, Hs. subst s1. simpl.
    split; [reflexivity|]. split; [reflexivity|].
    split; [intros _; repeat split; reflexivity | intro H; discriminate].
Qed.

End PlaybackFacts.

(** C9 on the three sample frames. *)
Lemma next_prev_wraparound_witness :
  current_frame_index (Nat.iter 3 (next_frame always_loads) sample_loaded) = 0
  /\ current_frame_index (prev_frame always_loads sample_loaded) = 2.
Proof.
  assert (Hne : image_paths sample_loaded <> []) by discriminate.
  destruct (proj1 (next_prev_wraparound always_loads sample_loaded) Hne)
    as (_ & _ & Hiter & Hprev).
  split.
  - apply Hiter. split; [discriminate | reflexivity].
  - apply Hprev. reflexivity.
Defined.

(** C10 on the three sample frames, in a directory where no file
    opens. *)
Lemma display_frame_commits_index_witness :
  current_frame_index (display_frame never_loads 1 sample_loaded) = 1
  /\ slider_value (display_frame never_loads 1 sample_loaded) = 1
  /\ image_label (display_frame never_loads 1 sample_loaded)
     = ErrorDisplaying (sample_frame "gfs" 3) ImageError
  /\ display_frame never_loads 3 sample_loaded = sample_loaded.
Proof.
  assert (Hne : image_paths sample_loaded <> []) by discriminate.
  assert (Hidx : 0 <= 1 < Z.of_nat (List.length (image_paths sample_loaded)))
    by (split; [discriminate | reflexivity]).
  destruct (proj1 (display_frame_commits_index never_loads 1 sample_loaded)
              Hne Hidx) as (Hi & Hs & _ & Herr & _).
  split; [exact Hi|]. split; [exact Hs|]. split; [apply Herr; reflexivity|].
  apply (proj2 (display_frame_commits_index never_loads 3 sample_loaded)).
  right. right. discriminate.
Defined.

(** ** The hand-off of a fetched sequence *)

(** C3, counterexample: the application fetches the gfs frames up to
    hour 30 and the user presses Play.  A non-empty sequence handed over in
    that state leaves the controller playing, and an empty one leaves the
    eleven old frames loaded; the same happens when the hand-off comes from
    a second round of fetching. *)
Lemma handle_fetch_results_keeps_state :
  let loaded := fetch_round always_loads found_until_30 (init sample_run_times) in
  let playing := step always_loads ClickPlay loaded in
  image_paths loaded
  = map (frame_file "gfs" "2024010100" "refcmp" "conus" "weather_images")
        (Py.range 0 31 3)
  /\ is_playing playing = true
  /\ is_playing
       (handle_fetch_results always_loads "2023123118"
          [sample_frame "gfs" 0] playing) = true
  /\ image_paths (handle_fetch_results always_loads "2023123118" [] playing)
     = image_paths loaded
  /\ is_playing (fetch_round always_loads found_until_30 playing) = true
  /\ image_paths (fetch_round always_loads not_found playing)
     = image_paths loaded.
Proof. vm_compute. repeat split; reflexivity. Qed.

(** C3, amended: a non-empty sequence replaces the one that was loaded,
    with its run time, the index at 0 and the controls enabled, and an
    empty one leaves sequence, run time and index as they were; in both
    cases [is_playing] keeps its value, so the controller is paused
    afterwards exactly when it was paused before. *)
Theorem handle_fetch_results_spec (load : string -> option photo)
  (run_time : string) (paths : list string) (s : App) :
  let s' := handle_fetch_results load run_time paths s in
  is_playing s' = is_playing s
  /\ (paths <> [] ->
      image_paths s' = paths
      /\ model_run_time s' = Some run_time
      /\ current_frame_index s' = 0
      /\ controls s' = Normal)
  /\ (paths = [] ->
      image_paths s' = image_paths s
      /\ model_run_time s' = model_run_time s
      /\ current_frame_index s' = current_frame_index s
      /\ controls s' = controls s).
Proof.
  destruct (handle_fetch_results_frame load run_time paths s)
    as (Hp & _ & Hfull & Hempty).
  split; [exact Hp|]. split.
  - intro Hne. destruct (Hfull Hne) as (H1 & H2 & H3 & _ & H5).
    repeat split; assumption.
  - exact Hempty.
Qed.

(** C3 on the freshly started application. *)
Lemma handle_fetch_results_spec_witness :
  image_paths
    (handle_fetch_results always_loads "2024010100"
       [sample_frame "gfs" 0] (init []))
  = [sample_frame "gfs" 0]
  /\ image_paths (handle_fetch_results always_loads "2024010100" [] (init []))
     = [].
Proof.
  split.
  - apply (proj1 (proj2 (handle_fetch_results_spec always_loads "2024010100"
                          [sample_frame "gfs" 0] (init [])))).
    discriminate.
  - apply (proj2 (proj2 (handle_fetch_results_spec always_loads "2024010100"
                          [] (init [])))).
    reflexivity.
Defined.

(** ** Play with no sequence loaded *)

Lemma empty_is_idle_same (s s' : App) :
  empty_is_idle s ->
  image_paths s' = image_paths s -> controls s' = controls s ->
  is_playing s' = is_playing s -> timers s' = timers s ->
  empty_is_idle s'.
Proof.
  unfold empty_is_idle. intros H Hp Hc Hi Ht. rewrite Hp, Hc, Hi, Ht. exact H.
Qed.

Lemma empty_is_idle_loaded (s s' : App) :
  image_paths s <> [] -> image_paths s' = image_paths s -> empty_is_idle s'.
Proof.
  unfold empty_is_idle. intros Hne Hp He. rewrite Hp in He. contradiction.
Qed.

Lemma enabled_loaded (s : App) :
  empty_is_idle s -> enabled (controls s) = true -> image_paths s <> [].
Proof.
  intros Inv Hen He. destruct (Inv He) as (Hc & _). rewrite Hc in Hen.
  discriminate.
Qed.

Lemma step_empty_is_idle (load : string -> option photo) (a : action)
  (s : App) : empty_is_idle s -> empty_is_idle (step load a s).
Proof.
  intro Inv. destruct a; simpl.
  - apply (empty_is_idle_same s); auto.
  - apply (empty_is_idle_same s); auto.
  - apply (empty_is_idle_same s); auto.
  - apply (empty_is_idle_same s); auto.
  - destruct (enabled (fetch_button s)); [|exact Inv].
    unfold start_fetch_thread, set_animation_controls_state. cbv zeta.
    match goal with |- context [selected_args ?t] =>
      destruct (selected_args t) end;
      intro He; simpl in He; destruct (Inv He) as (_ & Hi & Ht);
      simpl; repeat split; assumption.
  - destruct (enabled (controls s)) eqn:Hen; [|exact Inv].
    apply (empty_is_idle_loaded s); [apply enabled_loaded; assumption|].
    apply toggle_play_pause_frame.
  - destruct (enabled (controls s)) eqn:Hen; [|exact Inv].
    apply (empty_is_idle_loaded s); [apply enabled_loaded; assumption|].
    apply prev_frame_frame.
  - destruct (enabled (controls s)) eqn:Hen; [|exact Inv].
    apply (empty_is_idle_loaded s); [apply enabled_loaded; assumption|].
    apply next_frame_frame.
  - destruct (enabled (controls s)) eqn:Hen; [|exact Inv].
    apply (empty_is_idle_loaded s); [apply enabled_loaded; assumption|].
    unfold on_slider_move.
    pose proof (display_frame_frame load value (set_slider_value value s)) as F.
    cbv zeta in F. destruct F as (F & _). rewrite F. reflexivity.
  - destruct (existsb (Nat.eqb id) (timers s)) eqn:Hex; [|exact Inv].
    assert (Hne : image_paths s <> []).
    { intro He. destruct (Inv He) as (_ & _ & Ht). rewrite Ht in Hex.
      discriminate. }
    apply (empty_is_idle_loaded s); [exact Hne|].
    pose proof (animate_frame load (after_cancel id s)) as F.
    cbv zeta in F. destruct F as (F & _). rewrite F. reflexivity.
  - apply (empty_is_idle_same s); auto.
  - unfold process_queue. destruct (fetch_queue s) as [|[value|rt paths] rest];
      [exact Inv | apply (empty_is_idle_same s); auto |].
    pose proof (handle_fetch_results_frame load rt paths
                  (set_fetch_queue rest s)) as F.
    cbv zeta in F. destruct F as (Fp & Ft & Ffull & Fempty).
    destruct paths as [|p ps].
    + destruct (Fempty eq_refl) as (H1 & _ & _ & H4).
      apply (empty_is_idle_same s); auto.
    + assert (Hne : p :: ps <> []) by discriminate.
      destruct (Ffull Hne) as (H1 & _).
      intro He. rewrite H1 in He. discriminate.
Qed.

Lemma reachable_empty_is_idle (s : App) : reachable s -> empty_is_idle s.
Proof.
  induction 1 as [rt | load a s _ IH].
  - intros _. repeat split; reflexivity.
  - apply step_empty_is_idle, IH.
Qed.

(** C4, counterexample: [toggle_play_pause] on the freshly started
    application, where nothing is loaded, starts playing and leaves an
    animation timer pending. *)
Lemma toggle_play_pause_on_empty :
  image_paths (init []) = []
  /\ is_playing (toggle_play_pause always_loads (init [])) = true
  /\ timers (toggle_play_pause always_loads (init [])) = [O]
  /\ animation_job (toggle_play_pause always_loads (init [])) = Some O.
Proof. repeat split; reflexivity. Qed.

(** C4, amended: in every state the application can reach with no
    sequence loaded, the play button is disabled, so pressing it changes
    nothing: nothing plays and no timer is pending.  [toggle_play_pause]
    itself has no such guard: called with nothing loaded and nothing
    playing, it sets [is_playing] and schedules a timer, whose [next_frame]
    then does nothing. *)
Theorem play_on_empty (s : App) :
  image_paths s = [] ->
  (reachable s ->
   controls s = Disabled /\ is_playing s = false /\ timers s = []
   /\ forall load, step load ClickPlay s = s)
  /\ (forall load, is_playing s = false ->
      let s' := toggle_play_pause load s in
      is_playing s' = true
      /\ timers s' = (timers s ++ [next_timer s])%list
      /\ image_paths s' = []
      /\ current_frame_index s' = current_frame_index s).
Proof.
  intro He. split.
  - intro Hr. destruct (reachable_empty_is_idle s Hr He) as (Hc & Hi & Ht).
    repeat split; try assumption.
    intro load. simpl. rewrite Hc. reflexivity.
  - intros load Hi. unfold toggle_play_pause. rewrite Hi.
    set (s1 := set_play_button_text PauseText (set_is_playing true s)).
    pose proof (animate_frame load s1) as F. cbv zeta in F.
    destruct F as (Fp & Fi & _ & Ft).
    destruct (Ft eq_refl) as (Ft1 & _ & Ft3).
    rewrite Fp, Fi, Ft1, Ft3.
    assert (Hn : next_frame load s1 = s1).
    { unfold next_frame. subst s1. simpl. rewrite He. reflexivity. }
    rewrite Hn. subst s1. simpl. repeat split; try reflexivity. exact He.
Qed.

(** C4 on the freshly started application. *)
Lemma play_on_empty_witness :
  controls (init []) = Disabled /\ is_playing (init []) = false
  /\ timers (init []) = []
  /\ forall load, step load ClickPlay (init []) = init [].
Proof.
  apply (proj1 (play_on_empty (init []) eq_refl)). apply reach_init.
Defined.

(** ** The valid time of a frame *)

Lemma split_piece (sep : ascii) (a rest : string) :
  Py.has_char sep a = false ->
  Py.split sep (a ++ String sep rest) = a :: Py.split sep rest.
Proof.
  induction a as [|c a IH]; simpl; intro H.
  - rewrite Ascii.eqb_refl. reflexivity.
  - apply orb_false_iff in H. destruct H as [Hc Ha].
    rewrite Hc, (IH Ha). reflexivity.
Qed.

(** The file name of an ecmwf_full frame, split at the underscores: the
    third piece is the run key, whatever the run and the hour. *)
Lemma ecmwf_full_third_piece (run_time rest : string) :
  Py.has_char "_" run_time = false ->
  Py.index (Py.split "_" ("ecmwf_full" ++ "_" ++ run_time ++ "_" ++ rest)) 2
  = Ok run_time.
Proof.
  intro H.
  change ("ecmwf_full" ++ "_" ++ run_time ++ "_" ++ rest)
    with ("ecmwf" ++ String "_" ("full" ++ String "_"
                                   (run_time ++ String "_" rest))).
  rewrite !split_piece by (reflexivity || exact H).
  unfold Py.index. cbn [List.length].
  change (2 <? 0) with false. cbv iota. change (0 <=? 2) with true.
  cbn [andb].
  destruct (Z.ltb_spec 2 (Z.of_nat (S (S (S (List.length (Py.split "_" rest)))))))
    as [Hlt|Hge]; [reflexivity | lia].
Qed.

(** C1: in the run 2024-01-01 00Z the valid-time label of every frame of
    gfs, nam and hrrr is the run time plus the forecast hour (12:00 on
    2024-01-01 for hour 12); for ecmwf_full no frame gets it: the third
    piece of the file name is the run key, adding that many hours leaves
    the range of [datetime], and the label keeps its old text while the
    image is replaced by the error. *)
Theorem valid_time_by_model :
  forallb (shows_valid_time "gfs" "2024010100")
          (generate_forecast_hours "gfs") = true
  /\ forallb (shows_valid_time "nam" "2024010100")
             (generate_forecast_hours "nam") = true
  /\ forallb (shows_valid_time "hrrr" "2024010100")
             (generate_forecast_hours "hrrr") = true
  /\ expected_valid_time "2024010100" 12 = Ok "Valid Time: 2024-01-01 12:00Z"
  /\ forallb (fun hour => negb (shows_valid_time "ecmwf_full" "2024010100" hour))
             (generate_forecast_hours "ecmwf_full") = true
  /\ Py.index (Py.split "_" (Py.basename (sample_frame "ecmwf_full" 12))) 2
     = Ok "2024010100"
  /\ frame_metadata (Some "2024010100") (sample_frame "ecmwf_full" 12)
     = Raise OverflowError
  /\ (let s := handle_fetch_results always_loads "2024010100"
                 [sample_frame "ecmwf_full" 12] (init []) in
      current_frame_index s = 0
      /\ valid_time_label s = "Valid Time: --"
      /\ image_label s
         = ErrorDisplaying (sample_frame "ecmwf_full" 12) OverflowError).
Proof. vm_compute. repeat split; reflexivity. Qed.

(** ** The run-time catalog *)

Module RunTimeCatalog.

Import Datetime.

Lemma days_before_year_split (a b c d : Z) :
  0 <= a -> 0 <= b < 4 -> 0 <= c < 25 -> 0 <= d < 4 ->
  days_before_year (400 * a + 100 * b + 4 * c + d + 1)
  = 146097 * a + 36524 * b + 1461 * c + 365 * d.
Proof.
  intros Ha Hb Hc Hd. unfold days_before_year. cbv zeta.
  replace (400 * a + 100 * b + 4 * c + d + 1 - 1)
    with (400 * a + 100 * b + 4 * c + d) by ring.
  assert (E4 : (400 * a + 100 * b + 4 * c + d) / 4 = 100 * a + 25 * b + c)
    by (symmetry; apply (Z.div_unique _ _ _ d); lia).
  assert (E100 : (400 * a + 100 * b + 4 * c + d) / 100 = 4 * a + b)
    by (symmetry; apply (Z.div_unique _ _ _ (4 * c + d)); lia).
  assert (E400 : (400 * a + 100 * b + 4 * c + d) / 400 = a)
    by (symmetry; apply (Z.div_unique _ _ _ (100 * b + 4 * c + d)); lia).
  rewrite E4, E100, E400. ring.
Qed.

Lemma is_leap_split (a b c d : Z) :
  0 <= a -> 0 <= b < 4 -> 0 <= c < 25 -> 0 <= d < 4 ->
  is_leap (400 * a + 100 * b + 4 * c + d + 1)
  = (d =? 3) && (negb (c =? 24) || (b =? 3)).
Proof.
  intros Ha Hb Hc Hd. unfold is_leap.
  set (y := 400 * a + 100 * b + 4 * c + d + 1).
  assert (M4 : y mod 4 = (d + 1) mod 4).
  { subst y. replace (400 * a + 100 * b + 4 * c + d + 1)
      with (d + 1 + (100 * a + 25 * b + c) * 4) by ring.
    apply Z_mod_plus_full. }
  assert (M100 : y mod 100 = (4 * c + d + 1) mod 100).
  { subst y. replace (400 * a + 100 * b + 4 * c + d + 1)
      with (4 * c + d + 1 + (4 * a + b) * 100) by ring.
    apply Z_mod_plus_full. }
  assert (M400 : y mod 400 = (100 * b + 4 * c + d + 1) mod 400).
  { subst y. replace (400 * a + 100 * b + 4 * c + d + 1)
      with (100 * b + 4 * c + d + 1 + a * 400) by ring.
    apply Z_mod_plus_full. }
  rewrite M4, M100, M400.
  destruct (Z.eqb_spec d 3) as [D|D]; destruct (Z.eqb_spec c 24) as [C|C];
    destruct (Z.eqb_spec b 3) as [B|B];
    repeat match goal with
      | |- context [?x mod ?k =? 0] =>
          let H := fresh in destruct (Z.eqb_spec (x mod k) 0) as [H|H]
      end; cbn [andb orb negb]; try reflexivity; exfalso;
    Z.div_mod_to_equations; lia.
Qed.

Lemma month_day_table_ok : month_day_table = true.
Proof. vm_compute. reflexivity. Qed.

Lemma month_day_spec (n : Z) (leapyear : bool) :
  0 <= n < 365 -> month_day_ok n leapyear = true.
Proof.
  intro Hn. pose proof month_day_table_ok as H. unfold month_day_table in H.
  rewrite forallb_forall in H.
  assert (Hin : In n (Py.range 0 365 1)).
  { apply range_In; [lia|]. split; [lia | apply Z.mod_1_r]. }
  specialize (H n Hin). apply andb_prop in H.
  destruct leapyear; apply H.
Qed.

Lemma ord2ymd_cases (ordinal : Z) :
  let n0 := ordinal - 1 in
  let a := n0 / 146097 in
  let b := n0 mod 146097 / 36524 in
  let c := n0 mod 146097 mod 36524 / 1461 in
  let d := n0 mod 146097 mod 36524 mod 1461 / 365 in
  let r := n0 mod 146097 mod 36524 mod 1461 mod 365 in
  let y := a * 400 + 1 + b * 100 + c * 4 + d in
  ord2ymd ordinal
  = if (d =? 4) || (b =? 4) then (y - 1, 12, 31)
    else
      let '(m, dd) :=
        month_day r ((d =? 3) && (negb (c =? 24) || (b =? 3))) in
      (y, m, dd).
Proof.
  cbv zeta. unfold ord2ymd, month_day, DI400Y, DI100Y, DI4Y. cbv zeta.
  destruct ((_ =? 4) || (_ =? 4)); [reflexivity|].
  match goal with |- context [if ?t <? ?u then _ else _] =>
    destruct (t <? u) end; reflexivity.
Qed.

Lemma ord2ymd_spec (ordinal : Z) :
  1 <= ordinal <= MAXORDINAL ->
  let '(y, m, d) := ord2ymd ordinal in
  ymd2ord y m d = ordinal
  /\ 1 <= y <= 9999 /\ 1 <= m <= 12 /\ 1 <= d <= days_in_month y m.
Proof.
  unfold MAXORDINAL. intro Hn. rewrite ord2ymd_cases. cbv zeta.
  set (n0 := ordinal - 1).
  set (a := n0 / 146097).
  set (r1 := n0 mod 146097).
  set (b := r1 / 36524).
  set (r2 := r1 mod 36524).
  set (c := r2 / 1461).
  set (r3 := r2 mod 1461).
  set (d := r3 / 365).
  set (r := r3 mod 365).
  assert (Ea : n0 = 146097 * a + r1 /\ 0 <= r1 < 146097)
    by (subst a r1; split; [apply Z_div_mod_eq_full | apply Z.mod_pos_bound; lia]).
  assert (Eb : r1 = 36524 * b + r2 /\ 0 <= r2 < 36524)
    by (subst b r2; split; [apply Z_div_mod_eq_full | apply Z.mod_pos_bound; lia]).
  assert (Ec : r2 = 1461 * c + r3 /\ 0 <= r3 < 1461)
    by (subst c r3; split; [apply Z_div_mod_eq_full | apply Z.mod_pos_bound; lia]).
  assert (Ed : r3 = 365 * d + r /\ 0 <= r < 365)
    by (subst d r; split; [apply Z_div_mod_eq_full | apply Z.mod_pos_bound; lia]).
  clearbody a r1 b r2 c r3 d r. subst n0.
  assert (Ha : 0 <= a <= 24) by lia.
  assert (Hb : 0 <= b <= 4) by lia.
  assert (Hc : 0 <= c <= 24) by lia.
  assert (Hd : 0 <= d <= 4) by lia.
  assert (Last : forall a' b' c',
             0 <= a' -> 0 <= b' < 4 -> 0 <= c' < 25 ->
             (negb (c' =? 24) || (b' =? 3)) = true ->
             400 * a' + 100 * b' + 4 * c' + 3 + 1 <= 9999 ->
             ordinal = 146097 * a' + 36524 * b' + 1461 * c' + 1461 ->
             let y := 400 * a' + 100 * b' + 4 * c' + 3 + 1 in
             ymd2ord y 12 31 = ordinal
             /\ 1 <= y <= 9999 /\ 1 <= 12 <= 12
             /\ 1 <= 31 <= days_in_month y 12).
  { intros a' b' c' Ha' Hb' Hc' Hl Hy Ho y.
    unfold ymd2ord, days_before_month, days_in_month. subst y.
    rewrite days_before_year_split, is_leap_split by lia.
    rewrite Hl.
    change (tbl DAYS_BEFORE_MONTH 12) with 334.
    change (tbl DAYS_IN_MONTH 12) with 31.
    change (2 <? 12) with true. change (12 =? 2) with false.
    change (3 =? 3) with true. cbn [andb]. lia. }
  destruct (Z.eqb_spec d 4) as [D4|D4]; cbn [orb].
  - (* the last day of a leap year inside a century *)
    replace (a * 400 + 1 + b * 100 + c * 4 + d - 1)
      with (400 * a + 100 * b + 4 * c + 3 + 1) by lia.
    apply Last; lia.
  - destruct (Z.eqb_spec b 4) as [B4|B4].
    + (* the last day of a 400-year cycle *)
      replace (a * 400 + 1 + b * 100 + c * 4 + d - 1)
        with (400 * a + 100 * 3 + 4 * 24 + 3 + 1) by lia.
      apply Last; lia.
    + pose proof (month_day_spec r
                    ((d =? 3) && (negb (c =? 24) || (b =? 3)))
                    (proj2 Ed)) as Hmd.
      unfold month_day_ok in Hmd.
      destruct (month_day r ((d =? 3) && (negb (c =? 24) || (b =? 3))))
        as [m dd].
      rewrite !andb_true_iff, !Z.leb_le, Z.eqb_eq in Hmd.
      destruct Hmd as ((((Hm1 & Hm2) & Hd1) & Hd2) & Hsum).
      replace (a * 400 + 1 + b * 100 + c * 4 + d)
        with (400 * a + 100 * b + 4 * c + d + 1) by lia.
      unfold ymd2ord, days_before_month, days_in_month.
      rewrite days_before_year_split, is_leap_split by lia.
      repeat split; lia.
Qed.

Lemma month_bounds (m : Z) (leap : bool) :
  1 <= m <= 12 ->
  let pre := tbl DAYS_BEFORE_MONTH m + (if (2 <? m) && leap then 1 else 0) in
  let len := if (m =? 2) && leap then 29 else tbl DAYS_IN_MONTH m in
  0 <= pre /\ pre + len <= 365 + (if leap then 1 else 0) /\ len <= 31.
Proof.
  intro Hm.
  assert (Hc : m = 1 \/ m = 2 \/ m = 3 \/ m = 4 \/ m = 5 \/ m = 6 \/ m = 7
               \/ m = 8 \/ m = 9 \/ m = 10 \/ m = 11 \/ m = 12) by lia.
  destruct leap;
    repeat (destruct Hc as [Hc | Hc];
            [subst m; vm_compute; repeat split; discriminate|]);
    subst m; vm_compute; repeat split; discriminate.
Qed.

Lemma year_end_bound (y : Z) :
  1 <= y <= 9999 ->
  0 <= days_before_year y
  /\ days_before_year y + 365 + (if is_leap y then 1 else 0) <= MAXORDINAL.
Proof.
  intro Hy. unfold days_before_year, is_leap, MAXORDINAL. cbv zeta.
  destruct (Z.eqb_spec (y mod 4) 0); destruct (Z.eqb_spec (y mod 100) 0);
    destruct (Z.eqb_spec (y mod 400) 0); cbn [andb orb negb];
    Z.div_mod_to_equations; lia.
Qed.

Lemma valid_fields (dt : datetime) :
  valid dt = true <->
  (1 <= year dt <= 9999 /\ 1 <= month dt <= 12
   /\ 1 <= day dt <= days_in_month (year dt) (month dt))
  /\ 0 <= hour dt <= 23 /\ 0 <= minute dt <= 59 /\ 0 <= second dt <= 59
  /\ 0 <= microsecond dt <= 999999.
Proof.
  unfold valid, MINYEAR, MAXYEAR.
  rewrite !andb_true_iff, !Z.leb_le. tauto.
Qed.

Lemma toordinal_range (dt : datetime) :
  valid dt = true -> 1 <= toordinal dt <= MAXORDINAL.
Proof.
  intro Hv. apply valid_fields in Hv. destruct Hv as ((Hy & Hm & Hd) & _).
  unfold toordinal, ymd2ord.
  pose proof (year_end_bound _ Hy) as [Hy0 Hy1].
  pose proof (month_bounds (month dt) (is_leap (year dt)) Hm) as Hb.
  cbv zeta in Hb. unfold days_before_month.
  unfold days_in_month in Hd. lia.
Qed.

Lemma of_hours_spec (t : Z) :
  0 <= t < MAXORDINAL * 24 ->
  valid (of_hours t) = true
  /\ hours_since_min (of_hours t) = t
  /\ hour (of_hours t) = t mod 24
  /\ minute (of_hours t) = 0 /\ second (of_hours t) = 0
  /\ microsecond (of_hours t) = 0.
Proof.
  intro Ht. unfold of_hours, hours_since_min, toordinal.
  assert (Hord : 1 <= t / 24 + 1 <= MAXORDINAL)
    by (unfold MAXORDINAL in *; Z.div_mod_to_equations; lia).
  pose proof (ord2ymd_spec _ Hord) as H.
  destruct (ord2ymd (t / 24 + 1)) as [[y m] d].
  destruct H as (Hrt & Hy & Hm & Hd). cbn [year month day hour minute second microsecond].
  split.
  - apply valid_fields. cbn [year month day hour minute second microsecond].
    pose proof (Z.mod_pos_bound t 24). lia.
  - rewrite Hrt. repeat split; try reflexivity.
    pose proof (Z_div_mod_eq_full t 24). lia.
Qed.

Lemma add_hours_back (dt : datetime) (h : Z) :
  valid dt = true -> h <= 0 -> 0 <= hours_since_min dt + h ->
  add_hours dt h
  = let '(y, m, d) := ord2ymd ((hours_since_min dt + h) / 24 + 1) in
    Ok (mk y m d ((hour dt + h) mod 24) (minute dt) (second dt)
          (microsecond dt)).
Proof.
  intros Hv Hh Hpos.
  pose proof (toordinal_range dt Hv) as Hord.
  apply valid_fields in Hv. destruct Hv as (_ & HH & HM & HS & _).
  unfold add_hours, hours_since_min in *. cbv zeta.
  set (o := toordinal dt) in *.
  set (secs := hour dt * 3600 + minute dt * 60 + second dt + h * 3600).
  assert (Hq : secs / 86400 = (hour dt + h) / 24)
    by (subst secs; Z.div_mod_to_equations; lia).
  assert (Hs : secs mod 86400
               = (hour dt + h) mod 24 * 3600 + minute dt * 60 + second dt)
    by (subst secs; Z.div_mod_to_equations; lia).
  rewrite Hq, Hs.
  assert (Hd : (o - 1) * 24 + hour dt + h = (o - 1 + (hour dt + h) / 24) * 24
                                            + (hour dt + h) mod 24)
    by (Z.div_mod_to_equations; lia).
  assert (Hday : ((o - 1) * 24 + hour dt + h) / 24 + 1
                 = o + (hour dt + h) / 24).
  { rewrite Hd. rewrite Z.div_add_l by lia.
    rewrite (Z.div_small ((hour dt + h) mod 24) 24)
      by (apply Z.mod_pos_bound; lia). lia. }
  rewrite Hday.
  assert (Hin : (0 <? o + (hour dt + h) / 24)
                && (o + (hour dt + h) / 24 <=? MAXORDINAL) = true).
  { apply andb_true_iff. rewrite Z.ltb_lt, Z.leb_le.
    unfold MAXORDINAL in *. Z.div_mod_to_equations. lia. }
  rewrite Hin.
  destruct (ord2ymd (o + (hour dt + h) / 24)) as [[y m] d].
  f_equal.
  set (k := (hour dt + h) mod 24).
  assert (Hk : 0 <= k < 24) by (apply Z.mod_pos_bound; lia).
  f_equal; clearbody k; Z.div_mod_to_equations; lia.
Qed.

Lemma run_time_dt_spec (now : datetime) (i : Z) :
  valid now = true -> 0 <= i -> 6 * i <= hours_since_min now ->
  run_time_dt now i
  = Ok (of_hours (6 * (hours_since_min now / 6) - 6 * i)).
Proof.
  intros Hv Hi Hback.
  pose proof (toordinal_range now Hv) as Hord.
  unfold run_time_dt.
  rewrite (add_hours_back now (- (i * 6)) Hv) by lia.
  set (X := hours_since_min now) in *.
  assert (HX : X < MAXORDINAL * 24).
  { subst X. unfold hours_since_min. apply valid_fields in Hv. lia. }
  set (t := 6 * (X / 6) - 6 * i).
  assert (Hday : (X + - (i * 6)) / 24 + 1 = t / 24 + 1)
    by (subst t; Z.div_mod_to_equations; lia).
  assert (Hhour : (hour now + - (i * 6)) mod 24 / 6 * 6 = t mod 24).
  { subst t X. unfold hours_since_min.
    set (o := toordinal now) in *. Z.div_mod_to_equations. lia. }
  rewrite Hday. unfold of_hours.
  assert (Ho : 1 <= t / 24 + 1 <= MAXORDINAL)
    by (subst t; unfold MAXORDINAL in *; Z.div_mod_to_equations; lia).
  pose proof (ord2ymd_spec _ Ho) as Hymd.
  destruct (ord2ymd (t / 24 + 1)) as [[y m] d].
  destruct Hymd as (_ & Hy & Hm & Hd).
  unfold bind, replace_time, make.
  cbn [year month day hour minute second microsecond].
  rewrite Hhour.
  assert (Hval : valid (mk y m d (t mod 24) 0 0 0) = true).
  { apply valid_fields. cbn [year month day hour minute second microsecond].
    pose proof (Z.mod_pos_bound t 24). lia. }
  rewrite Hval. reflexivity.
Qed.

Lemma fmt_table_2 : Py.fmt_table 2 100 = true.
Proof. vm_compute. reflexivity. Qed.

Lemma fmt_table_4 : Py.fmt_table 4 10000 = true.
Proof. vm_compute. reflexivity. Qed.

Lemma fmt_table_spec (w : nat) (bound n : Z) :
  Py.fmt_table w bound = true -> 0 <= n < bound ->
  String.length (Py.fmt_d w n) = w /\ Py.int (Py.fmt_d w n) = Ok n.
Proof.
  unfold Py.fmt_table. intros H Hn. rewrite forallb_forall in H.
  assert (Hin : In n (Py.range 0 bound 1))
    by (apply range_In; [lia | split; [lia | apply Z.mod_1_r]]).
  specialize (H n Hin). apply andb_prop in H. destruct H as [Hl Hv].
  apply Nat.eqb_eq in Hl. split; [exact Hl|].
  destruct (Py.int (Py.fmt_d w n)) as [v|e]; [|discriminate].
  apply Z.eqb_eq in Hv. subst v. reflexivity.
Qed.

Lemma fmt_d_inj (w : nat) (bound a b : Z) :
  Py.fmt_table w bound = true -> 0 <= a < bound -> 0 <= b < bound ->
  Py.fmt_d w a = Py.fmt_d w b -> a = b.
Proof.
  intros H Ha Hb E.
  destruct (fmt_table_spec w bound a H Ha) as [_ Ia].
  destruct (fmt_table_spec w bound b H Hb) as [_ Ib].
  rewrite E, Ib in Ia. inversion Ia. reflexivity.
Qed.

Lemma append_inj (a a' b b' : string) :
  String.length a = String.length a' ->
  a ++ b = a' ++ b' -> a = a' /\ b = b'.
Proof.
  revert a'. induction a as [|c a IH]; intros [|c' a'] Hl E;
    try discriminate.
  - split; [reflexivity | exact E].
  - simpl in *. inversion E; subst. inversion Hl as [Hl'].
    destruct (IH a' Hl' H1) as [-> ->]. split; reflexivity.
Qed.

Lemma length_append (a b : string) :
  String.length (a ++ b) = (String.length a + String.length b)%nat.
Proof. induction a as [|c a IH]; simpl; [reflexivity | rewrite IH; reflexivity]. Qed.

Lemma label_shape (dt : datetime) :
  strftime dt "%Y-%m-%d %HZ"
  = Py.fmt_d 4 (year dt) ++ "-" ++ Py.fmt_d 2 (month dt) ++ "-"
    ++ Py.fmt_d 2 (day dt) ++ " " ++ Py.fmt_d 2 (hour dt) ++ "Z".
Proof. reflexivity. Qed.

Lemma valid_label_fields (dt : datetime) :
  valid dt = true ->
  0 <= year dt < 10000 /\ 0 <= month dt < 100 /\ 0 <= day dt < 100
  /\ 0 <= hour dt < 100.
Proof.
  intro Hv. apply valid_fields in Hv.
  destruct Hv as ((Hy & Hm & Hd) & Hh & _).
  pose proof (month_bounds (month dt) (is_leap (year dt)) Hm) as Hb.
  cbv zeta in Hb. unfold days_in_month in Hd. lia.
Qed.

Lemma fmt_length_4 (n : Z) :
  0 <= n < 10000 -> String.length (Py.fmt_d 4 n) = 4%nat.
Proof. intro H. apply (fmt_table_spec 4 10000 n fmt_table_4 H). Qed.

Lemma fmt_length_2 (n : Z) :
  0 <= n < 100 -> String.length (Py.fmt_d 2 n) = 2%nat.
Proof. intro H. apply (fmt_table_spec 2 100 n fmt_table_2 H). Qed.

Lemma label_length (dt : datetime) :
  valid dt = true -> String.length (strftime dt "%Y-%m-%d %HZ") = 14%nat.
Proof.
  intro Hv. destruct (valid_label_fields dt Hv) as (Hy & Hm & Hd & Hh).
  rewrite label_shape, !length_append.
  rewrite (fmt_length_4 _ Hy), (fmt_length_2 _ Hm), (fmt_length_2 _ Hd),
    (fmt_length_2 _ Hh).
  reflexivity.
Qed.

Lemma label_inj (dt dt' : datetime) :
  valid dt = true -> valid dt' = true ->
  strftime dt "%Y-%m-%d %HZ" = strftime dt' "%Y-%m-%d %HZ" ->
  hours_since_min dt = hours_since_min dt'.
Proof.
  intros Hv Hv' E.
  destruct (valid_label_fields dt Hv) as (Hy & Hm & Hd & Hh).
  destruct (valid_label_fields dt' Hv') as (Hy' & Hm' & Hd' & Hh').
  rewrite !label_shape in E.
  apply append_inj in E;
    [|rewrite (fmt_length_4 _ Hy), (fmt_length_4 _ Hy'); reflexivity].
  destruct E as [Ey E]. apply (append_inj "-" "-") in E; [|reflexivity].
  destruct E as [_ E].
  apply append_inj in E;
    [|rewrite (fmt_length_2 _ Hm), (fmt_length_2 _ Hm'); reflexivity].
  destruct E as [Em E]. apply (append_inj "-" "-") in E; [|reflexivity].
  destruct E as [_ E].
  apply append_inj in E;
    [|rewrite (fmt_length_2 _ Hd), (fmt_length_2 _ Hd'); reflexivity].
  destruct E as [Ed E]. apply (append_inj " " " ") in E; [|reflexivity].
  destruct E as [_ E].
  apply append_inj in E;
    [|rewrite (fmt_length_2 _ Hh), (fmt_length_2 _ Hh'); reflexivity].
  destruct E as [Eh _].
  apply (fmt_d_inj 4 10000 _ _ fmt_table_4 Hy Hy') in Ey.
  apply (fmt_d_inj 2 100 _ _ fmt_table_2 Hm Hm') in Em.
  apply (fmt_d_inj 2 100 _ _ fmt_table_2 Hd Hd') in Ed.
  apply (fmt_d_inj 2 100 _ _ fmt_table_2 Hh Hh') in Eh.
  unfold hours_since_min, toordinal. rewrite Ey, Em, Ed, Eh. reflexivity.
Qed.

Lemma dict_set_fresh {V : Type} (d : list (string * V)) (k : string) (v : V) :
  ~ In k (map fst d) -> Py.dict_set d k v = (d ++ [(k, v)])%list.
Proof.
  induction d as [|[k' v'] d IH]; simpl; intro Hn; [reflexivity|].
  destruct (String.eqb_spec k' k) as [E|E].
  - exfalso. apply Hn. left. exact E.
  - rewrite IH; [reflexivity|]. intro Hin. apply Hn. right. exact Hin.
Qed.

Lemma run_times_loop_spec (now : datetime) (f : Z -> datetime)
  (idxs : list Z) :
  forall acc : list (string * string),
  (forall i, In i idxs -> run_time_dt now i = Ok (f i)) ->
  NoDup (map fst acc
         ++ map (fun i => fst (run_time_entry (f i) i)) idxs)%list ->
  run_times_loop now idxs acc
  = Ok (acc ++ map (fun i => run_time_entry (f i) i) idxs)%list.
Proof.
  induction idxs as [|i idxs IH]; intros acc Hdt Hnd; cbn [run_times_loop map].
  - rewrite app_nil_r. reflexivity.
  - rewrite (Hdt i (or_introl eq_refl)). unfold bind.
    destruct (run_time_entry (f i) i) as [k v] eqn:E.
    cbn [map] in Hnd. rewrite E in Hnd. cbn [fst] in Hnd.
    rewrite dict_set_fresh.
    + rewrite IH.
      * rewrite <- app_assoc. reflexivity.
      * intros j Hj. apply Hdt. right. exact Hj.
      * rewrite map_app, <- app_assoc. exact Hnd.
    + intro Hin. apply NoDup_remove_2 in Hnd. apply Hnd.
      apply in_or_app. left. exact Hin.
Qed.

Section RunTimes.

Variable now : datetime.
Hypothesis now_valid : valid now = true.
Hypothesis now_late : 42 <= hours_since_min now.

Let t0 : Z := 6 * (hours_since_min now / 6).

Lemma run_hours_range (i : Z) :
  0 <= i < 8 -> 0 <= t0 - 6 * i < MAXORDINAL * 24.
Proof.
  intro Hi. subst t0.
  pose proof (toordinal_range now now_valid) as Ho.
  pose proof (proj1 (valid_fields now) now_valid) as (_ & Hh & _).
  unfold hours_since_min in *. unfold MAXORDINAL in *.
  Z.div_mod_to_equations. lia.
Qed.

Lemma run_label_inj (i j : Z) :
  0 <= i < 8 -> 0 <= j < 8 ->
  fst (run_time_entry (of_hours (t0 - 6 * i)) i)
  = fst (run_time_entry (of_hours (t0 - 6 * j)) j) ->
  i = j.
Proof.
  intros Hi Hj E. unfold run_time_entry in E. cbn [fst] in E.
  destruct (of_hours_spec _ (run_hours_range i Hi)) as (Vi & Ti & _).
  destruct (of_hours_spec _ (run_hours_range j Hj)) as (Vj & Tj & _).
  pose proof (label_length _ Vi) as Li.
  pose proof (label_length _ Vj) as Lj.
  destruct (Z.eqb_spec i 0) as [I0|I0]; destruct (Z.eqb_spec j 0) as [J0|J0].
  - lia.
  - apply (f_equal String.length) in E. rewrite length_append, Li, Lj in E.
    discriminate.
  - apply (f_equal String.length) in E. rewrite length_append, Li, Lj in E.
    discriminate.
  - apply (label_inj _ _ Vi Vj) in E. lia.
Qed.

End RunTimes.

(** C6: for a clock reading [now] that is a valid datetime at least 42
    hours after 0001-01-01T00:00 (so that the oldest run is a datetime),
    the catalog has exactly 8 entries; entry i is made from the datetime
    that lies on the 6-hour boundary at or before [now], minus 6 i hours:
    its hour is 0, 6, 12 or 18 with minutes, seconds and microseconds 0,
    each entry is exactly 6 hours before the one above it, and the label is
    the 14-character stamp of that datetime, followed by " (Latest)" for
    entry 0 only. *)
Theorem generate_run_times_spec (now : datetime) :
  valid now = true -> 42 <= hours_since_min now ->
  let t0 := 6 * (hours_since_min now / 6) in
  let dt := fun i => of_hours (t0 - 6 * i) in
  let label := fun i => strftime (dt i) "%Y-%m-%d %HZ" in
  generate_run_times now
  = Ok (map (fun i => (if i =? 0 then label i ++ " (Latest)" else label i,
                       strftime (dt i) "%Y%m%d%H"))
            [0; 1; 2; 3; 4; 5; 6; 7])
  /\ forall i, 0 <= i < 8 ->
       run_time_dt now i = Ok (dt i)
       /\ valid (dt i) = true
       /\ hours_since_min (dt i) = t0 - 6 * i
       /\ In (hour (dt i)) [0; 6; 12; 18]
       /\ minute (dt i) = 0 /\ second (dt i) = 0 /\ microsecond (dt i) = 0
       /\ String.length (label i) = 14%nat.
Proof.
  intros Hv Hlate t0 dt label.
  assert (Hdt : forall i, 0 <= i < 8 -> run_time_dt now i = Ok (dt i)).
  { intros i Hi. apply run_time_dt_spec; [exact Hv | lia | lia]. }
  split.
  - unfold generate_run_times.
    change (Py.range 0 8 1) with [0; 1; 2; 3; 4; 5; 6; 7].
    rewrite (run_times_loop_spec now dt).
    + reflexivity.
    + intros i Hin. apply Hdt. simpl in Hin. lia.
    + cbn [app].
      apply NoDup_map_NoDup_ForallPairs.
      * intros i j Hi Hj E.
        apply (run_label_inj now Hv Hlate); [simpl in Hi; lia | simpl in Hj; lia | exact E].
      * repeat constructor; simpl; lia.
  - intros i Hi.
    destruct (of_hours_spec _ (run_hours_range now Hv Hlate i Hi))
      as (V & T & Hh & Hm & Hs & Hu).
    fold t0 in V, T, Hh, Hm, Hs, Hu. fold (dt i) in V, T, Hh, Hm, Hs, Hu.
    split; [apply Hdt, Hi|]. split; [exact V|]. split; [exact T|].
    split.
    + rewrite Hh.
      assert (H : (t0 - 6 * i) mod 24 = 0 \/ (t0 - 6 * i) mod 24 = 6
                  \/ (t0 - 6 * i) mod 24 = 12 \/ (t0 - 6 * i) mod 24 = 18)
        by (subst t0; Z.div_mod_to_equations; lia).
      destruct H as [H | [H | [H | H]]]; rewrite H; simpl; auto.
    + repeat split; try assumption. apply label_length, V.
Qed.

(** C6 at 05:23 on 2024-03-01. *)
Lemma generate_run_times_spec_witness :
  let t0 := 6 * (hours_since_min sample_now / 6) in
  let dt := fun i => of_hours (t0 - 6 * i) in
  let label := fun i => strftime (dt i) "%Y-%m-%d %HZ" in
  generate_run_times sample_now
  = Ok (map (fun i => (if i =? 0 then label i ++ " (Latest)" else label i,
                       strftime (dt i) "%Y%m%d%H"))
            [0; 1; 2; 3; 4; 5; 6; 7])
  /\ forall i, 0 <= i < 8 ->
       run_time_dt sample_now i = Ok (dt i)
       /\ valid (dt i) = true
       /\ hours_since_min (dt i) = t0 - 6 * i
       /\ In (hour (dt i)) [0; 6; 12; 18]
       /\ minute (dt i) = 0 /\ second (dt i) = 0 /\ microsecond (dt i) = 0
       /\ String.length (label i) = 14%nat.
Proof.
  apply (generate_run_times_spec sample_now); [reflexivity | discriminate].
Defined.

(** The catalog at 05:23 on 2024-03-01, across the leap day. *)
Example generate_run_times_sample :
  generate_run_times sample_now
  = Ok [("2024-03-01 00Z (Latest)", "2024030100");
        ("2024-02-29 18Z", "2024022918");
        ("2024-02-29 12Z", "2024022912");
        ("2024-02-29 06Z", "2024022906");
        ("2024-02-29 00Z", "2024022900");
        ("2024-02-28 18Z", "2024022818");
        ("2024-02-28 12Z", "2024022812");
        ("2024-02-28 06Z", "2024022806")].
Proof. vm_compute. reflexivity. Qed.

(** Less than 42 hours after the first datetime there is no eighth run to
    go back to: the subtraction raises. *)
Example generate_run_times_first_days :
  generate_run_times (mk 1 1 2 17 59 59 0) = Raise OverflowError
  /\ hours_since_min (mk 1 1 2 17 59 59 0) = 41.
Proof. vm_compute. split; reflexivity. Qed.

End RunTimeCatalog.

(** * Part III: further properties of the code *)

(** ** The event loop: index, timers and buttons *)

Lemma sample_loaded_reachable : reachable sample_loaded.
Proof.
  exact (reach_step always_loads Poll _
           (reach_step always_loads
              (WorkerPuts (Result "2024010100" sample_sequence)) _
              (reach_init []))).
Qed.

Lemma sample_playing_reachable : reachable sample_playing.
Proof. apply reach_step, sample_loaded_reachable. Qed.

Section IndexFacts.

Variable load : string -> option photo.

Lemma display_frame_slider_to (index : Z) (s : App) :
  slider_to (display_frame load index s) = slider_to s.
Proof.
  unfold display_frame. cbv zeta.
  destruct ((Z.of_nat (List.length (image_paths s)) =? 0)
            || negb ((0 <=? index)
                     && (index <? Z.of_nat (List.length (image_paths s)))));
    [reflexivity|].
  destruct (slider_value (set_current_frame_index index s) =? index); simpl;
    try_outcomes load; reflexivity.
Qed.

(** [display_frame] either leaves the index or moves it into the
    sequence. *)
Lemma display_frame_index_ok (index : Z) (s : App) :
  index_ok s -> index_ok (display_frame load index s).
Proof.
  intros Hok Hne.
  destruct (display_frame_frame load index s) as (Hp & _).
  rewrite Hp in *. rewrite display_frame_slider_to.
  destruct (in_range index s) eqn:E.
  - destruct (display_frame_in load index s E) as [Hi _]. rewrite Hi.
    apply in_range_iff in E. split; [apply E | apply Hok, Hne].
  - rewrite (display_frame_out load index s E). apply Hok, Hne.
Qed.

Lemma next_frame_index_ok (s : App) : index_ok s -> index_ok (next_frame load s).
Proof.
  intro Hok. unfold next_frame. destruct (image_paths s); [exact Hok|].
  apply display_frame_index_ok, Hok.
Qed.

Lemma prev_frame_index_ok (s : App) : index_ok s -> index_ok (prev_frame load s).
Proof.
  intro Hok. unfold prev_frame. destruct (image_paths s); [exact Hok|].
  apply display_frame_index_ok, Hok.
Qed.

Lemma index_ok_same (s s' : App) :
  index_ok s ->
  image_paths s' = image_paths s ->
  current_frame_index s' = current_frame_index s ->
  slider_to s' = slider_to s ->
  index_ok s'.
Proof. unfold index_ok. intros H Hp Hi Hs. rewrite Hp, Hi, Hs. exact H. Qed.

Lemma animate_index_ok (s : App) : index_ok s -> index_ok (animate load s).
Proof.
  intro Hok. unfold animate. destruct (is_playing s); [|exact Hok].
  apply (index_ok_same (next_frame load s));
    [apply next_frame_index_ok, Hok | reflexivity ..].
Qed.

Lemma handle_fetch_results_index_ok (run_time : string) (paths : list string)
  (s : App) :
  index_ok s -> index_ok (handle_fetch_results load run_time paths s).
Proof.
  intro Hok. unfold handle_fetch_results. cbv zeta.
  destruct paths as [|p ps].
  - apply (index_ok_same s); [exact Hok | reflexivity ..].
  - set (s1 := set_slider_to _ _).
    assert (Hin : in_range 0 s1 = true).
    { apply in_range_iff. subst s1. simpl. split; [discriminate | lia]. }
    destruct (display_frame_in load 0 s1 Hin) as [Hi _].
    destruct (display_frame_frame load 0 s1) as (Hp & _).
    pose proof (display_frame_slider_to 0 s1) as Hs.
    intros _. unfold set_animation_controls_state. simpl.
    rewrite Hp, Hi, Hs. subst s1. simpl. lia.
Qed.

Lemma step_index_ok (a : action) (s : App) :
  index_ok s -> index_ok (step load a s).
Proof.
  intro Hok. destruct a; simpl.
  - apply (index_ok_same s); auto.
  - apply (index_ok_same s); auto.
  - apply (index_ok_same s); auto.
  - apply (index_ok_same s); auto.
  - destruct (enabled (fetch_button s)); [|exact Hok].
    unfold start_fetch_thread, set_animation_controls_state. cbv zeta.
    match goal with |- context [selected_args ?t] =>
      destruct (selected_args t) end;
      apply (index_ok_same s); auto.
  - destruct (enabled (controls s)); [|exact Hok].
    unfold toggle_play_pause. destruct (is_playing s).
    + simpl. destruct (animation_job s);
        apply (index_ok_same s); auto.
    + apply animate_index_ok. apply (index_ok_same s); auto.
  - destruct (enabled (controls s)); [|exact Hok].
    apply prev_frame_index_ok, Hok.
  - destruct (enabled (controls s)); [|exact Hok].
    apply next_frame_index_ok, Hok.
  - destruct (enabled (controls s)); [|exact Hok].
    apply display_frame_index_ok. apply (index_ok_same s); auto.
  - destruct (existsb (Nat.eqb id) (timers s)); [|exact Hok].
    apply animate_index_ok. apply (index_ok_same s); auto.
  - apply (index_ok_same s); auto.
  - unfold process_queue. destruct (fetch_queue s) as [|[value|rt paths] rest];
      [exact Hok | apply (index_ok_same s); auto |].
    apply handle_fetch_results_index_ok. apply (index_ok_same s); auto.
Qed.

End IndexFacts.

Lemma reachable_index_ok (s : App) : reachable s -> index_ok s.
Proof.
  induction 1 as [rt | load a s _ IH].
  - intro H. exfalso. apply H. reflexivity.
  - apply step_index_ok, IH.
Qed.

(** X1: in every state the running application can reach with a sequence
    loaded, the current index is a position of the sequence, so the current
    frame exists, and the slider ends at the last position. *)
Theorem reachable_index_in_sequence (s : App) :
  reachable s -> image_paths s <> [] ->
  0 <= current_frame_index s < Z.of_nat (List.length (image_paths s))
  /\ slider_to s = Z.of_nat (List.length (image_paths s)) - 1
  /\ nth_error (image_paths s) (Z.to_nat (current_frame_index s)) <> None.
Proof.
  intros Hr Hne.
  destruct (reachable_index_ok s Hr Hne) as [Hi Hs].
  split; [exact Hi|]. split; [exact Hs|].
  apply nth_error_Some. lia.
Qed.

(** X1 on the sample sequence while it plays. *)
Lemma reachable_index_in_sequence_witness :
  0 <= current_frame_index sample_playing
    < Z.of_nat (List.length (image_paths sample_playing))
  /\ slider_to sample_playing
     = Z.of_nat (List.length (image_paths sample_playing)) - 1
  /\ nth_error (image_paths sample_playing)
       (Z.to_nat (current_frame_index sample_playing)) <> None.
Proof.
  apply (reachable_index_in_sequence sample_playing sample_playing_reachable).
  discriminate.
Defined.

Section TimerFacts.

Variable load : string -> option photo.

Lemma ticks_ok_same (s s' : App) :
  ticks_ok s ->
  is_playing s' = is_playing s -> timers s' = timers s ->
  animation_job s' = animation_job s ->
  ticks_ok s'.
Proof. unfold ticks_ok. intros H Hi Ht Hj. rewrite Hi, Ht, Hj. exact H. Qed.

Lemma display_frame_ticks_ok (index : Z) (s : App) :
  ticks_ok s -> ticks_ok (display_frame load index s).
Proof.
  intro H. destruct (display_frame_frame load index s)
    as (_ & _ & Hi & Hj & Ht & _).
  apply (ticks_ok_same s); assumption.
Qed.

Lemma next_frame_ticks_ok (s : App) : ticks_ok s -> ticks_ok (next_frame load s).
Proof.
  intro H. destruct (next_frame_frame load s) as (_ & Hi & Hj & Ht & _).
  apply (ticks_ok_same s); assumption.
Qed.

Lemma prev_frame_ticks_ok (s : App) : ticks_ok s -> ticks_ok (prev_frame load s).
Proof.
  intro H. unfold prev_frame. destruct (image_paths s); [exact H|].
  apply display_frame_ticks_ok, H.
Qed.

(** [animate] on a playing application with no timer pending leaves
    exactly the timer it schedules. *)
Lemma animate_schedules_one (s : App) :
  is_playing s = true -> timers s = [] -> ticks_ok (animate load s).
Proof.
  intros Hp Ht.
  destruct (animate_frame load s) as (_ & Hi & _ & Hs).
  destruct (Hs Hp) as (Hs1 & Hs2 & _).
  split; intro H.
  - rewrite Hi, Hp in H. discriminate.
  - exists (next_timer s). rewrite Hs1, Hs2, Ht. split; reflexivity.
Qed.

Lemma toggle_play_pause_ticks_ok (s : App) :
  ticks_ok s -> ticks_ok (toggle_play_pause load s).
Proof.
  intros [Hoff Hon]. unfold toggle_play_pause.
  destruct (is_playing s) eqn:E.
  - destruct (Hon eq_refl) as (id & Ht & Hj).
    simpl. rewrite Hj. unfold after_cancel. simpl. rewrite Ht. simpl.
    rewrite Nat.eqb_refl. simpl.
    split; [reflexivity | discriminate].
  - apply animate_schedules_one; [reflexivity | simpl; apply Hoff; reflexivity].
Qed.

Lemma timer_fires_ticks_ok (id : nat) (s : App) :
  ticks_ok s -> ticks_ok (step load (TimerFires id) s).
Proof.
  intros [Hoff Hon]. simpl.
  destruct (existsb (Nat.eqb id) (timers s)) eqn:Hex; [|split; assumption].
  destruct (is_playing s) eqn:E.
  - destruct (Hon eq_refl) as (id' & Ht & Hj).
    rewrite Ht in Hex. simpl in Hex. rewrite orb_false_r in Hex.
    apply Nat.eqb_eq in Hex. subst id'.
    apply animate_schedules_one; [exact E|].
    unfold after_cancel. simpl. rewrite Ht. simpl. rewrite Nat.eqb_refl.
    reflexivity.
  - rewrite (Hoff eq_refl) in Hex. discriminate.
Qed.

Lemma handle_fetch_results_job (run_time : string) (paths : list string)
  (s : App) :
  animation_job (handle_fetch_results load run_time paths s)
  = animation_job s.
Proof.
  unfold handle_fetch_results. cbv zeta. destruct paths as [|p ps];
    [reflexivity|].
  set (s1 := set_slider_to _ _).
  destruct (display_frame_frame load 0 s1) as (_ & _ & _ & Hj & _).
  unfold set_animation_controls_state. simpl. rewrite Hj. reflexivity.
Qed.

Lemma step_ticks_ok (a : action) (s : App) :
  ticks_ok s -> ticks_ok (step load a s).
Proof.
  intro Hok. destruct a; try (apply timer_fires_ticks_ok; exact Hok); simpl.
  - apply (ticks_ok_same s); auto.
  - apply (ticks_ok_same s); auto.
  - apply (ticks_ok_same s); auto.
  - apply (ticks_ok_same s); auto.
  - destruct (enabled (fetch_button s)); [|exact Hok].
    unfold start_fetch_thread, set_animation_controls_state. cbv zeta.
    match goal with |- context [selected_args ?t] =>
      destruct (selected_args t) end;
      apply (ticks_ok_same s); auto.
  - destruct (enabled (controls s)); [|exact Hok].
    apply toggle_play_pause_ticks_ok, Hok.
  - destruct (enabled (controls s)); [|exact Hok].
    apply prev_frame_ticks_ok, Hok.
  - destruct (enabled (controls s)); [|exact Hok].
    apply next_frame_ticks_ok, Hok.
  - destruct (enabled (controls s)); [|exact Hok].
    apply display_frame_ticks_ok. apply (ticks_ok_same s); auto.
  - apply (ticks_ok_same s); auto.
  - unfold process_queue. destruct (fetch_queue s) as [|[value|rt paths] rest];
      [exact Hok | apply (ticks_ok_same s); auto |].
    destruct (handle_fetch_results_frame load rt paths (set_fetch_queue rest s))
      as (Hi & Ht & _).
    apply (ticks_ok_same (set_fetch_queue rest s));
      [apply (ticks_ok_same s); auto | assumption ..
      | apply handle_fetch_results_job].
Qed.

End TimerFacts.

Lemma reachable_ticks_ok (s : App) : reachable s -> ticks_ok s.
Proof.
  induction 1 as [rt | load a s _ IH].
  - split; [reflexivity | discriminate].
  - apply step_ticks_ok, IH.
Qed.

(** X2: the animation never has more than one timer pending.  In every
    reachable state there is none while paused; while playing there is
    exactly one, the one kept in [animation_job], and a click on Pause
    cancels it, so that no tick is left behind. *)
Theorem reachable_one_tick (s : App) :
  reachable s ->
  (is_playing s = false -> timers s = [])
  /\ (is_playing s = true ->
      (exists id, timers s = [id] /\ animation_job s = Some id)
      /\ forall load,
           is_playing (toggle_play_pause load s) = false
           /\ timers (toggle_play_pause load s) = []).
Proof.
  intro Hr. destruct (reachable_ticks_ok s Hr) as [Hoff Hon].
  split; [exact Hoff|]. intro Hp. split; [apply Hon, Hp|].
  intro load.
  destruct (Hon Hp) as (id & Ht & Hj).
  unfold toggle_play_pause. rewrite Hp. simpl. rewrite Hj.
  unfold after_cancel. simpl. rewrite Ht. simpl. rewrite Nat.eqb_refl.
  split; reflexivity.
Qed.

(** X2 on the sample sequence while it plays. *)
Lemma reachable_one_tick_witness :
  (exists id, timers sample_playing = [id]
              /\ animation_job sample_playing = Some id)
  /\ forall load,
       is_playing (toggle_play_pause load sample_playing) = false
       /\ timers (toggle_play_pause load sample_playing) = [].
Proof.
  apply (proj2 (reachable_one_tick sample_playing sample_playing_reachable)).
  reflexivity.
Defined.

Section ButtonFacts.

Variable load : string -> option photo.

Lemma display_frame_buttons (index : Z) (s : App) :
  fetch_button (display_frame load index s) = fetch_button s
  /\ controls (display_frame load index s) = controls s.
Proof.
  destruct (display_frame_frame load index s)
    as (_ & _ & _ & _ & _ & _ & Hc & Hf & _).
  split; assumption.
Qed.

Lemma next_frame_buttons (s : App) :
  fetch_button (next_frame load s) = fetch_button s
  /\ controls (next_frame load s) = controls s.
Proof.
  unfold next_frame. destruct (image_paths s);
    [split; reflexivity | apply display_frame_buttons].
Qed.

Lemma prev_frame_buttons (s : App) :
  fetch_button (prev_frame load s) = fetch_button s
  /\ controls (prev_frame load s) = controls s.
Proof.
  unfold prev_frame. destruct (image_paths s);
    [split; reflexivity | apply display_frame_buttons].
Qed.

Lemma animate_buttons (s : App) :
  fetch_button (animate load s) = fetch_button s
  /\ controls (animate load s) = controls s.
Proof.
  unfold animate. destruct (is_playing s); [|split; reflexivity].
  unfold after. simpl. apply next_frame_buttons.
Qed.

Lemma toggle_play_pause_buttons (s : App) :
  fetch_button (toggle_play_pause load s) = fetch_button s
  /\ controls (toggle_play_pause load s) = controls s.
Proof.
  unfold toggle_play_pause. destruct (is_playing s).
  - simpl. destruct (animation_job s); split; reflexivity.
  - apply (animate_buttons (set_play_button_text PauseText
                              (set_is_playing true s))).
Qed.

(** While the Fetch button is disabled, so are the animation controls. *)
Lemma step_fetching_disabled (a : action) (s : App) :
  (fetch_button s = Disabled -> controls s = Disabled) ->
  fetch_button (step load a s) = Disabled ->
  controls (step load a s) = Disabled.
Proof.
  intro Inv. destruct a; simpl; try exact Inv.
  - destruct (enabled (fetch_button s)); [|exact Inv].
    unfold start_fetch_thread, set_animation_controls_state. cbv zeta.
    match goal with |- context [selected_args ?t] =>
      destruct (selected_args t) end; reflexivity.
  - destruct (enabled (controls s)); [|exact Inv].
    destruct (toggle_play_pause_buttons s) as [-> ->]. exact Inv.
  - destruct (enabled (controls s)); [|exact Inv].
    destruct (prev_frame_buttons s) as [-> ->]. exact Inv.
  - destruct (enabled (controls s)); [|exact Inv].
    destruct (next_frame_buttons s) as [-> ->]. exact Inv.
  - destruct (enabled (controls s)); [|exact Inv].
    unfold on_slider_move.
    destruct (display_frame_buttons value (set_slider_value value s))
      as [-> ->]. exact Inv.
  - destruct (existsb (Nat.eqb id) (timers s)); [|exact Inv].
    destruct (animate_buttons (after_cancel id s)) as [-> ->]. exact Inv.
  - unfold process_queue. destruct (fetch_queue s) as [|[value|rt paths] rest];
      [exact Inv | exact Inv |].
    unfold handle_fetch_results. cbv zeta. intro H. discriminate H.
Qed.

End ButtonFacts.

(** X3: while a fetch is under way (the Fetch button is disabled from the
    click until the result is handed over) the animation controls are
    disabled too, in every reachable state: a click on Fetch, Play, Previous
    or Next and a move of the slider change nothing, so no second fetch and
    no navigation by the user can start in between. *)
Theorem reachable_fetching_locks_controls (s : App) :
  reachable s -> fetch_button s = Disabled ->
  controls s = Disabled
  /\ (forall load a,
        In a [ClickFetch; ClickPlay; ClickPrev; ClickNext] ->
        step load a s = s)
  /\ (forall load value, step load (MoveSlider value) s = s).
Proof.
  intros Hr.
  assert (Inv : fetch_button s = Disabled -> controls s = Disabled).
  { induction Hr as [rt | load a s _ IH]; [discriminate|].
    apply step_fetching_disabled, IH. }
  intro Hf. split; [apply Inv, Hf|]. split.
  - intros load a Ha. simpl in Ha.
    destruct Ha as [<- | [<- | [<- | [<- | []]]]]; simpl;
      rewrite ?Hf, ?(Inv Hf); reflexivity.
  - intros load value. simpl. rewrite (Inv Hf). reflexivity.
Qed.

(** X3 right after a click on Fetch. *)
Lemma reachable_fetching_locks_controls_witness :
  controls sample_fetching = Disabled
  /\ (forall load a,
        In a [ClickFetch; ClickPlay; ClickPrev; ClickNext] ->
        step load a sample_fetching = sample_fetching)
  /\ (forall load value,
        step load (MoveSlider value) sample_fetching = sample_fetching).
Proof.
  apply (reachable_fetching_locks_controls sample_fetching).
  - apply reach_step, reach_init.
  - reflexivity.
Defined.

(** X4: on a loaded sequence, from an index of the sequence, prev() undoes
    next() and next() undoes prev(), whether or not the images in between
    could be opened. *)
Theorem next_prev_inverse (load load' : string -> option photo) (s : App) :
  image_paths s <> [] ->
  0 <= current_frame_index s < Z.of_nat (List.length (image_paths s)) ->
  current_frame_index (prev_frame load' (next_frame load s))
  = current_frame_index s
  /\ current_frame_index (next_frame load' (prev_frame load s))
     = current_frame_index s.
Proof.
  intros Hne Hi.
  set (n := Z.of_nat (List.length (image_paths s))) in *.
  set (i := current_frame_index s) in *.
  destruct (next_frame_index load s Hne) as [Hn Hnp].
  pose proof (prev_frame_index load s Hne) as Hp.
  destruct (prev_frame_frame load s) as (Hpp & _).
  cbv zeta in *. fold n in Hn, Hp. fold i in Hn, Hp.
  split.
  - assert (Hne' : image_paths (next_frame load s) <> [])
      by (rewrite Hnp; exact Hne).
    rewrite (prev_frame_index load' _ Hne'), Hnp, Hn. fold n.
    replace ((i + 1) mod n - 1 + n) with ((i + 1) mod n + (n - 1)) by ring.
    rewrite Zplus_mod_idemp_l.
    replace (i + 1 + (n - 1)) with (i + 1 * n) by ring.
    rewrite Z_mod_plus_full. apply Z.mod_small. exact Hi.
  - assert (Hne' : image_paths (prev_frame load s) <> [])
      by (rewrite Hpp; exact Hne).
    destruct (next_frame_index load' _ Hne') as [Hn' _].
    rewrite Hn', Hpp, Hp. fold n.
    rewrite Zplus_mod_idemp_l.
    replace (i - 1 + n + 1) with (i + 1 * n) by ring.
    rewrite Z_mod_plus_full. apply Z.mod_small. exact Hi.
Qed.

(** X4 on the sample sequence, the second image not opening. *)
Lemma next_prev_inverse_witness :
  current_frame_index
    (prev_frame never_loads (next_frame always_loads sample_loaded))
  = current_frame_index sample_loaded
  /\ current_frame_index
       (next_frame never_loads (prev_frame always_loads sample_loaded))
     = current_frame_index sample_loaded.
Proof.
  apply (next_prev_inverse always_loads never_loads sample_loaded).
  - discriminate.
  - split; [discriminate | reflexivity].
Defined.

Section AnimationLoop.

Variable load : string -> option photo.

Lemma fire_pending_step (s : App) :
  playing_ok s ->
  playing_ok (fire_pending load s)
  /\ image_paths (fire_pending load s) = image_paths s
  /\ current_frame_index (fire_pending load s)
     = (current_frame_index s + 1) mod Z.of_nat (List.length (image_paths s)).
Proof.
  intros (Hne & Hp & (id & Ht) & Hi).
  unfold fire_pending. rewrite Ht. simpl. rewrite Ht. simpl.
  rewrite Nat.eqb_refl. simpl.
  set (s1 := after_cancel id s).
  assert (Hp1 : is_playing s1 = true) by exact Hp.
  assert (Hne1 : image_paths s1 <> []) by exact Hne.
  destruct (animate_frame load s1) as (Fp & Fi & _ & Fs).
  destruct (Fs Hp1) as (Ft & _ & Fc).
  destruct (next_frame_index load s1 Hne1) as [Hn _].
  assert (Hidx : current_frame_index (animate load s1)
                 = (current_frame_index s + 1)
                   mod Z.of_nat (List.length (image_paths s)))
    by (rewrite Fc, Hn; reflexivity).
  split; [|split; [rewrite Fp; reflexivity | exact Hidx]].
  split; [rewrite Fp; exact Hne|]. split; [rewrite Fi; exact Hp1|].
  split.
  - exists (next_timer s1). rewrite Ft. subst s1. unfold after_cancel.
    simpl. rewrite Ht. simpl. rewrite Nat.eqb_refl. reflexivity.
  - rewrite Hidx, Fp. change (image_paths s1) with (image_paths s).
    apply Z.mod_pos_bound. lia.
Qed.

Lemma fire_pending_iter (s : App) (k : nat) :
  playing_ok s ->
  playing_ok (Nat.iter k (fire_pending load) s)
  /\ image_paths (Nat.iter k (fire_pending load) s) = image_paths s
  /\ current_frame_index (Nat.iter k (fire_pending load) s)
     = (current_frame_index s + Z.of_nat k)
       mod Z.of_nat (List.length (image_paths s)).
Proof.
  intro Hok. induction k as [|k (IHok & IHp & IHi)].
  - split; [exact Hok|]. split; [reflexivity|].
    simpl. rewrite Z.add_0_r. symmetry. apply Z.mod_small, Hok.
  - rewrite Nat.iter_succ.
    destruct (fire_pending_step _ IHok) as (Sok & Sp & Si).
    split; [exact Sok|]. split; [rewrite Sp; exact IHp|].
    rewrite Si, IHp, IHi, Zplus_mod_idemp_l. f_equal. lia.
Qed.

End AnimationLoop.

(** X5: a playing animation loops.  In every reachable state that is
    playing a sequence is loaded; each time the pending timer fires the
    next frame is shown and one new timer is pending, so after k ticks the
    index is (i + k) mod n, and after n ticks the animation is back at the
    frame it started from. *)
Theorem animation_loops (load : string -> option photo) (s : App) (k : nat) :
  reachable s -> is_playing s = true ->
  let n := List.length (image_paths s) in
  let s' := Nat.iter k (fire_pending load) s in
  image_paths s <> []
  /\ is_playing s' = true
  /\ (exists id, timers s' = [id])
  /\ current_frame_index s' = (current_frame_index s + Z.of_nat k) mod Z.of_nat n
  /\ current_frame_index (Nat.iter n (fire_pending load) s)
     = current_frame_index s.
Proof.
  intros Hr Hp n s'.
  assert (Hne : image_paths s <> []).
  { intro He. destruct (reachable_empty_is_idle s Hr He) as (_ & Hi & _).
    rewrite Hi in Hp. discriminate. }
  destruct (reachable_index_ok s Hr Hne) as (Hidx & _).
  destruct (reachable_ticks_ok s Hr) as [_ Hon].
  destruct (Hon Hp) as (id & Ht & _).
  assert (Hok : playing_ok s).
  { split; [exact Hne|]. split; [exact Hp|]. split; [exists id; exact Ht|].
    exact Hidx. }
  destruct (fire_pending_iter load s k Hok) as ((_ & Hp' & Ht' & _) & _ & Hi').
  destruct (fire_pending_iter load s n Hok) as (_ & _ & Hn).
  split; [exact Hne|]. split; [exact Hp'|]. split; [exact Ht'|].
  split; [exact Hi'|].
  rewrite Hn. fold n.
  replace (current_frame_index s + Z.of_nat n)
    with (current_frame_index s + 1 * Z.of_nat n) by ring.
  rewrite Z_mod_plus_full. apply Z.mod_small. exact Hidx.
Qed.

(** X5 on the sample sequence: four ticks from the second frame lead to
    the third, three ticks back to the second. *)
Lemma animation_loops_witness :
  is_playing (Nat.iter 4 (fire_pending never_loads) sample_playing) = true
  /\ current_frame_index (Nat.iter 4 (fire_pending never_loads) sample_playing)
     = 2
  /\ current_frame_index (Nat.iter 3 (fire_pending never_loads) sample_playing)
     = 1.
Proof.
  destruct (animation_loops never_loads sample_playing 4
              sample_playing_reachable eq_refl) as (_ & Hp & _ & Hi & Hn).
  split; [exact Hp|]. split; [exact Hi | exact Hn].
Defined.

(** ** The event loop: what is on screen *)

Section ViewFacts.

Variable load : string -> option photo.

Lemma view_ok_same (s s' : App) : view_ok s -> same_view s s' -> view_ok s'.
Proof.
  unfold view_ok. intros H (Hp & Hr & Hi & Ht & Hk).
  rewrite Hp, Hr, Hi, Ht, Hk. exact H.
Qed.

Lemma same_view_trans (s1 s2 s3 : App) :
  same_view s1 s2 -> same_view s2 s3 -> same_view s1 s3.
Proof.
  intros (A1 & A2 & A3 & A4 & A5) (B1 & B2 & B3 & B4 & B5).
  unfold same_view. rewrite B1, B2, B3, B4, B5. repeat split; assumption.
Qed.

Lemma display_frame_view (index : Z) (s : App) :
  same_view s (display_frame load index s).
Proof.
  unfold same_view, display_frame. cbv zeta.
  destruct ((Z.of_nat (List.length (image_paths s)) =? 0)
            || negb ((0 <=? index)
                     && (index <? Z.of_nat (List.length (image_paths s)))));
    [repeat split; reflexivity|].
  destruct (slider_value (set_current_frame_index index s) =? index); simpl;
    try_outcomes load; repeat split; reflexivity.
Qed.

Lemma next_frame_view (s : App) : same_view s (next_frame load s).
Proof.
  unfold next_frame. destruct (image_paths s) eqn:E;
    [repeat split; reflexivity|].
  apply display_frame_view.
Qed.

Lemma prev_frame_view (s : App) : same_view s (prev_frame load s).
Proof.
  unfold prev_frame. destruct (image_paths s) eqn:E;
    [repeat split; reflexivity|].
  apply display_frame_view.
Qed.

Lemma animate_view (s : App) : same_view s (animate load s).
Proof.
  unfold animate. destruct (is_playing s); [|repeat split; reflexivity].
  apply (same_view_trans s (next_frame load s)); [apply next_frame_view|].
  repeat split; reflexivity.
Qed.

Lemma toggle_play_pause_view (s : App) :
  view_ok s -> view_ok (toggle_play_pause load s).
Proof.
  intros [Ht Hs]. unfold toggle_play_pause. destruct (is_playing s).
  - cbv zeta. split.
    + destruct (animation_job _); reflexivity.
    + destruct (animation_job _); exact Hs.
  - cbv zeta.
    apply (view_ok_same (set_play_button_text PauseText (set_is_playing true s)));
      [split; [reflexivity | exact Hs] | apply animate_view].
Qed.

Lemma handle_fetch_results_view (run_time : string) (paths : list string)
  (s : App) :
  view_ok s -> view_ok (handle_fetch_results load run_time paths s).
Proof.
  intros [Ht Hs]. unfold handle_fetch_results. cbv zeta.
  destruct paths as [|p ps].
  - split; [exact Ht | exact Hs].
  - set (s1 := set_slider_to _ _).
    destruct (display_frame_view 0 s1) as (Hp & Hr & Hi & Hb & Hk).
    unfold view_ok, set_animation_controls_state.
    cbn [play_button_text is_playing image_paths model_run_time
         animation_frame_packed set_fetch_button set_animation_frame_packed
         set_controls].
    rewrite Hp, Hr, Hi, Hb. subst s1.
    cbn [play_button_text is_playing image_paths model_run_time
         set_slider_to set_current_frame_index set_image_paths
         set_model_run_time set_progress_bar].
    split; [exact Ht|]. split; [exists run_time; reflexivity | reflexivity].
Qed.

Lemma step_view (a : action) (s : App) : view_ok s -> view_ok (step load a s).
Proof.
  intro Hok. destruct a; simpl.
  - exact Hok.
  - exact Hok.
  - exact Hok.
  - exact Hok.
  - destruct (enabled (fetch_button s)); [|exact Hok].
    unfold start_fetch_thread, set_animation_controls_state. cbv zeta.
    match goal with |- context [selected_args ?t] =>
      destruct (selected_args t) end; exact Hok.
  - destruct (enabled (controls s)); [|exact Hok].
    apply toggle_play_pause_view, Hok.
  - destruct (enabled (controls s)); [|exact Hok].
    apply (view_ok_same s); [exact Hok | apply prev_frame_view].
  - destruct (enabled (controls s)); [|exact Hok].
    apply (view_ok_same s); [exact Hok | apply next_frame_view].
  - destruct (enabled (controls s)); [|exact Hok].
    apply (view_ok_same (set_slider_value value s));
      [exact Hok | apply display_frame_view].
  - destruct (existsb (Nat.eqb id) (timers s)); [|exact Hok].
    apply (view_ok_same (after_cancel id s)); [exact Hok | apply animate_view].
  - exact Hok.
  - unfold process_queue. destruct (fetch_queue s) as [|[value|rt paths] rest];
      [exact Hok | exact Hok |].
    apply handle_fetch_results_view. exact Hok.
Qed.

End ViewFacts.

(** X6: what is on screen fits the state, in every state the running
    application can reach: the Play button shows Pause exactly while the
    animation plays; and exactly when a sequence is loaded a run time is
    kept with it (so [display_frame] never parses a missing run time) and
    the animation controls are packed. *)
Theorem reachable_view_consistent (s : App) :
  reachable s ->
  play_button_text s = (if is_playing s then PauseText else PlayText)
  /\ (image_paths s <> [] ->
      (exists r, model_run_time s = Some r)
      /\ animation_frame_packed s = true)
  /\ (image_paths s = [] ->
      model_run_time s = None /\ animation_frame_packed s = false).
Proof.
  intro Hr.
  assert (Hok : view_ok s).
  { induction Hr as [rt | load a s _ IH].
    - split; [reflexivity | split; reflexivity].
    - apply step_view, IH. }
  destruct Hok as [Ht Hs]. split; [exact Ht|].
  destruct (image_paths s); split.
  - intro H. exfalso. apply H. reflexivity.
  - intros _. exact Hs.
  - intros _. exact Hs.
  - discriminate.
Qed.

(** X6 on the sample sequence while it plays. *)
Lemma reachable_view_consistent_witness :
  play_button_text sample_playing
  = (if is_playing sample_playing then PauseText else PlayText)
  /\ (image_paths sample_playing <> [] ->
      (exists r, model_run_time sample_playing = Some r)
      /\ animation_frame_packed sample_playing = true)
  /\ (image_paths sample_playing = [] ->
      model_run_time sample_playing = None
      /\ animation_frame_packed sample_playing = false).
Proof.
  apply (reachable_view_consistent sample_playing sample_playing_reachable).
Defined.

(** ** Starting a fetch *)

Lemma dict_get_key {V : Type} (d : list (string * V)) (k : string) :
  In k (map fst d) -> exists v, Py.dict_get d k = Some v.
Proof.
  induction d as [|[k' v'] d IH]; simpl; intro H; [contradiction|].
  destruct (String.eqb_spec k' k) as [E|E]; [exists v'; reflexivity|].
  destruct H as [H|H]; [contradiction | apply IH, H].
Qed.

Lemma dict_get_value {V : Type} (d : list (string * V)) (k : string) (v : V) :
  Py.dict_get d k = Some v -> In v (map snd d).
Proof.
  induction d as [|[k' v'] d IH]; simpl; [discriminate|].
  destruct (String.eqb k' k); intro H.
  - inversion H. left. reflexivity.
  - right. apply IH, H.
Qed.

(** X7: a selection taken from the four menus always starts a worker: each
    look-up of [start_fetch_thread] finds its key, the model code has a
    base URL, and the worker gets the codes of the selection.  With a model
    name that is in no menu the look-up fails after the widgets were
    updated: no worker starts, and the Fetch button and the controls stay
    disabled. *)
Theorem start_fetch_thread_selection (s : App) :
  (In (model_var s) (map fst models) ->
   In (region_var s) (map fst regions) ->
   In (param_var s) (map fst parameters) ->
   In (run_time_var s) (map fst (run_times s)) ->
   exists a,
     threads (start_fetch_thread s) = (threads s ++ [a])%list
     /\ Py.dict_get models (model_var s) = Some (arg_model a)
     /\ Py.dict_get base_urls (arg_model a) = Some (arg_base_url a)
     /\ Py.dict_get (run_times s) (run_time_var s) = Some (arg_run_time a)
     /\ Py.dict_get parameters (param_var s) = Some (arg_parameter a)
     /\ Py.dict_get regions (region_var s) = Some (arg_region a))
  /\ (Py.dict_get models (model_var s) = None ->
      threads (start_fetch_thread s) = threads s)
  /\ fetch_button (start_fetch_thread s) = Disabled
  /\ controls (start_fetch_thread s) = Disabled.
Proof.
  assert (Hsel : forall t, selected_args
            (set_image_label t
               (set_animation_controls_state Disabled
                  (set_progress_bar (Py.Int 0) (set_fetch_button Disabled s))))
            = selected_args s) by reflexivity.
  split; [|split; [|split]].
  - intros Hm Hr Hp Ht.
    destruct (dict_get_key _ _ Hm) as (model_code & Em).
    destruct (dict_get_key _ _ Hr) as (region & Er).
    destruct (dict_get_key _ _ Hp) as (parameter & Ep).
    destruct (dict_get_key _ _ Ht) as (run_time & Et).
    assert (Hb : exists base_url, Py.dict_get base_urls model_code = Some base_url).
    { apply dict_get_value in Em. simpl in Em.
      destruct Em as [<- | [<- | [<- | [<- | []]]]]; eexists; reflexivity. }
    destruct Hb as (base_url & Eb).
    exists (mkArgs base_url model_code run_time parameter region).
    unfold start_fetch_thread. cbv zeta. rewrite Hsel.
    unfold selected_args. rewrite Em, Eb, Et, Ep, Er.
    cbn [arg_base_url arg_model arg_run_time arg_parameter arg_region].
    repeat split; try reflexivity; assumption.
  - intro Hnone. unfold start_fetch_thread. cbv zeta. rewrite Hsel.
    unfold selected_args. rewrite Hnone. reflexivity.
  - unfold start_fetch_thread. cbv zeta. rewrite Hsel.
    destruct (selected_args s); reflexivity.
  - unfold start_fetch_thread. cbv zeta. rewrite Hsel.
    destruct (selected_args s); reflexivity.
Qed.

(** X7 on the application as it starts. *)
Lemma start_fetch_thread_selection_witness :
  exists a,
    threads (start_fetch_thread (init sample_run_times)) = ([] ++ [a])%list
    /\ Py.dict_get models "GFS" = Some (arg_model a)
    /\ Py.dict_get base_urls (arg_model a) = Some (arg_base_url a)
    /\ Py.dict_get sample_run_times "2024-01-01 00Z (Latest)"
       = Some (arg_run_time a)
    /\ Py.dict_get parameters "Composite Reflectivity" = Some (arg_parameter a)
    /\ Py.dict_get regions "Continental US" = Some (arg_region a).
Proof.
  apply (proj1 (start_fetch_thread_selection (init sample_run_times)));
    vm_compute; auto 20.
Defined.

(** ** Polling the queue *)

Section Polling.

Variable load : string -> option photo.

(** The polls that find a progress event move the progress bar and take
    the event off the queue, nothing else. *)
Lemma run_polls_progress (rest : list event) (vs : list Py.number) :
  forall (k : nat) (v : Py.number) (s : App),
  fetch_queue s = (map Progress vs ++ rest)%list ->
  nth_error vs k = Some v ->
  run load (repeat Poll (S k)) s
  = set_progress_bar v
      (set_fetch_queue (map Progress (skipn (S k) vs) ++ rest)%list s).
Proof.
  induction vs as [|a vs IH]; intros k v s Hq Hk.
  - destruct k; discriminate.
  - destruct k as [|k].
    + simpl in Hk. inversion Hk; subst a.
      simpl. unfold process_queue. rewrite Hq. reflexivity.
    + change (run load (repeat Poll (S (S k))) s)
        with (run load (repeat Poll (S k)) (process_queue load s)).
      unfold process_queue at 1. rewrite Hq. cbn [map app].
      rewrite (IH k v) by (reflexivity || exact Hk).
      reflexivity.
Qed.

Lemma run_polls_result (vs : list Py.number) (run_time : string)
  (paths : list string) (rest : list event) :
  forall s : App,
  fetch_queue s = (map Progress vs ++ Result run_time paths :: rest)%list ->
  run load (repeat Poll (S (List.length vs))) s
  = handle_fetch_results load run_time paths (set_fetch_queue rest s).
Proof.
  induction vs as [|v vs IH]; intros s Hq.
  - simpl in *. unfold process_queue. rewrite Hq. reflexivity.
  - change (run load (repeat Poll (S (List.length (v :: vs)))) s)
      with (run load (repeat Poll (S (List.length vs))) (process_queue load s)).
    unfold process_queue at 1. rewrite Hq. cbn [map app].
    rewrite IH by reflexivity.
    reflexivity.
Qed.

(** X8: polling takes the messages in the order they were put.  With
    progress events in front of a result on the queue, each of the first
    polls only moves the progress bar to the value of its event and takes
    the event off; the poll that finds the result hands it over, and what
    was put behind the result stays on the queue. *)
Theorem poll_hands_over (vs : list Py.number) (run_time : string)
  (paths : list string) (rest : list event) (s : App) :
  fetch_queue s = (map Progress vs ++ Result run_time paths :: rest)%list ->
  (forall k v, nth_error vs k = Some v ->
     run load (repeat Poll (S k)) s
     = set_progress_bar v
         (set_fetch_queue
            (map Progress (skipn (S k) vs) ++ Result run_time paths :: rest)%list
            s))
  /\ run load (repeat Poll (S (List.length vs))) s
     = handle_fetch_results load run_time paths (set_fetch_queue rest s).
Proof.
  intro Hq. split.
  - intros k v Hk. apply run_polls_progress; assumption.
  - apply run_polls_result, Hq.
Qed.

End Polling.

(** X8 with one progress event in front of the sample sequence. *)
Lemma poll_hands_over_witness :
  run always_loads (repeat Poll 1) sample_queued
  = set_progress_bar (Py.Int 50)
      (set_fetch_queue [Result "2024010100" sample_sequence] sample_queued)
  /\ run always_loads (repeat Poll 2) sample_queued
     = handle_fetch_results always_loads "2024010100" sample_sequence
         (set_fetch_queue [] sample_queued).
Proof.
  destruct (poll_hands_over always_loads [Py.Int 50] "2024010100"
              sample_sequence [] sample_queued eq_refl) as [Hfirst Hlast].
  split; [exact (Hfirst 0%nat (Py.Int 50) eq_refl) | exact Hlast].
Defined.

(** ** The worker: gaps, files and duplicates *)





Lemma append_assoc (a b c : string) : (a ++ b) ++ c = a ++ b ++ c.
Proof. induction a as [|x a IH]; simpl; [reflexivity | rewrite IH; reflexivity]. Qed.

Lemma append_inv_head (a x y : string) : a ++ x = a ++ y -> x = y.
Proof.
  induction a as [|c a IH]; simpl; intro H; [exact H|].
  inversion H. apply IH. assumption.
Qed.

Lemma fmt_table_3 : Py.fmt_table 3 1000 = true.
Proof. vm_compute. reflexivity. Qed.

Lemma dict_get_set_same {V : Type} (d : list (string * V)) (k : string) (v : V) :
  Py.dict_get (Py.dict_set d k v) k = Some v.
Proof.
  induction d as [|[k' v'] d IH]; simpl.
  - rewrite String.eqb_refl. reflexivity.
  - destruct (String.eqb_spec k' k) as [E|E]; simpl.
    + subst. rewrite String.eqb_refl. reflexivity.
    + destruct (String.eqb_spec k' k); [contradiction | exact IH].
Qed.

Lemma dict_get_set_other {V : Type} (d : list (string * V)) (k k' : string)
  (v : V) :
  k <> k' -> Py.dict_get (Py.dict_set d k v) k' = Py.dict_get d k'.
Proof.
  intro Hne. induction d as [|[k0 v0] d IH]; simpl.
  - destruct (String.eqb_spec k k'); [contradiction | reflexivity].
  - destruct (String.eqb_spec k0 k) as [E|E]; simpl.
    + subst. destruct (String.eqb_spec k k'); [contradiction | reflexivity].
    + destruct (String.eqb_spec k0 k'); [reflexivity | exact IH].
Qed.

(** [os.path.join] puts the same text in front of every second part that
    begins with the same character. *)
Lemma path_join_prefix (a : string) (c : ascii) :
  exists pre, forall r, Py.path_join a (String c r) = pre ++ String c r.
Proof.
  destruct (Ascii.eqb_spec c "/") as [->|Hc].
  - exists EmptyString. intro r. reflexivity.
  - assert (Hj : forall r,
              Py.path_join a (String c r)
              = if (String.length a =? 0)%nat || Py.ends_with_slash a
                then a ++ String c r else a ++ "/" ++ String c r).
    { intro r. unfold Py.path_join.
      destruct c as [[] [] [] [] [] [] [] []]; try reflexivity.
      exfalso. apply Hc. reflexivity. }
    destruct ((String.length a =? 0)%nat || Py.ends_with_slash a) eqn:E.
    + exists a. intro r. rewrite Hj. reflexivity.
    + exists (a ++ "/"). intro r. rewrite Hj, append_assoc. reflexivity.
Qed.

Lemma forecast_hours_bounds (model : string) (h : Z) :
  In h (generate_forecast_hours model) -> 0 <= h < 1000.
Proof.
  destruct (forecast_hours_cases model)
    as [[_ ->] | [[_ ->] | [[_ ->] | [_ ->]]]]; intro H.
  - apply dense_sparse_In in H. lia.
  - apply range_In in H; lia.
  - apply range_In in H; lia.
  - apply range_In in H; lia.
Qed.

(** X9: the three-digit text of a forecast hour of any model, as the
    worker writes it into the URL and the file name, has exactly three
    characters and reads back with [int] as that hour, so different hours
    of a model have different texts. *)
Theorem forecast_hour_text_reads_back (model : string) (h : Z) :
  In h (generate_forecast_hours model) ->
  String.length (Py.fmt_d 3 h) = 3%nat
  /\ Py.int (Py.fmt_d 3 h) = Ok h
  /\ forall h', In h' (generate_forecast_hours model) ->
       Py.fmt_d 3 h' = Py.fmt_d 3 h -> h' = h.
Proof.
  intro Hin. pose proof (forecast_hours_bounds model h Hin) as Hb.
  destruct (RunTimeCatalog.fmt_table_spec 3 1000 h fmt_table_3 Hb) as [Hl Hi].
  split; [exact Hl|]. split; [exact Hi|].
  intros h' Hin' E.
  apply (RunTimeCatalog.fmt_d_inj 3 1000 _ _ fmt_table_3
           (forecast_hours_bounds model h' Hin') Hb E).
Qed.

(** X9 for hour 1 of hrrr. *)
Lemma forecast_hour_text_reads_back_witness :
  String.length (Py.fmt_d 3 1) = 3%nat
  /\ Py.int (Py.fmt_d 3 1) = Ok 1
  /\ forall h', In h' (generate_forecast_hours "hrrr") ->
       Py.fmt_d 3 h' = Py.fmt_d 3 1 -> h' = 1.
Proof.
  apply (forecast_hour_text_reads_back "hrrr" 1).
  vm_compute. right. left. reflexivity.
Defined.

Section FileNames.

Variables model run_time parameter region save_dir : string.

Local Abbreviation file := (frame_file model run_time parameter region save_dir).

Lemma frame_file_shape :
  exists pre suf, forall hour, file hour = pre ++ Py.fmt_d 3 hour ++ suf.
Proof.
  set (suf := "_" ++ parameter ++ "_" ++ region ++ ".png").
  assert (Hname : forall hour,
            model ++ "_" ++ run_time ++ "_" ++ Py.fmt_d 3 hour ++ "_"
            ++ parameter ++ "_" ++ region ++ ".png"
            = (model ++ "_" ++ run_time ++ "_") ++ Py.fmt_d 3 hour ++ suf).
  { intro hour. rewrite !append_assoc. reflexivity. }
  destruct (model ++ "_" ++ run_time ++ "_") as [|c t] eqn:E.
  - destruct model; discriminate.
  - destruct (path_join_prefix save_dir c) as (pre & Hpre).
    exists (pre ++ String c t), suf. intro hour.
    unfold frame_file. rewrite Hname. cbn [append].
    rewrite Hpre, append_assoc. reflexivity.
Qed.

(** Different forecast hours (below 1000) go to different files. *)
Lemma frame_file_inj (h1 h2 : Z) :
  0 <= h1 < 1000 -> 0 <= h2 < 1000 -> file h1 = file h2 -> h1 = h2.
Proof.
  intros H1 H2 E.
  destruct frame_file_shape as (pre & suf & Hs).
  rewrite !Hs in E. apply append_inv_head in E.
  apply RunTimeCatalog.append_inj in E.
  - destruct E as [E _].
    apply (RunTimeCatalog.fmt_d_inj 3 1000 _ _ fmt_table_3 H1 H2 E).
  - rewrite (proj1 (RunTimeCatalog.fmt_table_spec 3 1000 h1 fmt_table_3 H1)).
    rewrite (proj1 (RunTimeCatalog.fmt_table_spec 3 1000 h2 fmt_table_3 H2)).
    reflexivity.
Qed.

End FileNames.

Section WorkerFacts.

Variable net : string -> response.
Variables base_url model run_time parameter region save_dir : string.
Variable q0 : list event.
Variable files0 : list (string * string).

Local Abbreviation url := (frame_url base_url model run_time parameter region).
Local Abbreviation file := (frame_file model run_time parameter region save_dir).
Local Abbreviation iteration' :=
  (iteration net base_url model run_time parameter region save_dir).
Local Abbreviation iterate' :=
  (iterate net base_url model run_time parameter region save_dir).
Local Abbreviation delivered' :=
  (delivered net base_url model run_time parameter region).
Local Abbreviation fetch :=
  (threaded_fetch_image_sequence net base_url model run_time parameter region
     save_dir q0 files0).
Local Abbreviation hours := (generate_forecast_hours model).
Local Abbreviation total := (Z.of_nat (List.length (generate_forecast_hours model))).
Local Abbreviation st0 := (mkFetch q0 files0 [] [] 0).




Lemma frame_url_shape :
  exists pre suf, forall hour, url hour = pre ++ Py.fmt_d 3 hour ++ suf.
Proof.
  exists (base_url ++ "/maps/models/" ++ model ++ "/" ++ run_time ++ "/"),
    ("/" ++ parameter ++ "." ++ region ++ ".png").
  intro hour. unfold frame_url. rewrite !append_assoc. reflexivity.
Qed.

Lemma frame_url_inj (h1 h2 : Z) :
  0 <= h1 < 1000 -> 0 <= h2 < 1000 -> url h1 = url h2 -> h1 = h2.
Proof.
  intros H1 H2 E.
  destruct frame_url_shape as (pre & suf & Hs).
  rewrite !Hs in E. apply append_inv_head in E.
  apply RunTimeCatalog.append_inj in E.
  - destruct E as [E _].
    apply (RunTimeCatalog.fmt_d_inj 3 1000 _ _ fmt_table_3 H1 H2 E).
  - rewrite (proj1 (RunTimeCatalog.fmt_table_spec 3 1000 h1 fmt_table_3 H1)).
    rewrite (proj1 (RunTimeCatalog.fmt_table_spec 3 1000 h2 fmt_table_3 H2)).
    reflexivity.
Qed.

(** What one pass writes: the body of a 200 response, or nothing. *)
Lemma iteration_files (i h : Z) (st : fetch_state) :
  files (iteration' total i h st)
  = match net (url h) with
    | Response code content =>
        if code =? 200 then
          Py.dict_set (files st) (file h)
            (match content with Some bytes => bytes | None => EmptyString end)
        else files st
    | RequestException => files st
    end.
Proof.
  unfold iteration, attempt.
  destruct (net (url h)) as [code [bytes|]|]; simpl;
    try destruct (code =? 200); reflexivity.
Qed.

Lemma iterate_files_other (hs : list Z) (k : string) :
  forall (i : Z) (st : fetch_state),
  (forall h, In h hs -> k <> file h) ->
  Py.dict_get (files (iterate' total i hs st)) k = Py.dict_get (files st) k.
Proof.
  induction hs as [|x hs IH]; intros i st Hk; simpl; [reflexivity|].
  rewrite IH by (intros h Hh; apply Hk; right; exact Hh).
  rewrite iteration_files.
  assert (Hx : file x <> k) by (intro E; apply (Hk x (or_introl eq_refl)); auto).
  destruct (net (url x)) as [code content|]; [|reflexivity].
  destruct (code =? 200); [|reflexivity].
  apply dict_get_set_other, Hx.
Qed.

Lemma iterate_files_body (hs : list Z) :
  forall (i : Z) (st : fetch_state),
  (forall h, In h hs -> 0 <= h < 1000) -> NoDup hs ->
  forall h bytes,
    In h hs -> net (url h) = Response 200 (Some bytes) ->
    Py.dict_get (files (iterate' total i hs st)) (file h) = Some bytes.
Proof.
  induction hs as [|x hs IH]; intros i st Hb Hnd h bytes Hin Hnet;
    [contradiction|].
  inversion Hnd as [|? ? Hx Hnd']; subst. simpl.
  destruct Hin as [<- | Hin].
  - rewrite iterate_files_other.
    + rewrite iteration_files, Hnet. simpl. apply dict_get_set_same.
    + intros h Hh E. apply Hx.
      apply frame_file_inj in E;
        [subst; exact Hh | apply Hb; left; reflexivity
        | apply Hb; right; exact Hh].
  - apply IH; try assumption. intros h' Hh'. apply Hb. right. exact Hh'.
Qed.

Lemma fetch_files_iterate :
  exists attempted skipped,
    hours = (attempted ++ skipped)%list
    /\ files fetch = files (iterate' total 0 attempted st0)
    /\ downloaded_paths fetch = map file (filter delivered' attempted)
    /\ requested fetch = map url attempted.
Proof.
  destruct (fetch_loop_iterate net base_url model run_time parameter region
              save_dir total hours 0 st0)
    as (att & skip & Hsplit & Hcase).
  destruct (iterate_effects net base_url model run_time parameter region
              save_dir total att 0 st0) as (_ & Hr & Hd).
  change (Z.of_nat 0) with 0 in *. simpl in Hr, Hd.
  exists att, skip. split; [exact Hsplit|].
  unfold threaded_fetch_image_sequence.
  destruct Hcase as [[_ Hl] | (_ & _ & Hl)]; rewrite Hl; simpl;
    rewrite Hr, Hd; repeat split; reflexivity.
Qed.

(** X11: every path of the result names a file that holds the body of the
    200 response of its forecast hour, and a file that is not the file of a
    forecast hour of the model is left as the worker found it. *)
Theorem fetch_files_hold_bodies :
  (forall p,
     In p (downloaded_paths
             (threaded_fetch_image_sequence net base_url model run_time
                parameter region save_dir q0 files0)) ->
     exists h bytes,
       In h (generate_forecast_hours model) /\ p = file h
       /\ net (url h) = Response 200 (Some bytes)
       /\ Py.dict_get (files fetch) p = Some bytes)
  /\ (forall k, (forall h, In h (generate_forecast_hours model) -> k <> file h) ->
      Py.dict_get (files fetch) k = Py.dict_get files0 k).
Proof.
  destruct fetch_files_iterate as (att & skip & Hsplit & Hf & Hd & _).
  assert (Hsub : forall h, In h att -> In h hours)
    by (intros h Hh; rewrite Hsplit; apply in_or_app; left; exact Hh).
  split.
  - intros p Hp. rewrite Hd in Hp. apply in_map_iff in Hp.
    destruct Hp as (h & <- & Hh). apply filter_In in Hh.
    destruct Hh as [Hh Hdel]. unfold delivered in Hdel.
    destruct (net (url h)) as [code [bytes|]|] eqn:Hnet; try discriminate.
    apply Z.eqb_eq in Hdel. subst code.
    exists h, bytes. split; [apply Hsub, Hh|]. split; [reflexivity|].
    split; [exact Hnet|]. rewrite Hf.
    apply iterate_files_body; try assumption.
    + intros h' Hh'. apply (forecast_hours_bounds model), Hsub, Hh'.
    + apply sorted_NoDup. apply sorted_app_l with (l2 := skip).
      rewrite <- Hsplit. apply forecast_hours_sorted.
  - intros k Hk. rewrite Hf.
    rewrite iterate_files_other; [reflexivity|].
    intros h Hh. apply Hk, Hsub, Hh.
Qed.

(** X12: the worker requests no URL twice, and no file occurs twice in
    its result. *)
Theorem fetch_no_duplicates :
  NoDup (requested
           (threaded_fetch_image_sequence net base_url model run_time
              parameter region save_dir q0 files0))
  /\ NoDup (downloaded_paths
              (threaded_fetch_image_sequence net base_url model run_time
                 parameter region save_dir q0 files0)).
Proof.
  destruct fetch_files_iterate as (att & skip & Hsplit & _ & Hd & Hr).
  assert (Hsorted : StronglySorted Z.lt att).
  { apply sorted_app_l with (l2 := skip). rewrite <- Hsplit.
    apply forecast_hours_sorted. }
  assert (Hb : forall h, In h att -> 0 <= h < 1000).
  { intros h Hh. apply (forecast_hours_bounds model). rewrite Hsplit.
    apply in_or_app. left. exact Hh. }
  split.
  - rewrite Hr. apply NoDup_map_NoDup_ForallPairs;
      [|apply sorted_NoDup, Hsorted].
    intros a b Ha Hb' E. apply frame_url_inj in E; auto.
  - rewrite Hd. apply NoDup_map_NoDup_ForallPairs;
      [|apply sorted_NoDup, sorted_filter, Hsorted].
    intros a b Ha Hb' E. apply filter_In in Ha, Hb'.
    apply (frame_file_inj model run_time parameter region save_dir) in E;
      [exact E | apply Hb, Ha | apply Hb, Hb'].
Qed.

End WorkerFacts.

(** X11 for the first frame of gfs on the server that has the frames up to
    hour 30. *)
Lemma fetch_files_hold_bodies_witness :
  let url := frame_url "https://m1o.pivotalweather.com" "gfs" "2024010100"
               "sfct-imp" "conus" in
  let file := frame_file "gfs" "2024010100" "sfct-imp" "conus"
                "weather_images" in
  let fetch :=
    threaded_fetch_image_sequence found_until_30
      "https://m1o.pivotalweather.com" "gfs" "2024010100" "sfct-imp" "conus"
      "weather_images" [] [] in
  exists h bytes,
    In h (generate_forecast_hours "gfs") /\ sample_frame "gfs" 0 = file h
    /\ found_until_30 (url h) = Response 200 (Some bytes)
    /\ Py.dict_get (files fetch) (sample_frame "gfs" 0) = Some bytes.
Proof.
  apply (proj1 (fetch_files_hold_bodies found_until_30
                  "https://m1o.pivotalweather.com" "gfs" "2024010100"
                  "sfct-imp" "conus" "weather_images" [] [])).
  vm_compute. left. reflexivity.
Defined.




(** ** The worker and the polling together *)

Section FetchAndPoll.

Variable net : string -> response.
Variables base_url model run_time parameter region save_dir : string.
Variable files0 : list (string * string).
Variable load : string -> option photo.

Local Abbreviation fetch :=
  (threaded_fetch_image_sequence net base_url model run_time parameter region
     save_dir [] files0).



End FetchAndPoll.




(** ** Run keys: written by [strftime], read back by [strptime] *)

Module RunKeys.

Import Datetime.

Lemma reads_back_year : reads_back_table DY 4 1 10000 = true.
Proof. vm_compute. reflexivity. Qed.

Lemma reads_back_month : reads_back_table Dm 2 1 13 = true.
Proof. vm_compute. reflexivity. Qed.

Lemma reads_back_day : reads_back_table Dd 2 1 32 = true.
Proof. vm_compute. reflexivity. Qed.

Lemma reads_back_hour : reads_back_table DH 2 0 24 = true.
Proof. vm_compute. reflexivity. Qed.

Lemma reads_back_spec (d : directive) (w : nat) (lo hi n : Z) :
  reads_back_table d w lo hi = true -> lo <= n < hi ->
  String.length (Py.fmt_d w n) = w
  /\ Py.has_char "_" (Py.fmt_d w n) = false
  /\ Py.has_char "/" (Py.fmt_d w n) = false
  /\ exists tl,
       alternatives d (list_ascii_of_string (Py.fmt_d w n)) = (n, []) :: tl.
Proof.
  unfold reads_back_table. intros H Hn. rewrite forallb_forall in H.
  assert (Hin : In n (Py.range lo hi 1)).
  { apply range_In; [lia|]. split; [lia | apply Z.mod_1_r]. }
  specialize (H n Hin). unfold reads_back in H. cbv zeta in H.
  rewrite !andb_true_iff, !negb_true_iff, Nat.eqb_eq in H.
  destruct H as (((Hl & Hu) & Hs) & Ha).
  split; [exact Hl|]. split; [exact Hu|]. split; [exact Hs|].
  destruct (alternatives d (list_ascii_of_string (Py.fmt_d w n)))
    as [|[v [|c r]] tl]; try discriminate.
  apply Z.eqb_eq in Ha. subst v. exists tl. reflexivity.
Qed.

(** A directive reads its digits the same way whatever follows them, as
    long as its text is there in full. *)
Lemma alternatives_app (d : directive) (s rest : list ascii) :
  match d with
  | DY => List.length s = 4%nat
  | Dm | Dd | DH | DM => List.length s = 2%nat
  | DLit _ => List.length s = 1%nat
  end ->
  alternatives d (s ++ rest)
  = map (fun vr => (fst vr, (snd vr ++ rest)%list)) (alternatives d s).
Proof.
  destruct d; intro Hl.
  - destruct s as [|a [|b [|c [|e [|]]]]]; try discriminate. simpl.
    destruct (Py.is_digit a && Py.is_digit b && Py.is_digit c && Py.is_digit e);
      reflexivity.
  - destruct s as [|a [|b [|]]]; try discriminate.
    unfold alternatives, two, one. cbn [app].
    destruct (Ascii.eqb "1" a && between "0" "2" b);
      destruct (Ascii.eqb "0" a && between "1" "9" b);
      destruct (between "1" "9" a); reflexivity.
  - destruct s as [|a [|b [|]]]; try discriminate.
    unfold alternatives, two, one. cbn [app].
    destruct (Ascii.eqb "3" a && between "0" "1" b);
      destruct (between "1" "2" a && Py.is_digit b);
      destruct (Ascii.eqb "0" a && between "1" "9" b);
      destruct (between "1" "9" a);
      destruct a as [[] [] [] [] [] [] [] []];
      try destruct (between "1" "9" b); reflexivity.
  - destruct s as [|a [|b [|]]]; try discriminate.
    unfold alternatives, two, one. cbn [app].
    destruct (Ascii.eqb "2" a && between "0" "3" b);
      destruct (between "0" "1" a && Py.is_digit b);
      destruct (Py.is_digit a); reflexivity.
  - destruct s as [|a [|b [|]]]; try discriminate.
    unfold alternatives, two, one. cbn [app].
    destruct (between "0" "5" a && Py.is_digit b);
      destruct (Py.is_digit a); reflexivity.
  - destruct s as [|a [|]]; try discriminate. simpl.
    destruct (Ascii.eqb a c); reflexivity.
Qed.

Lemma list_ascii_append (a b : string) :
  list_ascii_of_string (a ++ b)
  = (list_ascii_of_string a ++ list_ascii_of_string b)%list.
Proof. induction a as [|c a IH]; simpl; [reflexivity | rewrite IH; reflexivity]. Qed.

Lemma list_ascii_length (a : string) :
  List.length (list_ascii_of_string a) = String.length a.
Proof. induction a as [|c a IH]; simpl; [reflexivity | rewrite IH; reflexivity]. Qed.

(** When the first alternative of the first directive takes its text and
    the other directives match what follows, that match is the first
    one. *)
Lemma matches_first (d : directive) (ds : list directive) (w : nat) (n : Z)
  (lo hi : Z) (rest : list ascii) (f : datetime) (r : datetime * list ascii) :
  reads_back_table d w lo hi = true -> lo <= n < hi ->
  match d with
  | DY => w = 4%nat
  | Dm | Dd | DH | DM => w = 2%nat
  | DLit _ => w = 1%nat
  end ->
  hd_error (matches ds rest (set_field d n f)) = Some r ->
  hd_error (matches (d :: ds)
              (list_ascii_of_string (Py.fmt_d w n) ++ rest) f) = Some r.
Proof.
  intros Ht Hn Hw Hr.
  destruct (reads_back_spec d w lo hi n Ht Hn) as (Hl & _ & _ & tl & Ha).
  cbn [matches]. rewrite alternatives_app.
  - rewrite Ha. cbn [map flat_map fst snd app].
    destruct (matches ds rest (set_field d n f)) as [|x xs];
      [discriminate | exact Hr].
  - rewrite list_ascii_length, Hl. destruct d; exact Hw.
Qed.

Lemma key_shape (dt : datetime) :
  strftime dt "%Y%m%d%H"
  = Py.fmt_d 4 (year dt) ++ Py.fmt_d 2 (month dt) ++ Py.fmt_d 2 (day dt)
    ++ Py.fmt_d 2 (hour dt) ++ "".
Proof. reflexivity. Qed.

Lemma key_fields (dt : datetime) :
  valid dt = true ->
  1 <= year dt < 10000 /\ 1 <= month dt < 13 /\ 1 <= day dt < 32
  /\ 0 <= hour dt < 24.
Proof.
  intro Hv.
  pose proof (proj1 (RunTimeCatalog.valid_fields dt) Hv)
    as ((Hy & Hmo & Hd) & Hh & _).
  pose proof (RunTimeCatalog.month_bounds (month dt) (is_leap (year dt)) Hmo)
    as Hb. cbv zeta in Hb. unfold days_in_month in Hd. lia.
Qed.

Lemma strptime_run_key (dt : datetime) :
  valid dt = true ->
  minute dt = 0 -> second dt = 0 -> microsecond dt = 0 ->
  strptime (strftime dt "%Y%m%d%H") "%Y%m%d%H" = Ok dt.
Proof.
  intros Hv Hm Hs Hu.
  destruct (key_fields dt Hv) as (Hy & Hmo & Hd & Hh).
  unfold strptime.
  change (compile (list_ascii_of_string "%Y%m%d%H")) with [DY; Dm; Dd; DH].
  rewrite key_shape, !list_ascii_append.
  assert (Hhead :
    hd_error
      (matches [DY; Dm; Dd; DH]
         (list_ascii_of_string (Py.fmt_d 4 (year dt))
          ++ list_ascii_of_string (Py.fmt_d 2 (month dt))
          ++ list_ascii_of_string (Py.fmt_d 2 (day dt))
          ++ list_ascii_of_string (Py.fmt_d 2 (hour dt))
          ++ list_ascii_of_string "")%list defaults)
    = Some (mk (year dt) (month dt) (day dt) (hour dt) 0 0 0, [])).
  { apply (matches_first DY _ 4 _ 1 10000);
      [exact reads_back_year | lia | reflexivity |].
    apply (matches_first Dm _ 2 _ 1 13);
      [exact reads_back_month | lia | reflexivity |].
    apply (matches_first Dd _ 2 _ 1 32);
      [exact reads_back_day | lia | reflexivity |].
    apply (matches_first DH _ 2 _ 0 24);
      [exact reads_back_hour | lia | reflexivity |].
    reflexivity. }
  destruct (matches _ _ defaults) as [|[f rest] tl]; [discriminate|].
  cbn [hd_error] in Hhead. inversion Hhead; subst f rest.
  assert (E : mk (year dt) (month dt) (day dt) (hour dt) 0 0 0 = dt)
    by (destruct dt; simpl in *; subst; reflexivity).
  rewrite E, Hv. reflexivity.
Qed.

Lemma run_key_length (dt : datetime) :
  valid dt = true -> String.length (strftime dt "%Y%m%d%H") = 10%nat.
Proof.
  intro Hv. destruct (key_fields dt Hv) as (Hy & Hmo & Hd & Hh).
  destruct (reads_back_spec DY 4 1 10000 (year dt) reads_back_year Hy)
    as (Ly & _).
  destruct (reads_back_spec Dm 2 1 13 (month dt) reads_back_month Hmo)
    as (Lm & _).
  destruct (reads_back_spec Dd 2 1 32 (day dt) reads_back_day Hd)
    as (Ld & _).
  destruct (reads_back_spec DH 2 0 24 (hour dt) reads_back_hour Hh)
    as (Lh & _).
  rewrite key_shape, !RunTimeCatalog.length_append, Ly, Lm, Ld, Lh.
  reflexivity.
Qed.

(** X14: the run key of a datetime on the hour, from the year 1000 on
    (where [%Y] gives four digits on every platform), has ten characters
    and reads back as that datetime: it is the text that
    [generate_run_times] stores, the worker puts into the URL and the file
    name, and [display_frame] parses.  So two such datetimes with the same
    key are the same. *)
Theorem run_key_round_trip (dt : datetime) :
  valid dt = true -> 1000 <= year dt ->
  minute dt = 0 -> second dt = 0 -> microsecond dt = 0 ->
  String.length (strftime dt "%Y%m%d%H") = 10%nat
  /\ strptime (strftime dt "%Y%m%d%H") "%Y%m%d%H" = Ok dt
  /\ forall dt',
       valid dt' = true -> 1000 <= year dt' ->
       minute dt' = 0 -> second dt' = 0 -> microsecond dt' = 0 ->
       strftime dt' "%Y%m%d%H" = strftime dt "%Y%m%d%H" -> dt' = dt.
Proof.
  intros Hv _ Hm Hs Hu.
  split; [apply run_key_length, Hv|].
  split; [apply strptime_run_key; assumption|].
  intros dt' Hv' _ Hm' Hs' Hu' E.
  pose proof (strptime_run_key dt Hv Hm Hs Hu) as R.
  pose proof (strptime_run_key dt' Hv' Hm' Hs' Hu') as R'.
  rewrite E, R in R'. inversion R'. reflexivity.
Qed.

(** X14 for the run of 2024-01-01 00Z. *)
Lemma run_key_round_trip_witness :
  String.length (strftime (mk 2024 1 1 0 0 0 0) "%Y%m%d%H") = 10%nat
  /\ strptime (strftime (mk 2024 1 1 0 0 0 0) "%Y%m%d%H") "%Y%m%d%H"
     = Ok (mk 2024 1 1 0 0 0 0)
  /\ forall dt',
       valid dt' = true -> 1000 <= year dt' ->
       minute dt' = 0 -> second dt' = 0 -> microsecond dt' = 0 ->
       strftime dt' "%Y%m%d%H" = strftime (mk 2024 1 1 0 0 0 0) "%Y%m%d%H" ->
       dt' = mk 2024 1 1 0 0 0 0.
Proof.
  apply (run_key_round_trip (mk 2024 1 1 0 0 0 0));
    [reflexivity | discriminate | reflexivity ..].
Defined.

Import RunTimeCatalog.

Lemma dict_get_In {V : Type} (d : list (string * V)) (k : string) (v : V) :
  NoDup (map fst d) -> In (k, v) d -> Py.dict_get d k = Some v.
Proof.
  induction d as [|[k' v'] d IH]; simpl; intros Hnd Hin; [contradiction|].
  inversion Hnd as [|? ? Hk Hnd']; subst.
  destruct Hin as [E | Hin].
  - inversion E; subst. rewrite String.eqb_refl. reflexivity.
  - destruct (String.eqb_spec k' k) as [E|E].
    + exfalso. apply Hk. subst k'.
      change k with (fst (k, v)). apply in_map. exact Hin.
    + apply IH; assumption.
Qed.

Lemma late_enough (now : datetime) :
  hours_since_min (mk 1000 1 3 0 0 0 0) <= hours_since_min now ->
  42 <= hours_since_min now.
Proof.
  assert (H : 42 <= hours_since_min (mk 1000 1 3 0 0 0 0))
    by (vm_compute; discriminate).
  intro Hnow. exact (Z.le_trans _ _ _ H Hnow).
Qed.

Lemma generate_run_times_entries (now : datetime) :
  valid now = true -> 42 <= hours_since_min now ->
  let t0 := 6 * (hours_since_min now / 6) in
  generate_run_times now
  = Ok (map (fun i => run_time_entry (of_hours (t0 - 6 * i)) i)
            [0; 1; 2; 3; 4; 5; 6; 7])
  /\ NoDup (map (fun i => fst (run_time_entry (of_hours (t0 - 6 * i)) i))
              [0; 1; 2; 3; 4; 5; 6; 7]).
Proof.
  intros Hv Hlate t0.
  assert (Hnd : NoDup (map (fun i => fst (run_time_entry (of_hours (t0 - 6 * i)) i))
                         [0; 1; 2; 3; 4; 5; 6; 7])).
  { apply NoDup_map_NoDup_ForallPairs.
    - intros i j Hi Hj E.
      apply (run_label_inj now Hv Hlate);
        [simpl in Hi; lia | simpl in Hj; lia | exact E].
    - repeat constructor; simpl; lia. }
  split; [|exact Hnd].
  unfold generate_run_times.
  change (Py.range 0 8 1) with [0; 1; 2; 3; 4; 5; 6; 7].
  rewrite (run_times_loop_spec now (fun i => of_hours (t0 - 6 * i))).
  - reflexivity.
  - intros i Hin. apply run_time_dt_spec; [exact Hv | simpl in Hin; lia ..].
  - exact Hnd.
Qed.

(** X15: for a clock reading from 1000-01-03 on (every run then has a
    four-digit year), in the catalog every label finds the run key of its
    own entry, the first key of the dict (the initial selection of the
    run-time menu) is the label of the latest run, every run key reads back
    with [strptime] as the datetime of its run, and the eight run keys are
    different from each other. *)
Theorem catalog_lookup (now : datetime) :
  valid now = true ->
  hours_since_min (mk 1000 1 3 0 0 0 0) <= hours_since_min now ->
  let t0 := 6 * (hours_since_min now / 6) in
  let dt := fun i => of_hours (t0 - 6 * i) in
  exists d,
    generate_run_times now = Ok d
    /\ first_key d = strftime (dt 0) "%Y-%m-%d %HZ" ++ " (Latest)"
    /\ (forall i, 0 <= i < 8 ->
          Py.dict_get d (fst (run_time_entry (dt i) i))
          = Some (strftime (dt i) "%Y%m%d%H")
          /\ strptime (strftime (dt i) "%Y%m%d%H") "%Y%m%d%H" = Ok (dt i))
    /\ (forall i j, 0 <= i < 8 -> 0 <= j < 8 ->
          strftime (dt i) "%Y%m%d%H" = strftime (dt j) "%Y%m%d%H" -> i = j).
Proof.
  intros Hv Hnow t0 dt.
  pose proof (late_enough now Hnow) as Hlate.
  destruct (generate_run_times_entries now Hv Hlate) as [Hd Hnd].
  fold t0 in Hd, Hnd.
  assert (Hback : forall i, 0 <= i < 8 ->
            strptime (strftime (dt i) "%Y%m%d%H") "%Y%m%d%H" = Ok (dt i)).
  { intros i Hi.
    destruct (of_hours_spec _ (run_hours_range now Hv Hlate i Hi))
      as (V & _ & _ & Hm & Hs & Hu).
    apply strptime_run_key; assumption. }
  eexists. split; [exact Hd|]. split; [reflexivity|]. split.
  - intros i Hi. split; [|apply Hback, Hi].
    apply dict_get_In.
    + rewrite map_map. exact Hnd.
    + assert (Hin : In i [0; 1; 2; 3; 4; 5; 6; 7]) by (simpl; lia).
      apply (in_map (fun i => run_time_entry (of_hours (t0 - 6 * i)) i)) in Hin.
      unfold run_time_entry in *. exact Hin.
  - intros i j Hi Hj E.
    pose proof (Hback i Hi) as Ri. pose proof (Hback j Hj) as Rj.
    rewrite E, Rj in Ri. inversion Ri as [Hij].
    destruct (of_hours_spec _ (run_hours_range now Hv Hlate i Hi))
      as (_ & Ti & _).
    destruct (of_hours_spec _ (run_hours_range now Hv Hlate j Hj))
      as (_ & Tj & _).
    fold t0 in Ti, Tj. fold (dt i) in Ti. fold (dt j) in Tj.
    rewrite <- Hij in Ti. lia.
Qed.

(** X15 at 05:23 on 2024-03-01. *)
Lemma catalog_lookup_witness :
  let t0 := 6 * (hours_since_min sample_now / 6) in
  let dt := fun i => of_hours (t0 - 6 * i) in
  exists d,
    generate_run_times sample_now = Ok d
    /\ first_key d = strftime (dt 0) "%Y-%m-%d %HZ" ++ " (Latest)"
    /\ (forall i, 0 <= i < 8 ->
          Py.dict_get d (fst (run_time_entry (dt i) i))
          = Some (strftime (dt i) "%Y%m%d%H")
          /\ strptime (strftime (dt i) "%Y%m%d%H") "%Y%m%d%H" = Ok (dt i))
    /\ (forall i j, 0 <= i < 8 -> 0 <= j < 8 ->
          strftime (dt i) "%Y%m%d%H" = strftime (dt j) "%Y%m%d%H" -> i = j).
Proof.
  apply (catalog_lookup sample_now); [reflexivity | vm_compute; discriminate].
Defined.

Lemma first_click_args (load : string -> option photo) (k v : string)
  (rest : list (string * string)) :
  threads (step load ClickFetch (init ((k, v) :: rest)))
  = [mkArgs "https://m1o.pivotalweather.com" "gfs" v "refcmp" "conus"].
Proof.
  cbn [step init fetch_button enabled].
  unfold start_fetch_thread, set_animation_controls_state, selected_args.
  simpl. rewrite String.eqb_refl. reflexivity.
Qed.

(** X16: the application as it starts fetches the latest run.  With the
    catalog of a clock reading [now] from 1000-01-03 on and the selections
    [__init__] makes, the first click on Fetch starts exactly one worker:
    for gfs on its base URL, with the run key of the 6-hour boundary at or
    before [now], the first parameter of the menu and the continental US. *)
Theorem first_click_fetches_latest_run (load : string -> option photo)
  (now : datetime) :
  valid now = true ->
  hours_since_min (mk 1000 1 3 0 0 0 0) <= hours_since_min now ->
  exists d,
    generate_run_times now = Ok d
    /\ threads (step load ClickFetch (init d))
       = [mkArgs "https://m1o.pivotalweather.com" "gfs"
            (strftime (of_hours (6 * (hours_since_min now / 6))) "%Y%m%d%H")
            "refcmp" "conus"].
Proof.
  intros Hv Hnow.
  destruct (generate_run_times_entries now Hv (late_enough now Hnow))
    as [Hd _].
  cbv zeta in Hd. cbn [map] in Hd.
  replace (6 * (hours_since_min now / 6) - 6 * 0)
    with (6 * (hours_since_min now / 6)) in Hd by lia.
  eexists. split; [exact Hd|].
  apply first_click_args.
Qed.

(** X16 at 05:23 on 2024-03-01. *)
Lemma first_click_fetches_latest_run_witness :
  exists d,
    generate_run_times sample_now = Ok d
    /\ threads (step always_loads ClickFetch (init d))
       = [mkArgs "https://m1o.pivotalweather.com" "gfs"
            (strftime (of_hours (6 * (hours_since_min sample_now / 6)))
               "%Y%m%d%H")
            "refcmp" "conus"].
Proof.
  apply (first_click_fetches_latest_run always_loads sample_now);
    [reflexivity | vm_compute; discriminate].
Defined.

End RunKeys.

(** ** The labels of a frame *)

Module ValidTime.

Import Datetime.
Import RunTimeCatalog.
Import RunKeys.

Lemma has_char_append (c : ascii) (a b : string) :
  Py.has_char c (a ++ b) = Py.has_char c a || Py.has_char c b.
Proof.
  induction a as [|x a IH]; simpl; [reflexivity|].
  rewrite IH, orb_assoc. reflexivity.
Qed.

Lemma split_whole (sep : ascii) (s : string) :
  Py.has_char sep s = false -> Py.split sep s = [s].
Proof.
  induction s as [|c s IH]; simpl; intro H; [reflexivity|].
  apply orb_false_iff in H. destruct H as [Hc Hs].
  rewrite Hc, (IH Hs). reflexivity.
Qed.

Lemma path_join_relative (a : string) (c : ascii) (r : string) :
  Ascii.eqb c "/" = false ->
  Py.path_join a (String c r)
  = if (String.length a =? 0)%nat || Py.ends_with_slash a
    then a ++ String c r else a ++ "/" ++ String c r.
Proof.
  intro Hc. unfold Py.path_join.
  destruct c as [[] [] [] [] [] [] [] []]; try reflexivity. discriminate.
Qed.

(** The file of a frame lies directly in the default directory. *)
Lemma basename_default_dir (name : string) :
  Py.has_char "/" name = false -> name <> "" ->
  Py.basename (Py.path_join "weather_images" name) = name.
Proof.
  intros Hs Hne. destruct name as [|c r]; [contradiction|].
  simpl in Hs. apply orb_false_iff in Hs. destruct Hs as [Hc Hr].
  rewrite (path_join_relative _ _ _ Hc).
  change (if (String.length "weather_images" =? 0)%nat
             || Py.ends_with_slash "weather_images"
          then "weather_images" ++ String c r
          else "weather_images" ++ "/" ++ String c r)
    with ("weather_images" ++ String "/" (String c r)).
  unfold Py.basename. rewrite split_piece by reflexivity.
  rewrite split_whole by (simpl; rewrite Hc, Hr; reflexivity).
  reflexivity.
Qed.

Lemma plain_3 : plain_table 3 0 1000 = true.
Proof. vm_compute. reflexivity. Qed.

Lemma plain_3_spec (h : Z) :
  0 <= h < 1000 ->
  Py.has_char "_" (Py.fmt_d 3 h) = false
  /\ Py.has_char "/" (Py.fmt_d 3 h) = false.
Proof.
  intro Hh. pose proof plain_3 as H. unfold plain_table in H.
  rewrite forallb_forall in H.
  assert (Hin : In h (Py.range 0 1000 1))
    by (apply range_In; [lia | split; [lia | apply Z.mod_1_r]]).
  specialize (H h Hin). rewrite andb_true_iff, !negb_true_iff in H. exact H.
Qed.

(** A run key consists of digits. *)
Lemma run_key_plain (dt : datetime) :
  valid dt = true ->
  Py.has_char "_" (strftime dt "%Y%m%d%H") = false
  /\ Py.has_char "/" (strftime dt "%Y%m%d%H") = false.
Proof.
  intro Hv. destruct (key_fields dt Hv) as (Hy & Hmo & Hd & Hh).
  destruct (reads_back_spec DY 4 1 10000 (year dt) reads_back_year Hy)
    as (_ & Y1 & Y2 & _).
  destruct (reads_back_spec Dm 2 1 13 (month dt) reads_back_month Hmo)
    as (_ & M1 & M2 & _).
  destruct (reads_back_spec Dd 2 1 32 (day dt) reads_back_day Hd)
    as (_ & D1 & D2 & _).
  destruct (reads_back_spec DH 2 0 24 (hour dt) reads_back_hour Hh)
    as (_ & H1 & H2 & _).
  rewrite key_shape, !has_char_append, Y1, Y2, M1, M2, D1, D2, H1, H2.
  split; reflexivity.
Qed.

Section Labels.

Variables model parameter region : string.
Variable dt : datetime.
Variable hour : Z.

Hypothesis model_plain :
  Py.has_char "_" model = false /\ Py.has_char "/" model = false.
Hypothesis codes_plain :
  Py.has_char "/" parameter = false /\ Py.has_char "/" region = false.
Hypothesis run_valid : valid dt = true.
Hypothesis hour_range : 0 <= hour < 1000.

Local Abbreviation run := (strftime dt "%Y%m%d%H").
Local Abbreviation name :=
  (model ++ "_" ++ run ++ "_" ++ Py.fmt_d 3 hour ++ "_"
   ++ parameter ++ "_" ++ region ++ ".png").

Lemma frame_name_pieces :
  Py.basename (frame_file model run parameter region "weather_images" hour)
  = name
  /\ Py.index (Py.split "_" name) 2 = Ok (Py.fmt_d 3 hour).
Proof.
  destruct model_plain as [Mu Ms]. destruct codes_plain as [Ps Rs].
  destruct (run_key_plain dt run_valid) as [Ku Ks].
  destruct (plain_3_spec hour hour_range) as [Fu Fs].
  split.
  - unfold frame_file. apply basename_default_dir.
    + rewrite !has_char_append.
      rewrite Ms, Ks, Fs, Ps, Rs. reflexivity.
    + destruct model; discriminate.
  - change (model ++ "_" ++ run ++ "_" ++ Py.fmt_d 3 hour ++ "_"
            ++ parameter ++ "_" ++ region ++ ".png")
      with (model ++ String "_" (run ++ String "_"
              (Py.fmt_d 3 hour ++ String "_"
                 (parameter ++ "_" ++ region ++ ".png")))).
    rewrite !split_piece by assumption.
    unfold Py.index. cbn [List.length].
    change (2 <? 0) with false. cbv iota. change (0 <=? 2) with true.
    cbn [andb].
    match goal with |- context [2 <? ?n] =>
      destruct (Z.ltb_spec 2 n) as [Hlt|Hge]; [reflexivity | lia] end.
Qed.

End Labels.

(** X17: for a model code without underscore, the run key of the
    datetime [dt] of a run on the hour (from the year 1000 on) and a
    forecast hour below 1000, the labels that [display_frame] computes for
    the frame's file in the default directory are those of [dt], of the
    three-digit hour and of [dt] plus that many hours; the only error left
    is a valid time beyond the year 9999. *)
Theorem frame_metadata_run_plus_hour (model parameter region : string)
  (dt : datetime) (hour : Z) :
  Py.has_char "_" model = false /\ Py.has_char "/" model = false ->
  Py.has_char "/" parameter = false /\ Py.has_char "/" region = false ->
  valid dt = true -> 1000 <= year dt ->
  minute dt = 0 /\ second dt = 0 /\ microsecond dt = 0 ->
  0 <= hour < 1000 ->
  frame_metadata (Some (strftime dt "%Y%m%d%H"))
    (frame_file model (strftime dt "%Y%m%d%H") parameter region
       "weather_images" hour)
  = (valid_dt_obj <- add_hours dt hour ;;
     Ok ("Model Run: " ++ strftime dt "%Y-%m-%d %H:%M" ++ "Z",
         "Forecast Hour: F" ++ Py.fmt_d 3 hour,
         "Valid Time: " ++ strftime valid_dt_obj "%Y-%m-%d %H:%M" ++ "Z")).
Proof.
  intros Hmodel Hcodes Hv _ (Hm & Hs & Hu) Hhour.
  destruct (frame_name_pieces model parameter region dt hour
              Hmodel Hcodes Hv Hhour) as [Hb Hi].
  unfold frame_metadata. rewrite Hb, Hi. cbn [bind].
  rewrite (strptime_run_key dt Hv Hm Hs Hu). cbn [bind].
  rewrite (proj2 (fmt_table_spec 3 1000 hour fmt_table_3 Hhour)).
  reflexivity.
Qed.

(** X17 for hour 12 of the gfs run of 2024-01-01 00Z. *)
Lemma frame_metadata_run_plus_hour_witness :
  frame_metadata (Some "2024010100") (sample_frame "gfs" 12)
  = Ok ("Model Run: 2024-01-01 00:00Z", "Forecast Hour: F012",
        "Valid Time: 2024-01-01 12:00Z").
Proof.
  apply (frame_metadata_run_plus_hour "gfs" "sfct-imp" "conus"
           (mk 2024 1 1 0 0 0 0) 12).
  - split; reflexivity.
  - split; reflexivity.
  - reflexivity.
  - discriminate.
  - repeat split; reflexivity.
  - split; [discriminate | reflexivity].
Defined.

End ValidTime.
